(** * ANX7688 USB-C bridge / PD driver: a shallow embedding

    The development follows [drivers/usb/typec/anx7688.c] (the
    [DISABLE_OCM == 0] configuration).  The driver's [struct anx7688] is a
    record, every function of the driver is a state-passing function with
    the name it has in the C file, and everything outside the driver (the
    I2C bus, GPIO lines, regulators, the upstream power supply, the Type-C
    class, the role switch, extcon, sleeping) is an _external call_: the call
    is appended to a trace together with the value it returned, and that
    value is chosen by an arbitrary environment.  Theorems quantify over all
    environments, so they hold for every behaviour of the hardware.

    Logging ([dev_dbg], [dev_info], [dev_warn], [dev_err]) and locking have
    no effect on the driver's state and are left out. *)

From Stdlib Require Import ZArith List Bool Lia.
Import ListNotations.
Local Open Scope Z_scope.

(** ** Machine integers *)

(** [u8], [unsigned] (32 bit), [int] (32 bit) and [s64] values are integers
    of [Z]; a store into a narrower type wraps around. *)
Definition u8 (z : Z) : Z := z mod 256.
Definition u32 (z : Z) : Z := z mod 2 ^ 32.
Definition s32 (z : Z) : Z := (z + 2 ^ 31) mod 2 ^ 32 - 2 ^ 31.
Definition s64 (z : Z) : Z := (z + 2 ^ 63) mod 2 ^ 64 - 2 ^ 63.

(** Integer division of C: [None] stands for the division by zero, which
    the machine answers with a trap. *)
Definition int_div (a b : Z) : option Z :=
  if b =? 0 then None else Some (s32 (Z.quot a b)).

(** ** Constants of the kernel headers *)

(** [errno-base.h] and [errno.h]. *)
Definition EIO : Z := 5.
Definition EBUSY : Z := 16.
Definition EINVAL : Z := 22.
Definition ETIMEDOUT : Z := 110.

(** [linux/err.h]: a pointer in the last page encodes an error. *)
Definition MAX_ERRNO : Z := 4095.
Definition IS_ERR (p : Z) : bool := (- MAX_ERRNO <=? p) && (p <? 0).
Definition PTR_ERR (p : Z) : Z := p.

(** [linux/usb/typec.h] and [linux/usb/role.h]. *)
Definition TYPEC_SINK : Z := 0.
Definition TYPEC_SOURCE : Z := 1.
Definition TYPEC_DEVICE : Z := 0.
Definition TYPEC_HOST : Z := 1.
Definition TYPEC_PWR_MODE_USB : Z := 0.
Definition TYPEC_PWR_MODE_1_5A : Z := 1.
Definition TYPEC_PWR_MODE_3_0A : Z := 2.
Definition TYPEC_PWR_MODE_PD : Z := 3.
Definition USB_ROLE_NONE : Z := 0.
Definition USB_ROLE_HOST : Z := 1.
Definition USB_ROLE_DEVICE : Z := 2.

(** [linux/ktime.h]: [ktime_t] counts nanoseconds in a signed 64-bit
    integer. *)
Definition NSEC_PER_MSEC : Z := 1000000.
Definition NSEC_PER_USEC : Z := 1000.
Definition ktime_add_ms (kt msec : Z) : Z := s64 (kt + msec * NSEC_PER_MSEC).
Definition ktime_after (cmp1 cmp2 : Z) : bool := cmp1 >? cmp2.

(** ** Registers and messages of the chip *)

Definition ANX7688_REG_VBUS_OFF_DELAY_TIME : Z := 0x22.
Definition ANX7688_REG_FEATURE_CTRL : Z := 0x27.
Definition ANX7688_REG_EEPROM_LOAD_STATUS0 : Z := 0x12.
Definition ANX7688_REG_FW_VERSION1 : Z := 0x15.
Definition ANX7688_EEPROM_FW_LOADED : Z := 0x01.
Definition ANX7688_REG_STATUS_INT_MASK : Z := 0x17.
Definition ANX7688_REG_STATUS_INT : Z := 0x28.
Definition ANX7688_REG_STATUS : Z := 0x29.
Definition ANX7688_VCONN_STATUS : Z := 4.
Definition ANX7688_VBUS_STATUS : Z := 8.
Definition ANX7688_DATA_ROLE_STATUS : Z := 32.
Definition ANX7688_REG_CC_STATUS : Z := 0x2a.
Definition ANX7688_REG_TRY_UFP_TIMER : Z := 0x23.
Definition ANX7688_REG_MAX_VOLTAGE : Z := 0x1b.
Definition ANX7688_REG_MAX_POWER : Z := 0x1c.
Definition ANX7688_REG_MIN_POWER : Z := 0x1d.
Definition ANX7688_REG_MAX_VOLTAGE_STATUS : Z := 0x1e.
Definition ANX7688_REG_MAX_POWER_STATUS : Z := 0x1f.
Definition ANX7688_SOFT_INT_MASK : Z := 0x7f.
Definition ANX7688_TCPC_REG_INTERFACE_SEND : Z := 0x30.
Definition ANX7688_TCPC_REG_INTERFACE_RECV : Z := 0x51.
Definition ANX7688_REG_IRQ_EXT_SOURCE2 : Z := 0x4f.
Definition ANX7688_REG_IRQ_EXT_MASK2 : Z := 0x3d.
Definition ANX7688_IRQ2_SOFT_INT : Z := 4.

Definition ANX7688_OCM_MSG_PWR_SRC_CAP : Z := 0x00.
Definition ANX7688_OCM_MSG_PWR_SNK_CAP : Z := 0x01.
Definition ANX7688_OCM_MSG_DP_SNK_IDENTITY : Z := 0x02.
Definition ANX7688_OCM_MSG_SVID : Z := 0x03.
Definition ANX7688_OCM_MSG_PWR_OBJ_REQ : Z := 0x16.
Definition ANX7688_OCM_MSG_HARD_RST : Z := 0xf2.

(** The flag numbers of the anonymous [enum] next to [struct anx7688]. *)
Definition ANX7688_F_POWERED : Z := 0.
Definition ANX7688_F_CONNECTED : Z := 1.
Definition ANX7688_F_FW_FAILED : Z := 2.
Definition ANX7688_F_PWRSUPPLY_CHANGE : Z := 3.
Definition ANX7688_F_CURRENT_UPDATE : Z := 4.

(** [set_bit], [clear_bit] and [test_bit] on the one-word bitmap [flags]. *)
Definition set_bit (nr : Z) (word : Z) : Z := Z.setbit word nr.
Definition clear_bit (nr : Z) (word : Z) : Z := Z.clearbit word nr.
Definition test_bit (nr : Z) (word : Z) : bool := Z.testbit word nr.

(** ** The outside world *)

(** The two I2C clients of the chip. *)
Inductive client : Type := MAIN | TCPC.

Inductive gpio : Type := GPIO_ENABLE | GPIO_RESET | GPIO_CABLEDET.

(** The two switchable supplies, [ANX7688_VCONN_INDEX] and
    [ANX7688_VBUS_INDEX]. *)
Inductive supply : Type := VCONN | VBUS.

(** The properties of [vbus_in_supply] the driver touches. *)
Inductive psy_prop : Type :=
| POWER_SUPPLY_PROP_INPUT_CURRENT_LIMIT
| POWER_SUPPLY_PROP_ONLINE
| POWER_SUPPLY_PROP_USB_BC_ENABLED
| POWER_SUPPLY_PROP_USB_TYPE.

(** Every function the driver calls outside itself, with its arguments. *)
Inductive call : Type :=
| i2c_smbus_read_byte_data (c : client) (reg : Z)
| i2c_smbus_write_byte_data (c : client) (reg value : Z)
| i2c_smbus_read_i2c_block_data (c : client) (reg len : Z)
| i2c_smbus_write_i2c_block_data (c : client) (reg len : Z) (buf : list Z)
| gpiod_set_value (g : gpio) (value : Z)
| gpiod_get_value (g : gpio)
| regulator_enable (r : supply)
| regulator_disable (r : supply)
| msleep (msecs : Z)
| udelay (usecs : Z)
| power_supply_set_property (p : psy_prop) (intval : Z)
| power_supply_get_property (p : psy_prop)
| typec_set_pwr_role (role : Z)
| typec_set_data_role (role : Z)
| typec_set_pwr_opmode (mode : Z)
| typec_set_vconn_role (role : Z)
| typec_unregister_partner (p : Z)
| typec_register_partner
| usb_role_switch_set_role (role : Z)
| usb_role_switch_get_role
| extcon_set_state_sync (state : Z).

(** The environment answers the [n]-th external call of a run.  A block
    read also fills a buffer, and reading a power supply property also
    delivers the property's value. *)
Record Env : Type := {
  reply : call -> nat -> Z;
  block_data : nat -> list Z;
  propval : nat -> Z
}.

(** What a run has done so far: how many external calls it made, the
    monotonic clock (advanced by the sleeps of the driver), the calls with
    their return values in the order they were made, and whether a division
    by zero has trapped. *)
Record World : Type := {
  tick : nat;
  clock : Z;
  trace : list (call * Z);
  div_by_zero : bool
}.

(** Time a call is certain to take. *)
Definition duration (c : call) : Z :=
  match c with
  | msleep msecs => msecs * NSEC_PER_MSEC
  | udelay usecs => usecs * NSEC_PER_USEC
  | _ => 0
  end.

(** ** The driver's state *)

Record anx7688 : Type := mk_anx7688 {
  input_current_limit : Z;
  src_caps : list Z;
  n_src_caps : Z;
  snk_caps : list Z;
  n_snk_caps : Z;
  flags : Z;
  vbus_on : bool;
  vconn_on : bool;
  pd_capable : bool;
  pd_current_limit : Z;
  current_update_deadline : Z;
  partner : Z;
  pwr_role : Z;
  data_role : Z;
  last_status : Z;
  last_cc_status : Z;
  last_dp_state : Z;
  last_bc_result : Z;
  extcon : Z;
  last_extcon_state : Z
}.

Definition set_input_current_limit (v : Z) (a : anx7688) : anx7688 :=
  let (_, f2, f3, f4, f5, f6, f7, f8, f9, f10, f11, f12, f13, f14, f15, f16,
       f17, f18, f19, f20) := a in
  mk_anx7688 v f2 f3 f4 f5 f6 f7 f8 f9 f10 f11 f12 f13 f14 f15 f16 f17 f18
             f19 f20.
Definition set_flags (v : Z) (a : anx7688) : anx7688 :=
  let (f1, f2, f3, f4, f5, _, f7, f8, f9, f10, f11, f12, f13, f14, f15, f16,
       f17, f18, f19, f20) := a in
  mk_anx7688 f1 f2 f3 f4 f5 v f7 f8 f9 f10 f11 f12 f13 f14 f15 f16 f17 f18
             f19 f20.
Definition set_vbus_on (v : bool) (a : anx7688) : anx7688 :=
  let (f1, f2, f3, f4, f5, f6, _, f8, f9, f10, f11, f12, f13, f14, f15, f16,
       f17, f18, f19, f20) := a in
  mk_anx7688 f1 f2 f3 f4 f5 f6 v f8 f9 f10 f11 f12 f13 f14 f15 f16 f17 f18
             f19 f20.
Definition set_vconn_on (v : bool) (a : anx7688) : anx7688 :=
  let (f1, f2, f3, f4, f5, f6, f7, _, f9, f10, f11, f12, f13, f14, f15, f16,
       f17, f18, f19, f20) := a in
  mk_anx7688 f1 f2 f3 f4 f5 f6 f7 v f9 f10 f11 f12 f13 f14 f15 f16 f17 f18
             f19 f20.
Definition set_pd_capable (v : bool) (a : anx7688) : anx7688 :=
  let (f1, f2, f3, f4, f5, f6, f7, f8, _, f10, f11, f12, f13, f14, f15, f16,
       f17, f18, f19, f20) := a in
  mk_anx7688 f1 f2 f3 f4 f5 f6 f7 f8 v f10 f11 f12 f13 f14 f15 f16 f17 f18
             f19 f20.
Definition set_pd_current_limit (v : Z) (a : anx7688) : anx7688 :=
  let (f1, f2, f3, f4, f5, f6, f7, f8, f9, _, f11, f12, f13, f14, f15, f16,
       f17, f18, f19, f20) := a in
  mk_anx7688 f1 f2 f3 f4 f5 f6 f7 f8 f9 v f11 f12 f13 f14 f15 f16 f17 f18
             f19 f20.
Definition set_current_update_deadline (v : Z) (a : anx7688) : anx7688 :=
  let (f1, f2, f3, f4, f5, f6, f7, f8, f9, f10, _, f12, f13, f14, f15, f16,
       f17, f18, f19, f20) := a in
  mk_anx7688 f1 f2 f3 f4 f5 f6 f7 f8 f9 f10 v f12 f13 f14 f15 f16 f17 f18
             f19 f20.
Definition set_partner (v : Z) (a : anx7688) : anx7688 :=
  let (f1, f2, f3, f4, f5, f6, f7, f8, f9, f10, f11, _, f13, f14, f15, f16,
       f17, f18, f19, f20) := a in
  mk_anx7688 f1 f2 f3 f4 f5 f6 f7 f8 f9 f10 f11 v f13 f14 f15 f16 f17 f18
             f19 f20.
Definition set_pwr_role (v : Z) (a : anx7688) : anx7688 :=
  let (f1, f2, f3, f4, f5, f6, f7, f8, f9, f10, f11, f12, _, f14, f15, f16,
       f17, f18, f19, f20) := a in
  mk_anx7688 f1 f2 f3 f4 f5 f6 f7 f8 f9 f10 f11 f12 v f14 f15 f16 f17 f18
             f19 f20.
Definition set_data_role (v : Z) (a : anx7688) : anx7688 :=
  let (f1, f2, f3, f4, f5, f6, f7, f8, f9, f10, f11, f12, f13, _, f15, f16,
       f17, f18, f19, f20) := a in
  mk_anx7688 f1 f2 f3 f4 f5 f6 f7 f8 f9 f10 f11 f12 f13 v f15 f16 f17 f18
             f19 f20.
Definition set_last_status (v : Z) (a : anx7688) : anx7688 :=
  let (f1, f2, f3, f4, f5, f6, f7, f8, f9, f10, f11, f12, f13, f14, _, f16,
       f17, f18, f19, f20) := a in
  mk_anx7688 f1 f2 f3 f4 f5 f6 f7 f8 f9 f10 f11 f12 f13 f14 v f16 f17 f18
             f19 f20.
Definition set_last_cc_status (v : Z) (a : anx7688) : anx7688 :=
  let (f1, f2, f3, f4, f5, f6, f7, f8, f9, f10, f11, f12, f13, f14, f15, _,
       f17, f18, f19, f20) := a in
  mk_anx7688 f1 f2 f3 f4 f5 f6 f7 f8 f9 f10 f11 f12 f13 f14 f15 v f17 f18
             f19 f20.
Definition set_last_dp_state (v : Z) (a : anx7688) : anx7688 :=
  let (f1, f2, f3, f4, f5, f6, f7, f8, f9, f10, f11, f12, f13, f14, f15, f16,
       _, f18, f19, f20) := a in
  mk_anx7688 f1 f2 f3 f4 f5 f6 f7 f8 f9 f10 f11 f12 f13 f14 f15 f16 v f18
             f19 f20.
Definition set_last_bc_result (v : Z) (a : anx7688) : anx7688 :=
  let (f1, f2, f3, f4, f5, f6, f7, f8, f9, f10, f11, f12, f13, f14, f15, f16,
       f17, _, f19, f20) := a in
  mk_anx7688 f1 f2 f3 f4 f5 f6 f7 f8 f9 f10 f11 f12 f13 f14 f15 f16 f17 v
             f19 f20.
Definition set_last_extcon_state (v : Z) (a : anx7688) : anx7688 :=
  let (f1, f2, f3, f4, f5, f6, f7, f8, f9, f10, f11, f12, f13, f14, f15, f16,
       f17, f18, f19, _) := a in
  mk_anx7688 f1 f2 f3 f4 f5 f6 f7 f8 f9 f10 f11 f12 f13 f14 f15 f16 f17 f18
             f19 v.

(** ** Two small state monads *)

(** [IO] is code that only talks to the outside world; [M] is code that
    also reads and writes [struct anx7688]. *)
Definition IO (A : Type) : Type := World -> A * World.
Definition M (A : Type) : Type := anx7688 -> World -> A * anx7688 * World.

Definition io_ret {A} (a : A) : IO A := fun w => (a, w).
Definition io_bind {A B} (c : IO A) (k : A -> IO B) : IO B :=
  fun w => let (a, w1) := c w in k a w1.

Definition ret {A} (a : A) : M A := fun s w => (a, s, w).
Definition bind {A B} (c : M A) (k : A -> M B) : M B :=
  fun s w => let '(a, s1, w1) := c s w in k a s1 w1.
Definition lift {A} (c : IO A) : M A :=
  fun s w => let (a, w1) := c w in (a, s, w1).
Definition get : M anx7688 := fun s w => (s, s, w).
Definition modify (f : anx7688 -> anx7688) : M unit :=
  fun s w => (tt, f s, w).

Declare Scope io_scope.
Delimit Scope io_scope with io.
Notation "x <~ c ;; k" := (io_bind c (fun x => k))
  (at level 61, c at next level, right associativity) : io_scope.
Notation "c ;;; k" := (io_bind c (fun _ => k))
  (at level 61, right associativity) : io_scope.

Declare Scope m_scope.
Delimit Scope m_scope with m.
Notation "x <- c ;; k" := (bind c (fun x => k))
  (at level 61, c at next level, right associativity) : m_scope.
Notation "' pat <- c ;; k" :=
  (bind c (fun x => match x with pat => k end))
  (at level 61, pat pattern, c at next level, right associativity) : m_scope.
Notation "c ;; k" := (bind c (fun _ => k))
  (at level 61, right associativity) : m_scope.

Definition len (l : list Z) : Z := Z.of_nat (length l).

(** ** The OCM message frame *)

(** The checksum loop of [anx7688_send_ocm_message]:
    [pkt[data_len + 2] = 0; for (i ...) pkt[data_len + 2] -= pkt[i];]
    on a [u8]. *)
Definition ocm_checksum (pkt : list Z) : Z :=
  fold_left (fun c b => u8 (c - b)) pkt 0.

(** The [data_len + 3] bytes of [pkt] that [anx7688_send_ocm_message]
    prepares and transmits. *)
Definition ocm_frame (cmd : Z) (data : list Z) : list Z :=
  let data_len := len data in
  let pkt := u8 (data_len + 1) :: u8 cmd :: map u8 data in
  pkt ++ [ocm_checksum pkt].

(** The checksum loop of [anx7688_receive_msg]:
    [for (i = 0; i < pkt[0] + 2; i++) checksum += pkt[i];] on a [u8]. *)
Definition recv_checksum (pkt : list Z) : Z :=
  fold_left (fun c b => u8 (c + b)) (firstn (Z.to_nat (nth 0 pkt 0 + 2)) pkt) 0.

(** Sum of the bytes of a frame. *)
Definition byte_sum (l : list Z) : Z := fold_left Z.add l 0.

(** ** The driver *)

Section Driver.

Variable env : Env.

(** An external call: the environment picks the return value, the call is
    recorded and the clock moves on by the time the call sleeps. *)
Definition extern (c : call) : IO Z := fun w =>
  let r := reply env c (tick w) in
  (r, {| tick := S (tick w);
         clock := clock w + duration c;
         trace := trace w ++ [(c, r)];
         div_by_zero := div_by_zero w |}).

(** [power_supply_get_property]: the return value and the value stored
    through the pointer argument. *)
Definition psy_get (p : psy_prop) : IO (Z * Z) := fun w =>
  let (r, w1) := extern (power_supply_get_property p) w in
  ((r, propval env (tick w)), w1).

(** A block read: the return value and the 32 bytes of the [u8] buffer
    [pkt] after the call. *)
Definition block_read (c : client) (reg : Z) : IO (Z * list Z) := fun w =>
  let (r, w1) := extern (i2c_smbus_read_i2c_block_data c reg 32) w in
  ((r, map (fun i => u8 (nth i (block_data env (tick w)) 0)) (seq 0 32)), w1).

Definition ktime_get : IO Z := fun w => (clock w, w).

Definition trap : IO unit := fun w =>
  (tt, {| tick := tick w; clock := clock w; trace := trace w;
          div_by_zero := true |}).

Definition anx7688_reg_read (reg_addr : Z) : IO Z :=
  extern (i2c_smbus_read_byte_data MAIN reg_addr).

Definition anx7688_reg_write (reg_addr value : Z) : IO Z :=
  extern (i2c_smbus_write_byte_data MAIN reg_addr (u8 value)).

Definition anx7688_tcpc_reg_read (reg_addr : Z) : IO Z :=
  extern (i2c_smbus_read_byte_data TCPC reg_addr).

Definition anx7688_tcpc_reg_write (reg_addr value : Z) : IO Z :=
  extern (i2c_smbus_write_byte_data TCPC reg_addr (u8 value)).

Definition anx7688_power_enable : M unit :=
  (lift (extern (gpiod_set_value GPIO_RESET 1)) ;;
   lift (extern (gpiod_set_value GPIO_ENABLE 1)) ;;
   lift (extern (msleep 10)) ;;
   lift (extern (gpiod_set_value GPIO_RESET 0)) ;;
   lift (extern (udelay 2)) ;;
   modify (fun a => set_flags (set_bit ANX7688_F_POWERED (flags a)) a))%m.

Definition anx7688_power_disable : M unit :=
  (lift (extern (gpiod_set_value GPIO_RESET 1)) ;;
   lift (extern (msleep 5)) ;;
   lift (extern (gpiod_set_value GPIO_ENABLE 0)) ;;
   modify (fun a => set_flags (clear_bit ANX7688_F_POWERED (flags a)) a))%m.

(** The loop of [anx7688_send_ocm_message] that waits for the message
    queue to drain; [n] is the number of iterations left. *)
Fixpoint send_wait_flush (n : nat) : IO Z :=
  match n with
  | O => io_ret (- ETIMEDOUT)
  | S n' =>
      (r <~ anx7688_tcpc_reg_read ANX7688_TCPC_REG_INTERFACE_SEND ;;
       if r <=? 0 then io_ret r
       else (extern (udelay 100) ;;; send_wait_flush n'))%io
  end.

(** [data] is the payload with its [data_len] bytes. *)
Definition anx7688_send_ocm_message (cmd : Z) (data : list Z) : IO Z :=
  let data_len := len data in
  if data_len >? 32 - 3 then io_ret (- EINVAL)
  else
    let pkt := ocm_frame cmd data in
    (r <~ anx7688_tcpc_reg_read ANX7688_TCPC_REG_INTERFACE_SEND ;;
     if negb (r =? 0) then io_ret (- EBUSY)
     else
       (extern (i2c_smbus_write_i2c_block_data
                  TCPC ANX7688_TCPC_REG_INTERFACE_SEND (data_len + 3) pkt) ;;;
        send_wait_flush 300))%io.

(** The loop of [anx7688_connect] that waits for the firmware: [true] is
    the jump to [fw_loaded], [false] is leaving the loop after the last
    iteration. *)
Fixpoint connect_wait_fw (n : nat) : IO bool :=
  match n with
  | O => io_ret false
  | S n' =>
      (r <~ anx7688_reg_read ANX7688_REG_EEPROM_LOAD_STATUS0 ;;
       if (r >=? 0)
          && (Z.land r ANX7688_EEPROM_FW_LOADED =? ANX7688_EEPROM_FW_LOADED)
       then io_ret true
       else (extern (msleep 5) ;;; connect_wait_fw n'))%io
  end.

(** A run of statements [ret = step; if (ret) goto err;]: the value of the
    first step that does not return 0, or 0 after the last step. *)
Fixpoint until_error (steps : list (IO Z)) : IO Z :=
  match steps with
  | [] => io_ret 0
  | c :: rest =>
      (r <~ c ;; if negb (r =? 0) then io_ret r else until_error rest)%io
  end.

Definition dp_snk_identity : list Z :=
  [0x00; 0x00; 0x00; 0xec; 0x00; 0x00; 0x00; 0x00;
   0x00; 0x00; 0x00; 0x00; 0x39; 0x00; 0x00; 0x51].

Definition svid : list Z := [0x00; 0x00; 0x01; 0xff].

(** [cpu_to_le32] of one capability, as the bytes in memory. *)
Definition cpu_to_le32 (v : Z) : list Z :=
  [u8 v; u8 (Z.shiftr v 8); u8 (Z.shiftr v 16); u8 (Z.shiftr v 24)].

(** The first [4 * n] bytes of [caps] after
    [for (i = 0; i < n; i++) caps[i] = cpu_to_le32(arr[i]);]. *)
Definition caps_bytes (arr : list Z) (n : Z) : list Z :=
  flat_map (fun i => cpu_to_le32 (nth i arr 0)) (seq 0 (Z.to_nat n)).

(** The reading of the firmware version: only a negative return value is a
    failure there. *)
Definition connect_read_fw_version : IO Z :=
  (r <~ extern (i2c_smbus_read_i2c_block_data MAIN ANX7688_REG_FW_VERSION1 2) ;;
   io_ret (if r <? 0 then r else 0))%io.

(** The statements of [anx7688_connect] from the label [fw_loaded] to the
    message "OCM configuration completed", each followed by
    [goto err_vconoff] on failure. *)
Definition connect_config (a : anx7688) : list (IO Z) :=
  [ connect_read_fw_version;
    anx7688_reg_write ANX7688_REG_STATUS_INT 0;
    anx7688_reg_write ANX7688_REG_STATUS_INT_MASK
                      (Z.lnot ANX7688_SOFT_INT_MASK);
    anx7688_reg_write ANX7688_REG_IRQ_EXT_SOURCE2 0xff;
    anx7688_reg_write ANX7688_REG_IRQ_EXT_MASK2 (Z.lnot ANX7688_IRQ2_SOFT_INT);
    anx7688_reg_write ANX7688_REG_VBUS_OFF_DELAY_TIME (100 / 4);
    anx7688_reg_write ANX7688_REG_TRY_UFP_TIMER (300 / 2);
    anx7688_reg_write ANX7688_REG_MAX_VOLTAGE 50;
    anx7688_reg_write ANX7688_REG_MAX_POWER (15 * 2);
    anx7688_reg_write ANX7688_REG_MIN_POWER 1;
    anx7688_reg_write ANX7688_REG_FEATURE_CTRL (Z.land 0x1e (Z.lnot 4));
    anx7688_send_ocm_message ANX7688_OCM_MSG_PWR_SRC_CAP
                             (caps_bytes (src_caps a) (n_src_caps a));
    anx7688_send_ocm_message ANX7688_OCM_MSG_PWR_SNK_CAP
                             (caps_bytes (snk_caps a) (n_snk_caps a));
    anx7688_send_ocm_message ANX7688_OCM_MSG_DP_SNK_IDENTITY dp_snk_identity;
    anx7688_send_ocm_message ANX7688_OCM_MSG_SVID svid ].

(** The two exits of [anx7688_connect] through its error labels. *)
Definition err_poweroff (r : Z) : M Z :=
  (anx7688_power_disable ;; ret r)%m.

Definition err_vconoff (r : Z) : M Z :=
  (lift (extern (regulator_disable VCONN)) ;;
   modify (set_vconn_on false) ;;
   err_poweroff r)%m.

Definition anx7688_connect : M Z :=
  (modify (set_last_status (-1)) ;;
   modify (set_last_cc_status (-1)) ;;
   modify (set_last_dp_state (-1)) ;;
   lift (extern (msleep 10)) ;;
   anx7688_power_enable ;;
   r <- lift (extern (regulator_enable VCONN)) ;;
   if negb (r =? 0) then err_poweroff r
   else
     (modify (set_vconn_on true) ;;
      loaded <- lift (connect_wait_fw 100) ;;
      if negb loaded then
        (modify (fun a => set_flags (set_bit ANX7688_F_FW_FAILED (flags a)) a) ;;
         err_vconoff (- ETIMEDOUT))
      else
        (a <- get ;;
         r <- lift (until_error (connect_config a)) ;;
         if negb (r =? 0) then err_vconoff r
         else
           (lift (extern (typec_unregister_partner (partner a))) ;;
            p <- lift (extern typec_register_partner) ;;
            modify (set_partner p) ;;
            if IS_ERR p then err_vconoff (PTR_ERR p)
            else
              (now <- lift ktime_get ;;
               modify (set_current_update_deadline (ktime_add_ms now 3000)) ;;
               modify (fun a =>
                         set_flags (set_bit ANX7688_F_CONNECTED (flags a)) a) ;;
               ret 0)))))%m.

Definition anx7688_set_hdmi_hpd (state : Z) : M unit :=
  (a <- get ;;
   if extcon a =? 0 then ret tt
   else if negb (last_extcon_state a =? state) then
     (lift (extern (extcon_set_state_sync state)) ;;
      modify (set_last_extcon_state state))
   else ret tt)%m.

Definition anx7688_disconnect : M unit :=
  (modify (set_current_update_deadline 0) ;;
   anx7688_set_hdmi_hpd 0 ;;
   a <- get ;;
   (if vconn_on a then
      (lift (extern (regulator_disable VCONN)) ;; modify (set_vconn_on false))
    else ret tt) ;;
   a <- get ;;
   (if vbus_on a then
      (lift (extern (regulator_disable VBUS)) ;; modify (set_vbus_on false))
    else ret tt) ;;
   anx7688_power_disable ;;
   modify (set_pd_capable false) ;;
   a <- get ;;
   lift (extern (typec_unregister_partner (partner a))) ;;
   modify (set_partner 0) ;;
   modify (set_pwr_role TYPEC_SINK) ;;
   modify (set_data_role TYPEC_DEVICE) ;;
   a <- get ;;
   lift (extern (typec_set_pwr_role (pwr_role a))) ;;
   lift (extern (typec_set_data_role (data_role a))) ;;
   lift (extern (typec_set_pwr_opmode TYPEC_PWR_MODE_USB)) ;;
   lift (extern (typec_set_vconn_role TYPEC_SINK)) ;;
   lift (extern (usb_role_switch_set_role USB_ROLE_NONE)) ;;
   lift (extern (power_supply_set_property
                   POWER_SUPPLY_PROP_INPUT_CURRENT_LIMIT (500 * 1000))) ;;
   lift (extern (power_supply_set_property POWER_SUPPLY_PROP_ONLINE 0)) ;;
   lift (extern (power_supply_set_property
                   POWER_SUPPLY_PROP_USB_BC_ENABLED 1)) ;;
   modify (fun a => set_flags (clear_bit ANX7688_F_CONNECTED (flags a)) a))%m.

Definition anx7688_handle_cable_change : M unit :=
  (a <- get ;;
   let connected := test_bit ANX7688_F_CONNECTED (flags a) in
   cabledet <- lift (extern (gpiod_get_value GPIO_CABLEDET)) ;;
   if negb (cabledet =? 0) && negb connected then
     (anx7688_connect ;; ret tt)
   else if (cabledet =? 0) && connected then anx7688_disconnect
   else ret tt)%m.

(** Only the cases of the [switch] that do more than log are spelled out:
    every other command, known or unknown, falls to the final [return 0].
    [msg] is the payload and [len] its length. *)
Definition anx7688_handle_pd_message (cmd : Z) (msg : list Z) (len : Z)
  : M Z :=
  (if cmd =? ANX7688_OCM_MSG_PWR_SRC_CAP then
     if negb (len mod 4 =? 0) then ret 0
     else
       (modify (set_pd_capable true) ;;
        rdo_max_v <- lift (anx7688_reg_read ANX7688_REG_MAX_VOLTAGE_STATUS) ;;
        if rdo_max_v <? 0 then ret rdo_max_v
        else if rdo_max_v =? 0 then ret (- EINVAL)
        else
          (rdo_max_p <- lift (anx7688_reg_read ANX7688_REG_MAX_POWER_STATUS) ;;
           if rdo_max_p <? 0 then ret rdo_max_p
           else
             match int_div (s32 (rdo_max_p * 5000)) rdo_max_v with
             | None => (lift trap ;; ret 0)
             | Some limit =>
                 (modify (set_pd_current_limit limit) ;;
                  now <- lift ktime_get ;;
                  modify (set_current_update_deadline (ktime_add_ms now 500)) ;;
                  ret 0)
             end))
   else if cmd =? ANX7688_OCM_MSG_PWR_OBJ_REQ then
     (modify (set_pd_capable true) ;; ret 0)
   else if cmd =? ANX7688_OCM_MSG_HARD_RST then
     (a <- get ;;
      if pd_capable a then
        (lift (extern (power_supply_set_property POWER_SUPPLY_PROP_ONLINE 0)) ;;
         now <- lift ktime_get ;;
         modify (set_current_update_deadline (ktime_add_ms now 3000)) ;;
         ret 0)
      else ret 0)
   else ret 0)%m.

Definition anx7688_receive_msg : M Z :=
  ('(r, pkt) <- lift (block_read TCPC ANX7688_TCPC_REG_INTERFACE_RECV) ;;
   if r <? 0 then ret r
   else
     (lift (anx7688_tcpc_reg_write ANX7688_TCPC_REG_INTERFACE_RECV 0) ;;
      if (nth 0 pkt 0 =? 0) || (nth 0 pkt 0 >? 32 - 2) then ret (- EINVAL)
      else if negb (recv_checksum pkt =? 0) then ret (- EINVAL)
      else
        (anx7688_handle_pd_message (nth 1 pkt 0) (skipn 2 pkt)
                                   (nth 0 pkt 0 - 1) ;;
         ret 0)))%m.

(** The two blocks of [anx7688_update_status] that follow a rail; a result
    other than 0 is the early [return ret] of the block. *)
Definition update_status_vbus (vbus : bool) : M Z :=
  (a <- get ;;
   if Bool.eqb (vbus_on a) vbus then ret 0
   else
     (r <- lift (extern (if vbus then regulator_enable VBUS
                         else regulator_disable VBUS)) ;;
      if negb (r =? 0) then ret r
      else
        (modify (set_pwr_role (if vbus then TYPEC_SOURCE else TYPEC_SINK)) ;;
         lift (extern (typec_set_pwr_role
                         (if vbus then TYPEC_SOURCE else TYPEC_SINK))) ;;
         modify (set_vbus_on vbus) ;;
         ret 0)))%m.

Definition update_status_vconn (vconn : bool) : M Z :=
  (a <- get ;;
   if Bool.eqb (vconn_on a) vconn then ret 0
   else
     (r <- lift (extern (if vconn then regulator_enable VCONN
                         else regulator_disable VCONN)) ;;
      if negb (r =? 0) then ret r
      else
        (lift (extern (typec_set_vconn_role
                         (if vconn then TYPEC_SOURCE else TYPEC_SINK))) ;;
         modify (set_vconn_on vconn) ;;
         ret 0)))%m.

(** [if (last == -1 || last != v) last = v;] *)
Definition remember (last : anx7688 -> Z) (set : Z -> anx7688 -> anx7688)
           (v : Z) : M unit :=
  (a <- get ;;
   if (last a =? -1) || negb (last a =? v) then modify (set v) else ret tt)%m.

Definition anx7688_update_status : M Z :=
  (status <- lift (anx7688_reg_read ANX7688_REG_STATUS) ;;
   if status <? 0 then ret status else
   cc_status <- lift (anx7688_reg_read ANX7688_REG_CC_STATUS) ;;
   if cc_status <? 0 then ret cc_status else
   dp_state <- lift (anx7688_tcpc_reg_read 0x87) ;;
   if dp_state <? 0 then ret dp_state else
   dp_substate <- lift (anx7688_tcpc_reg_read 0x88) ;;
   if dp_substate <? 0 then ret dp_substate else
   (anx7688_set_hdmi_hpd (if dp_state >=? 3 then 1 else 0) ;;
    let dp_state := Z.lor (Z.shiftl dp_state 8) dp_substate in
    remember last_status set_last_status status ;;
    remember last_cc_status set_last_cc_status cc_status ;;
    remember last_dp_state set_last_dp_state dp_state ;;
    let vbus := negb (Z.land status ANX7688_VBUS_STATUS =? 0) in
    let vconn := negb (Z.land status ANX7688_VCONN_STATUS =? 0) in
    let dr_dfp := negb (Z.land status ANX7688_DATA_ROLE_STATUS =? 0) in
    r <- update_status_vbus vbus ;;
    if negb (r =? 0) then ret r else
    r <- update_status_vconn vconn ;;
    if negb (r =? 0) then ret r else
    (modify (set_data_role (if dr_dfp then TYPEC_HOST else TYPEC_DEVICE)) ;;
     lift (extern (typec_set_data_role
                     (if dr_dfp then TYPEC_HOST else TYPEC_DEVICE))) ;;
     role <- lift (extern usb_role_switch_get_role) ;;
     if negb (role =? (if dr_dfp then USB_ROLE_HOST else USB_ROLE_DEVICE))
     then
       (r <- lift (extern (usb_role_switch_set_role
                             (if dr_dfp then USB_ROLE_HOST
                              else USB_ROLE_DEVICE))) ;;
        if negb (r =? 0) then ret r else ret 0)
     else ret 0)))%m.

(** The branch guarded by [anx7688->input_current_limit && false] never
    runs; what is left is the step from the label [check_type] on. *)
Definition anx7688_handle_vbus_in_notify : M unit :=
  ('(r, intval) <- lift (psy_get POWER_SUPPLY_PROP_USB_TYPE) ;;
   if negb (r =? 0) then ret tt
   else
     (a <- get ;;
      if last_bc_result a =? intval then ret tt
      else modify (set_last_bc_result intval)))%m.

Definition anx7688_cc_status (v : Z) : Z :=
  if v =? 0 then -1
  else if v =? 1 then -1
  else if v =? 2 then -1
  else if v =? 4 then TYPEC_PWR_MODE_USB
  else if v =? 8 then TYPEC_PWR_MODE_1_5A
  else if v =? 12 then TYPEC_PWR_MODE_3_0A
  else -1.

(** The power mode chosen at the start of
    [anx7688_handle_current_update].  [cc_status] is an [unsigned], so the
    test [cc_status < 0] of the source compares a value that is never
    negative. *)
Definition current_update_pwr_mode (a : anx7688) : Z :=
  let cc_status := u32 (last_cc_status a) in
  if pd_capable a then TYPEC_PWR_MODE_PD
  else if cc_status <? 0 then TYPEC_PWR_MODE_USB
  else
    let pwr_mode := anx7688_cc_status (Z.land cc_status 0xf) in
    let pwr_mode :=
      if pwr_mode <? 0
      then anx7688_cc_status (Z.land (Z.shiftr cc_status 4) 0xf)
      else pwr_mode in
    if pwr_mode <? 0 then TYPEC_PWR_MODE_USB else pwr_mode.

(** The current limit that follows from the power mode, in mA. *)
Definition current_update_limit (a : anx7688) (pwr_mode : Z) : Z :=
  if pwr_mode =? TYPEC_PWR_MODE_1_5A then 1500
  else if pwr_mode =? TYPEC_PWR_MODE_3_0A then 3000
  else if pwr_mode =? TYPEC_PWR_MODE_PD then pd_current_limit a
  else 0.

Definition anx7688_handle_current_update : M unit :=
  (a <- get ;;
   let pwr_mode := current_update_pwr_mode a in
   let current_limit := current_update_limit a pwr_mode in
   modify (set_input_current_limit current_limit) ;;
   (if negb (current_limit =? 0) then
      (lift (extern (power_supply_set_property
                       POWER_SUPPLY_PROP_USB_BC_ENABLED 0)) ;;
       lift (extern (power_supply_set_property
                       POWER_SUPPLY_PROP_INPUT_CURRENT_LIMIT
                       (s32 (current_limit * 1000)))) ;;
       ret tt)
    else
      ('(r, intval) <- lift (psy_get POWER_SUPPLY_PROP_USB_BC_ENABLED) ;;
       if negb (r =? 0) || (intval =? 0) then
         (lift (extern (power_supply_set_property
                          POWER_SUPPLY_PROP_INPUT_CURRENT_LIMIT (500 * 1000))) ;;
          ret tt)
       else ret tt)) ;;
   lift (extern (power_supply_set_property POWER_SUPPLY_PROP_ONLINE 1)) ;;
   lift (extern (typec_set_pwr_opmode pwr_mode)) ;;
   ret tt)%m.

Definition anx7688_work : M unit :=
  (a <- get ;;
   if test_bit ANX7688_F_FW_FAILED (flags a) then ret tt
   else
     ((if test_bit ANX7688_F_PWRSUPPLY_CHANGE (flags a) then
         (modify (fun a =>
                    set_flags (clear_bit ANX7688_F_PWRSUPPLY_CHANGE (flags a)) a) ;;
          anx7688_handle_vbus_in_notify)
       else ret tt) ;;
      anx7688_handle_cable_change ;;
      a <- get ;;
      if test_bit ANX7688_F_CONNECTED (flags a) then
        (anx7688_update_status ;;
         a <- get ;;
         now <- lift ktime_get ;;
         if negb (current_update_deadline a =? 0)
            && ktime_after now (current_update_deadline a)
         then
           (modify (set_current_update_deadline 0) ;;
            anx7688_handle_current_update)
         else ret tt)
      else ret tt))%m.

End Driver.

(** * The rest of the driver *)

(** The functions below are the other users of the register transport and
    of the message transport: the read-modify-write of a register, the
    EEPROM address registers and the wait for the EEPROM state machine, the
    role-swap requests of the Type-C class, the status interrupt and the
    register poke of sysfs. *)

Definition ANX7688_TCPC_REG_ALERT0 : Z := 0x10.
Definition ANX7688_IRQS_RECEIVED_MSG : Z := 1.
Definition ANX7688_IRQS_VCONN_CHANGE : Z := 4.
Definition ANX7688_IRQS_VBUS_CHANGE : Z := 8.
Definition ANX7688_IRQS_CC_STATUS_CHANGE : Z := 16.
Definition ANX7688_IRQS_DATA_ROLE_CHANGE : Z := 32.
Definition ANX7688_OCM_MSG_PSWAP_REQ : Z := 0x10.
Definition ANX7688_OCM_MSG_DSWAP_REQ : Z := 0x11.
Definition ENODEV : Z := 19.

(** [ktime_add_us] of [include/linux/ktime.h]. *)
Definition ktime_add_us (kt usec : Z) : Z := s64 (kt + usec * NSEC_PER_USEC).

Section DriverRest.

Variable env : Env.

(** [mask] and [value] are [u8] parameters; the new value is computed in
    an [int] and truncated by the call of [anx7688_reg_write]. *)
Definition anx7688_reg_update_bits (reg_addr mask value : Z) : IO Z :=
  (r <~ anx7688_reg_read env reg_addr ;;
   if r <? 0 then io_ret r
   else
     anx7688_reg_write env reg_addr
       (Z.lor (Z.land r (Z.lnot (u8 mask))) (u8 value)))%io.

(** [addr] is a [u16] parameter. *)
Definition anx7688_eeprom_set_address (addr : Z) : IO Z :=
  let addr := addr mod 2 ^ 16 in
  (r <~ anx7688_reg_write env 0xe0 (Z.land (Z.shiftr addr 8) 0xff) ;;
   if r <? 0 then io_ret r
   else anx7688_reg_write env 0xe1 (Z.land addr 0xff))%io.

(** The loop [while (true)] of [anx7688_eeprom_wait_ready]; [n] bounds the
    number of iterations, and [None] is a loop that has not come to an end
    within them. *)
Fixpoint eeprom_wait_ready_loop (n : nat) (timeout : Z) : IO (option Z) :=
  match n with
  | O => io_ret None
  | S n' =>
      (r <~ anx7688_reg_read env 0x7f ;;
       if r <? 0 then io_ret (Some r)
       else if Z.land r 0x0f =? 7 then io_ret (Some 0)
       else
         (now <~ ktime_get ;;
          if ktime_after now timeout then io_ret (Some (- ETIMEDOUT))
          else (extern env (msleep 5) ;;; eeprom_wait_ready_loop n' timeout)))%io
  end.

Definition anx7688_eeprom_wait_ready (n : nat) : IO (option Z) :=
  (now <~ ktime_get ;;
   eeprom_wait_ready_loop n (ktime_add_us now 1000000))%io.

Definition anx7688_dr_set (role : Z) : M Z :=
  (a <- get ;;
   if negb (data_role a =? role) then
     lift (anx7688_send_ocm_message env ANX7688_OCM_MSG_DSWAP_REQ [])
   else ret 0)%m.

Definition anx7688_pr_set (role : Z) : M Z :=
  (a <- get ;;
   if negb (pwr_role a =? role) then
     lift (anx7688_send_ocm_message env ANX7688_OCM_MSG_PSWAP_REQ [])
   else ret 0)%m.

(** The handler always returns [IRQ_HANDLED]; what it does is its effect on
    the state and on the chip. *)
Definition anx7688_irq_status_handler : M unit :=
  (a <- get ;;
   if negb (test_bit ANX7688_F_CONNECTED (flags a)) then ret tt
   else
     (tcpc_status <- lift (anx7688_tcpc_reg_read env ANX7688_TCPC_REG_ALERT0) ;;
      (if tcpc_status >? 0 then
         (lift (anx7688_tcpc_reg_write env ANX7688_TCPC_REG_ALERT0 tcpc_status) ;;
          ret tt)
       else ret tt) ;;
      ext2_status <- lift (anx7688_reg_read env ANX7688_REG_IRQ_EXT_SOURCE2) ;;
      if negb (Z.land ext2_status ANX7688_IRQ2_SOFT_INT =? 0) then
        (soft_status <- lift (anx7688_reg_read env ANX7688_REG_STATUS_INT) ;;
         lift (anx7688_reg_write env ANX7688_REG_STATUS_INT 0) ;;
         (if soft_status >? 0 then
            (let soft_status := Z.land soft_status ANX7688_SOFT_INT_MASK in
             (if negb (Z.land soft_status ANX7688_IRQS_RECEIVED_MSG =? 0)
              then (anx7688_receive_msg env ;; ret tt)
              else ret tt) ;;
             (if negb (Z.land soft_status
                         (Z.lor ANX7688_IRQS_CC_STATUS_CHANGE
                            (Z.lor ANX7688_IRQS_VBUS_CHANGE
                               (Z.lor ANX7688_IRQS_VCONN_CHANGE
                                      ANX7688_IRQS_DATA_ROLE_CHANGE))) =? 0)
              then (anx7688_update_status env ;; ret tt)
              else ret tt))
          else ret tt) ;;
         lift (anx7688_reg_write env ANX7688_REG_IRQ_EXT_SOURCE2
                                 ANX7688_IRQ2_SOFT_INT) ;;
         ret tt)
      else ret tt))%m.

(** [reg_update_store] after [kstrtouint(buf, 16, &val)]: [parsed] is the
    return value of the parser, [val] the [unsigned] it produced and [len]
    the number of bytes written to the attribute. *)
Definition reg_update_store (parsed val len : Z) : M Z :=
  if negb (parsed =? 0) then ret parsed
  else
    let data := Z.land val 0xff in
    let addr := Z.land (Z.shiftr val 8) 0xff in
    let devaddr := Z.land (Z.shiftr val 16) 0xff in
    (a <- get ;;
     r <- (if negb (test_bit ANX7688_F_POWERED (flags a)) then ret (- ENODEV)
           else if devaddr =? 0x50 then lift (anx7688_reg_write env addr val)
           else if devaddr =? 0x58 then
             lift (anx7688_tcpc_reg_write env addr val)
           else ret (- EINVAL)) ;;
     ret (if negb (r =? 0) then r else len))%m.

End DriverRest.

(** * Vocabulary of the properties *)

(** ** The result of a run *)

Definition io_val {A} (x : A * World) : A := fst x.
Definition io_world {A} (x : A * World) : World := snd x.
Definition m_val {A} (x : A * anx7688 * World) : A := fst (fst x).
Definition m_dev {A} (x : A * anx7688 * World) : anx7688 := snd (fst x).
Definition m_world {A} (x : A * anx7688 * World) : World := snd x.

(** The external calls of a run, without their return values. *)
Definition calls (w : World) : list call := map fst (trace w).

(** The part of a trace a run has added. *)
Definition extends (w w' : World) (added : list (call * Z)) : Prop :=
  trace w' = trace w ++ added.

Definition is_byte (b : Z) : Prop := 0 <= b < 256.

(** ** The calls the properties speak about *)

(** The read of the send-queue register, before a transmission and in the
    waiting loop after it. *)
Definition queue_read : call :=
  i2c_smbus_read_byte_data TCPC ANX7688_TCPC_REG_INTERFACE_SEND.

(** The block read of [anx7688_receive_msg] and the write that clears the
    receive indicator. *)
Definition recv_read : call :=
  i2c_smbus_read_i2c_block_data TCPC ANX7688_TCPC_REG_INTERFACE_RECV 32.

Definition recv_clear : call :=
  i2c_smbus_write_byte_data TCPC ANX7688_TCPC_REG_INTERFACE_RECV 0.

(** The world in which [anx7688_receive_msg] looks at the block it has
    read: after the block read and the write that clears the receive
    indicator. *)
Definition received (env : Env) (w : World) : World :=
  io_world (extern env recv_clear (io_world (extern env recv_read w))).

(** The poll of the firmware load status in [anx7688_connect]. *)
Definition fw_status_read : call :=
  i2c_smbus_read_byte_data MAIN ANX7688_REG_EEPROM_LOAD_STATUS0.

(** The reads of the two negotiated-result registers. *)
Definition max_voltage_read : call :=
  i2c_smbus_read_byte_data MAIN ANX7688_REG_MAX_VOLTAGE_STATUS.

Definition max_power_read : call :=
  i2c_smbus_read_byte_data MAIN ANX7688_REG_MAX_POWER_STATUS.

(** The read of the cable-detect line. *)
Definition cabledet_read : call := gpiod_get_value GPIO_CABLEDET.

(** The six calls of [anx7688_connect] before it enables VCONN, and the
    three calls of [anx7688_power_disable]. *)
Definition power_up_calls : list call :=
  [ msleep 10; gpiod_set_value GPIO_RESET 1; gpiod_set_value GPIO_ENABLE 1;
    msleep 10; gpiod_set_value GPIO_RESET 0; udelay 2 ].

Definition power_down_calls : list call :=
  [ gpiod_set_value GPIO_RESET 1; msleep 5; gpiod_set_value GPIO_ENABLE 0 ].

(** The calls by which [anx7688_disconnect] lowers the HDMI hot-plug
    signal: none without an extcon device or when the signal is low
    already. *)
Definition hpd_low_calls (a : anx7688) : list call :=
  if extcon a =? 0 then []
  else if last_extcon_state a =? 0 then []
  else [extcon_set_state_sync 0].

(** What [anx7688_handle_current_update] asks of the upstream supply for a
    limit in mA: an explicit limit switches BC1.2 detection off and is
    programmed as it is; without one the detection is queried, and 500 mA
    are programmed when the query fails or the detection is disabled. *)
Definition supply_calls (env : Env) (w : World) (limit : Z) : list call :=
  if limit =? 0 then
    power_supply_get_property POWER_SUPPLY_PROP_USB_BC_ENABLED
    :: (if negb (reply env (power_supply_get_property
                              POWER_SUPPLY_PROP_USB_BC_ENABLED) (tick w) =? 0)
           || (propval env (tick w) =? 0)
        then [power_supply_set_property
                POWER_SUPPLY_PROP_INPUT_CURRENT_LIMIT (500 * 1000)]
        else [])
  else
    [ power_supply_set_property POWER_SUPPLY_PROP_USB_BC_ENABLED 0;
      power_supply_set_property POWER_SUPPLY_PROP_INPUT_CURRENT_LIMIT
                                (s32 (limit * 1000)) ].

(** ** Kinds of calls *)

(** A frame written to the chip. *)
Definition is_transmit (c : call) : bool :=
  match c with
  | i2c_smbus_write_i2c_block_data _ _ _ _ => true
  | _ => false
  end.

(** How often a list of calls writes a frame to the chip. *)
Definition transmissions (l : list call) : nat :=
  length (filter is_transmit l).

(** An I2C transfer of the driver. *)
Definition register_io (c : call) : bool :=
  match c with
  | i2c_smbus_read_byte_data _ _ => true
  | i2c_smbus_write_byte_data _ _ _ => true
  | i2c_smbus_read_i2c_block_data _ _ _ => true
  | i2c_smbus_write_i2c_block_data _ _ _ _ => true
  | _ => false
  end.

(** The error codes of the I2C transfers that failed during a run. *)
Definition io_failures (l : list (call * Z)) : list Z :=
  map snd (filter (fun e => register_io (fst e) && (snd e <? 0)) l).

(** A run that returns the error code of every register transfer that
    failed in it. *)
Definition returns_io_failures (l : list (call * Z)) (result : Z) : Prop :=
  forall e, In e (io_failures l) -> result = e.

(** Calls that neither sleep, nor program the upstream supply, nor report a
    power mode to the port. *)
Definition passive (c : call) : bool :=
  match c with
  | msleep _ | udelay _ => false
  | power_supply_set_property _ _ => false
  | typec_set_pwr_opmode _ => false
  | _ => true
  end.

(** The poll of the EEPROM state machine in [anx7688_eeprom_wait_ready]. *)
Definition eeprom_state_read : call := i2c_smbus_read_byte_data MAIN 0x7f.

(** ** Predicates on the hardware and on pieces of the driver *)

(** The state machine of the EEPROM never gets ready: every read of its
    state succeeds with a state other than 7. *)
Definition eeprom_never_ready (env : Env) : Prop :=
  forall k, 0 <= reply env eeprom_state_read k
            /\ Z.land (reply env eeprom_state_read k) 0x0f <> 7.

(** The firmware-loaded bit is never seen: every read of the load status
    register fails or returns a value with bit 0 clear. *)
Definition fw_never_loaded (env : Env) : Prop :=
  forall k, reply env fw_status_read k < 0
            \/ Z.testbit (reply env fw_status_read k) 0 = false.

(** A CC nibble that names a sink power level: Default, 1.5 A or 3.0 A. *)
Definition classified (v : Z) : Prop := v = 4 \/ v = 8 \/ v = 12.

(** [first_error steps w r w']: run from [w], the steps return 0 one after
    the other until one of them returns [r <> 0] and leaves the world [w'];
    or all of them return 0, and [r = 0]. *)
Inductive first_error : list (IO Z) -> World -> Z -> World -> Prop :=
| first_error_none w : first_error [] w 0 w
| first_error_here c rest w :
    io_val (c w) <> 0 ->
    first_error (c :: rest) w (io_val (c w)) (io_world (c w))
| first_error_later c rest w r w' :
    io_val (c w) = 0 ->
    first_error rest (io_world (c w)) r w' ->
    first_error (c :: rest) w r w'.

(** The world after a list of calls made one after the other. *)
Definition after_calls (env : Env) (l : list call) (w : World) : World :=
  fold_left (fun w c => io_world (extern env c w)) l w.

(** The stations of the run of [anx7688_connect] that starts in [w]: what
    [regulator_enable] returns for VCONN after the power-up calls, the
    wait for the firmware that follows it, the configuration steps after
    that wait, and what [typec_register_partner] returns after them. *)
Definition connect_vconn_ret (env : Env) (w : World) : Z :=
  reply env (regulator_enable VCONN)
        (tick (after_calls env power_up_calls w)).

Definition connect_fw_wait (env : Env) (w : World) : bool * World :=
  connect_wait_fw
    env 100
    (io_world (extern env (regulator_enable VCONN)
                      (after_calls env power_up_calls w))).

Definition connect_configure (env : Env) (a : anx7688) (w : World)
  : Z * World :=
  until_error (connect_config env a) (io_world (connect_fw_wait env w)).

Definition connect_partner (env : Env) (a : anx7688) (w : World) : Z :=
  reply env typec_register_partner
        (S (tick (io_world (connect_configure env a w)))).

(** A piece of the driver that lets the deadline, the Connected flag and the
    clock stand and makes passive calls only. *)
Definition steady {A} (c : M A) : Prop :=
  forall a w,
    current_update_deadline (m_dev (c a w)) = current_update_deadline a
    /\ test_bit ANX7688_F_CONNECTED (flags (m_dev (c a w)))
       = test_bit ANX7688_F_CONNECTED (flags a)
    /\ clock (m_world (c a w)) = clock w
    /\ exists added,
         extends w (m_world (c a w)) added
         /\ Forall (fun e => passive (fst e) = true) added.

(** The first block of [anx7688_work]: a pending power-supply change is
    acknowledged and looked at. *)
Definition work_notify (env : Env) (a : anx7688) : M unit :=
  if test_bit ANX7688_F_PWRSUPPLY_CHANGE (flags a) then
    bind (modify (fun a =>
                    set_flags (clear_bit ANX7688_F_PWRSUPPLY_CHANGE (flags a))
                              a))
         (fun _ => anx7688_handle_vbus_in_notify env)
  else ret tt.

(** ** Concrete devices, worlds and hardware *)

(** A device as [anx7688_i2c_probe] leaves it, with one source and one
    sink capability: the fields that the probe does not write are zero
    (the structure comes from [devm_kzalloc]), the extcon device has been
    allocated ([1] stands for its address), and [last_extcon_state] and
    [last_bc_result] are -1. *)
Definition probed : anx7688 :=
  {| input_current_limit := 0;
     src_caps := [0x0001905a; 0; 0; 0; 0; 0; 0; 0];
     n_src_caps := 1;
     snk_caps := [0x0001912c; 0; 0; 0; 0; 0; 0; 0];
     n_snk_caps := 1;
     flags := 0;
     vbus_on := false;
     vconn_on := false;
     pd_capable := false;
     pd_current_limit := 0;
     current_update_deadline := 0;
     partner := 0;
     pwr_role := TYPEC_SINK;
     data_role := TYPEC_DEVICE;
     last_status := 0;
     last_cc_status := 0;
     last_dp_state := 0;
     last_bc_result := -1;
     extcon := 1;
     last_extcon_state := -1 |}.

(** The same device connected to a PD capable partner. *)
Definition in_contract : anx7688 :=
  set_pd_capable true
    (set_flags (set_bit ANX7688_F_CONNECTED
                  (set_bit ANX7688_F_POWERED 0)) probed).

(** A world in which nothing has happened yet. *)
Definition boot : World :=
  {| tick := 0; clock := 0; trace := []; div_by_zero := false |}.

(** Hardware that answers every call with 0: in particular the firmware
    never reports that it is loaded. *)
Definition quiet : Env :=
  {| reply := fun _ _ => 0; block_data := fun _ => []; propval := fun _ => 0 |}.

(** A chip whose firmware is loaded at the first poll and that accepts
    every write and every message; the partner is registered at some
    address. *)
Definition fw_ready : Env :=
  {| reply := fun c _ =>
       match c with
       | i2c_smbus_read_byte_data MAIN reg =>
           if reg =? ANX7688_REG_EEPROM_LOAD_STATUS0 then 0x01 else 0
       | i2c_smbus_read_i2c_block_data _ _ len => len
       | typec_register_partner => 0x1000
       | _ => 0
       end;
     block_data := fun _ => [];
     propval := fun _ => 0 |}.

(** The cable stays plugged in. *)
Definition plugged : Env :=
  {| reply := fun c _ =>
       match c with
       | gpiod_get_value GPIO_CABLEDET => 1
       | _ => 0
       end;
     block_data := fun _ => [];
     propval := fun _ => 0 |}.

(** The VCONN rail cannot be enabled: [regulator_enable] fails with
    [-EIO] for it. *)
Definition vconn_unavailable : Env :=
  {| reply := fun c _ =>
       match c with
       | regulator_enable VCONN => - EIO
       | _ => 0
       end;
     block_data := fun _ => [];
     propval := fun _ => 0 |}.

(** The frame cannot be written: the block write to the send queue fails
    with [-EIO], and the queue reads empty. *)
Definition frame_write_fails : Env :=
  {| reply := fun c _ =>
       match c with
       | i2c_smbus_write_i2c_block_data _ _ _ _ => - EIO
       | _ => 0
       end;
     block_data := fun _ => [];
     propval := fun _ => 0 |}.

(** A 32-byte block holding the frame of a Hard-Reset message. *)
Definition hard_reset_block : list Z :=
  [1; 0xf2; 0x0d] ++ repeat 0 29.

(** Hardware whose block reads succeed and deliver [block]. *)
Definition delivers (block : list Z) : Env :=
  {| reply := fun c _ =>
       match c with
       | i2c_smbus_read_i2c_block_data _ _ len => len
       | _ => 0
       end;
     block_data := fun _ => block;
     propval := fun _ => 0 |}.

(** The receive indicator cannot be cleared: the write to the receive
    register fails with [-EIO]; the block read before it delivers a
    well-formed Hard-Reset frame. *)
Definition clear_fails : Env :=
  {| reply := fun c _ =>
       match c with
       | i2c_smbus_read_i2c_block_data _ _ len => len
       | i2c_smbus_write_byte_data TCPC _ _ => - EIO
       | _ => 0
       end;
     block_data := fun _ => hard_reset_block;
     propval := fun _ => 0 |}.

(** A send queue that never drains: empty at the first call of the run,
    occupied by one message ever after. *)
Definition stuck_queue : Env :=
  {| reply := fun c n =>
       match c, n with
       | i2c_smbus_read_byte_data TCPC _, S _ => 1
       | _, _ => 0
       end;
     block_data := fun _ => [];
     propval := fun _ => 0 |}.

(** The send queue register cannot be read: every read of a TCPC register
    fails with [-EIO]. *)
Definition queue_unreadable : Env :=
  {| reply := fun c _ =>
       match c with
       | i2c_smbus_read_byte_data TCPC _ => - EIO
       | _ => 0
       end;
     block_data := fun _ => [];
     propval := fun _ => 0 |}.

(** The send queue is empty before the transmission, and the first poll
    after it fails with [-EIO]. *)
Definition poll_fails : Env :=
  {| reply := fun c n =>
       match c, n with
       | i2c_smbus_read_byte_data TCPC _, S _ => - EIO
       | _, _ => 0
       end;
     block_data := fun _ => [];
     propval := fun _ => 0 |}.

(** The negotiated-result registers report 5 V and 15 W. *)
Definition negotiated_5v_15w : Env :=
  {| reply := fun c _ =>
       match c with
       | i2c_smbus_read_byte_data MAIN reg =>
           if reg =? ANX7688_REG_MAX_VOLTAGE_STATUS then 50
           else if reg =? ANX7688_REG_MAX_POWER_STATUS then 30
           else 0
       | _ => 0
       end;
     block_data := fun _ => [];
     propval := fun _ => 0 |}.

(** The maximum-voltage register reads 0 and the maximum-power register
    reads 30. *)
Definition negotiated_nothing : Env :=
  {| reply := fun c _ =>
       match c with
       | i2c_smbus_read_byte_data MAIN reg =>
           if reg =? ANX7688_REG_MAX_POWER_STATUS then 30 else 0
       | _ => 0
       end;
     block_data := fun _ => [];
     propval := fun _ => 0 |}.

(** ** More vocabulary: frames on the wire, bits, rails *)

(** A frame padded with zero bytes to the 32 bytes of a block read. *)
Definition pad32 (frame : list Z) : list Z :=
  frame ++ repeat 0 (32 - length frame).

(** The block write by which [anx7688_send_ocm_message] transmits a
    payload. *)
Definition transmit_of (cmd : Z) (data : list Z) : call :=
  i2c_smbus_write_i2c_block_data
    TCPC ANX7688_TCPC_REG_INTERFACE_SEND (len data + 3) (ocm_frame cmd data).


(** A device whose device tree lists eight source capabilities, as many as
    the array [src_caps] holds. *)
Definition full_table : anx7688 :=
  {| input_current_limit := 0;
     src_caps := [0x0001905a; 0x0001912c; 0x0002d12c; 0x0003c12c;
                  0x0004b12c; 0x0005a12c; 0x0006412c; 0x0006412d];
     n_src_caps := 8;
     snk_caps := [0x0001912c; 0; 0; 0; 0; 0; 0; 0];
     n_snk_caps := 1;
     flags := 0;
     vbus_on := false;
     vconn_on := false;
     pd_capable := false;
     pd_current_limit := 0;
     current_update_deadline := 0;
     partner := 0;
     pwr_role := TYPEC_SINK;
     data_role := TYPEC_DEVICE;
     last_status := 0;
     last_cc_status := 0;
     last_dp_state := 0;
     last_bc_result := -1;
     extcon := 1;
     last_extcon_state := -1 |}.

(** Hardware in which every register reads [v]. *)
Definition reads (v : Z) : Env :=
  {| reply := fun c _ =>
       match c with
       | i2c_smbus_read_byte_data _ _ => v
       | _ => 0
       end;
     block_data := fun _ => [];
     propval := fun _ => 0 |}.

(** The probed device with the chip powered. *)
Definition powered : anx7688 :=
  set_flags (set_bit ANX7688_F_POWERED 0) probed.

(** The four reads with which [anx7688_update_status] starts, and what the
    hardware answers to them in a run that starts in [w] and gets to all
    four. *)
Definition status_reads : list call :=
  [ i2c_smbus_read_byte_data MAIN ANX7688_REG_STATUS;
    i2c_smbus_read_byte_data MAIN ANX7688_REG_CC_STATUS;
    i2c_smbus_read_byte_data TCPC 0x87;
    i2c_smbus_read_byte_data TCPC 0x88 ].

Definition status_replies (env : Env) (w : World) : list Z :=
  map (fun ic => reply env (snd ic) (fst ic + tick w))
      (combine (seq 0 4) status_reads).

(** What a list of calls with their return values does to the enable count
    of a rail: an enable that returned 0 raises it by one, a disable that
    returned 0 lowers it by one, and a call that failed leaves it. *)
Definition same_supply (r r' : supply) : bool :=
  match r, r' with
  | VCONN, VCONN | VBUS, VBUS => true
  | _, _ => false
  end.

Definition rail_step (r : supply) (e : call * Z) : Z :=
  match fst e with
  | regulator_enable r' =>
      if same_supply r r' && (snd e =? 0) then 1 else 0
  | regulator_disable r' =>
      if same_supply r r' && (snd e =? 0) then -1 else 0
  | _ => 0
  end.

Fixpoint rail_delta (r : supply) (l : list (call * Z)) : Z :=
  match l with
  | [] => 0
  | e :: rest => rail_step r e + rail_delta r rest
  end.

(** Hardware whose status register reads [status]; the other registers
    read 0 and every other call returns 0. *)
Definition status_is (status : Z) : Env :=
  {| reply := fun c _ =>
       match c with
       | i2c_smbus_read_byte_data MAIN reg =>
           if reg =? ANX7688_REG_STATUS then status else 0
       | _ => 0
       end;
     block_data := fun _ => [];
     propval := fun _ => 0 |}.

(** Hardware on which every transfer to the TCPC address fails. *)
Definition tcpc_dead : Env :=
  {| reply := fun c _ =>
       match c with
       | i2c_smbus_read_byte_data TCPC _ => - EIO
       | i2c_smbus_write_byte_data TCPC _ _ => - EIO
       | _ => 0
       end;
     block_data := fun _ => [];
     propval := fun _ => 0 |}.

(** The driver's record of a rail. *)
Definition rail_on (r : supply) (a : anx7688) : bool :=
  match r with
  | VCONN => vconn_on a
  | VBUS => vbus_on a
  end.

(** A regulator call. *)
Definition is_regulator (c : call) : bool :=
  match c with
  | regulator_enable _ | regulator_disable _ => true
  | _ => false
  end.

(** A piece of the driver that keeps its record of the rails in step with
    the regulators: over the calls it adds, the enable count of each rail
    changes as the piece's record of that rail does. *)
Definition balanced {A} (c : M A) : Prop :=
  forall a w,
    exists added,
      extends w (m_world (c a w)) added
      /\ forall r,
           rail_delta r added
           = Z.b2z (rail_on r (m_dev (c a w))) - Z.b2z (rail_on r a).

(** An I/O sequence without regulator calls. *)
Definition no_regulator {A} (c : IO A) : Prop :=
  forall w,
    exists added,
      extends w (io_world (c w)) added
      /\ Forall (fun e => is_regulator (fst e) = false) added.

(** The write with which [anx7688_irq_status_handler] acknowledges a soft
    interrupt. *)
Definition soft_int_ack : call :=
  i2c_smbus_write_byte_data MAIN ANX7688_REG_IRQ_EXT_SOURCE2
                            ANX7688_IRQ2_SOFT_INT.

(** Hardware with a soft interrupt pending whose cause cannot be read:
    the interrupt source register reads [SOFT_INT], every other read
    fails with [-EIO]. *)
Definition soft_int_unreadable : Env :=
  {| reply := fun c _ =>
       match c with
       | i2c_smbus_read_byte_data MAIN reg =>
           if reg =? ANX7688_REG_IRQ_EXT_SOURCE2 then ANX7688_IRQ2_SOFT_INT
           else - EIO
       | i2c_smbus_read_byte_data TCPC _ => - EIO
       | _ => 0
       end;
     block_data := fun _ => [];
     propval := fun _ => 0 |}.

(** A device at rest: the chip without power, both rails off, no PD
    contract and no current update pending. *)
Definition at_rest (a : anx7688) : Prop :=
  test_bit ANX7688_F_POWERED (flags a) = false
  /\ vconn_on a = false /\ vbus_on a = false
  /\ pd_capable a = false /\ current_update_deadline a = 0.

(** The Connected flag tells whether the chip is in use: a connected
    device is powered, and a device that is not connected is at rest. *)
Definition consistent (a : anx7688) : Prop :=
  if test_bit ANX7688_F_CONNECTED (flags a)
  then test_bit ANX7688_F_POWERED (flags a) = true
  else at_rest a.

(** The calls of [anx7688_disconnect] in a device whose rails are off and
    whose HDMI hot-plug signal is low or absent. *)
Definition disconnect_calls (p : Z) : list call :=
  power_down_calls
  ++ [ typec_unregister_partner p;
       typec_set_pwr_role TYPEC_SINK;
       typec_set_data_role TYPEC_DEVICE;
       typec_set_pwr_opmode TYPEC_PWR_MODE_USB;
       typec_set_vconn_role TYPEC_SINK;
       usb_role_switch_set_role USB_ROLE_NONE;
       power_supply_set_property
         POWER_SUPPLY_PROP_INPUT_CURRENT_LIMIT (500 * 1000);
       power_supply_set_property POWER_SUPPLY_PROP_ONLINE 0;
       power_supply_set_property POWER_SUPPLY_PROP_USB_BC_ENABLED 1 ].

(** * Properties *)

(** ** Arithmetic of the checksums *)

Lemma u8_range z : is_byte (u8 z).
Proof. unfold is_byte, u8. apply Z.mod_pos_bound. lia. Qed.

Lemma u8_small z : is_byte z -> u8 z = z.
Proof. unfold is_byte, u8. intros H. apply Z.mod_small. exact H. Qed.

Lemma map_u8_bytes l : Forall is_byte l -> map u8 l = l.
Proof.
  induction 1 as [|b l Hb _ IH]; simpl; [reflexivity|].
  now rewrite u8_small, IH.
Qed.

Lemma byte_sum_from a l : fold_left Z.add l a = a + byte_sum l.
Proof.
  unfold byte_sum. revert a.
  induction l as [|b l IH]; intros a; simpl; [lia|].
  rewrite (IH (a + b)), (IH b). lia.
Qed.

Lemma byte_sum_cons b l : byte_sum (b :: l) = b + byte_sum l.
Proof. unfold byte_sum at 1. simpl. apply byte_sum_from. Qed.

Lemma byte_sum_app l1 l2 : byte_sum (l1 ++ l2) = byte_sum l1 + byte_sum l2.
Proof.
  induction l1 as [|b l1 IH]; simpl.
  - reflexivity.
  - rewrite !byte_sum_cons, IH. lia.
Qed.

(** Subtracting byte after byte from a [u8] leaves the difference modulo
    256. *)
Lemma sub_loop_sum l : forall a,
  is_byte a -> fold_left (fun c b => u8 (c - b)) l a = (a - byte_sum l) mod 256.
Proof.
  induction l as [|b l IH]; intros a Ha; simpl.
  - unfold byte_sum. simpl. rewrite Z.sub_0_r. symmetry. now apply Z.mod_small.
  - rewrite IH by apply u8_range. rewrite byte_sum_cons. unfold u8.
    rewrite Zminus_mod_idemp_l. f_equal. lia.
Qed.

(** Adding byte after byte to a [u8] leaves the sum modulo 256. *)
Lemma add_loop_sum l : forall a,
  is_byte a -> fold_left (fun c b => u8 (c + b)) l a = (a + byte_sum l) mod 256.
Proof.
  induction l as [|b l IH]; intros a Ha; simpl.
  - unfold byte_sum. simpl. rewrite Z.add_0_r. symmetry. now apply Z.mod_small.
  - rewrite IH by apply u8_range. rewrite byte_sum_cons. unfold u8.
    rewrite Zplus_mod_idemp_l. f_equal. lia.
Qed.

Lemma ocm_checksum_sum pkt : ocm_checksum pkt = (- byte_sum pkt) mod 256.
Proof.
  unfold ocm_checksum. rewrite sub_loop_sum by (unfold is_byte; lia).
  reflexivity.
Qed.

Lemma ocm_frame_sum cmd data : byte_sum (ocm_frame cmd data) mod 256 = 0.
Proof.
  unfold ocm_frame. cbv zeta.
  set (pkt := u8 (len data + 1) :: u8 cmd :: map u8 data).
  rewrite byte_sum_app, ocm_checksum_sum.
  unfold byte_sum at 2. simpl fold_left.
  rewrite Zplus_mod_idemp_r.
  replace (byte_sum pkt + - byte_sum pkt) with 0 by lia.
  reflexivity.
Qed.

Lemma map_nth_seq (f : Z -> Z) l :
  map (fun i => f (nth i l 0)) (seq 0 (length l)) = map f l.
Proof.
  induction l as [|b l IH]; simpl; [reflexivity|].
  f_equal. rewrite <- seq_shift, map_map. exact IH.
Qed.

(** ** Traces *)

Lemma extends_refl w : extends w w [].
Proof. unfold extends. now rewrite app_nil_r. Qed.

Lemma extends_trans w1 w2 w3 l1 l2 :
  extends w1 w2 l1 -> extends w2 w3 l2 -> extends w1 w3 (l1 ++ l2).
Proof. unfold extends. intros H1 H2. now rewrite H2, H1, app_assoc. Qed.

Lemma extern_extends env c w :
  extends w (io_world (extern env c w)) [(c, reply env c (tick w))].
Proof. reflexivity. Qed.

(** Evaluation of the record projections and of the monad operations. *)
Ltac world_simpl :=
  cbn [tick clock trace div_by_zero fst snd
       io_val io_world m_val m_dev m_world] in *.

(** The waiting loop only reads the queue register and delays. *)
Lemma send_wait_flush_calls env n : forall w,
  exists added,
    extends w (io_world (send_wait_flush env n w)) added
    /\ Forall (fun e => fst e = queue_read \/ fst e = udelay 100) added.
Proof.
  induction n as [|n IH]; intros w; simpl.
  - exists []. split; [apply extends_refl | constructor].
  - unfold io_bind, anx7688_tcpc_reg_read. simpl.
    destruct (reply env _ (tick w) <=? 0).
    + eexists. split; [apply (extern_extends env _ w)|].
      constructor; [left; reflexivity | constructor].
    + match goal with |- context [send_wait_flush env n ?w2] =>
        destruct (IH w2) as (l & Hl & Hf) end.
      eexists (_ :: _ :: l). split.
      * unfold extends in *. rewrite Hl. simpl.
        rewrite <- !app_assoc. reflexivity.
      * constructor; [left; reflexivity|].
        constructor; [right; reflexivity | exact Hf].
Qed.

(** When every poll finds the queue occupied, the loop runs all its [n]
    iterations, each with one read and one delay of 100 us. *)
Lemma send_wait_flush_timeout env n : forall w,
  (forall k, (tick w <= k)%nat -> 0 < reply env queue_read k) ->
  let x := send_wait_flush env n w in
  io_val x = - ETIMEDOUT
  /\ calls (io_world x) = calls w ++ concat (repeat [queue_read; udelay 100] n)
  /\ clock (io_world x) = clock w + Z.of_nat n * (100 * NSEC_PER_USEC).
Proof.
  induction n as [|n IH]; intros w Hocc.
  - simpl. unfold calls. rewrite app_nil_r. repeat split. lia.
  - cbn [send_wait_flush]. unfold io_bind, anx7688_tcpc_reg_read.
    cbn [extern]. fold queue_read.
    pose proof (Hocc (tick w) (Nat.le_refl _)) as H0.
    destruct (Z.leb_spec (reply env queue_read (tick w)) 0) as [Hle|_]; [lia|].
    match goal with |- context [send_wait_flush env n ?w2] =>
      specialize (IH w2) end.
    world_simpl.
    destruct IH as (Hv & Hc & Hk).
    { intros k Hk. apply Hocc. lia. }
    repeat split.
    + exact Hv.
    + rewrite Hc. unfold calls. world_simpl. rewrite !map_app. cbn [map fst].
      rewrite <- !app_assoc. reflexivity.
    + rewrite Hk. change (duration queue_read) with 0. cbn [duration].
      unfold NSEC_PER_USEC. lia.
Qed.

(** ** C1: the checksum of a frame *)

(** The buffer after a block read that delivers 32 bytes is these
    bytes. *)
Lemma block_read_bytes env c reg w block :
  block_data env (tick w) = block ->
  length block = 32%nat -> Forall is_byte block ->
  block_read env c reg w
  = ((reply env (i2c_smbus_read_i2c_block_data c reg 32) (tick w), block),
     io_world (extern env (i2c_smbus_read_i2c_block_data c reg 32) w)).
Proof.
  intros Hblk Hlen Hbytes. unfold block_read. cbn [extern io_world snd].
  rewrite Hblk. change 32%nat with (Nat.add 0 32) at 1. rewrite <- Hlen at 1.
  simpl Nat.add. rewrite (map_nth_seq u8), map_u8_bytes by assumption.
  reflexivity.
Qed.

(** The frame of a payload of at most 29 bytes, and its transmission when
    the queue is empty. *)
Lemma send_frame_layout env w cmd data :
  is_byte cmd -> Forall is_byte data -> (length data <= 29)%nat ->
  reply env queue_read (tick w) = 0 ->
  let frame := ocm_frame cmd data in
  let transmit := i2c_smbus_write_i2c_block_data
                    TCPC ANX7688_TCPC_REG_INTERFACE_SEND
                    (len data + 3) frame in
  exists checksum added,
    is_byte checksum
    /\ frame = (len data + 1) :: cmd :: data ++ [checksum]
    /\ extends w (io_world (anx7688_send_ocm_message env cmd data w))
         ((queue_read, 0)
            :: (transmit, reply env transmit (S (tick w))) :: added).
Proof.
  intros Hcmd Hdata Hlen Hq frame transmit.
  exists (ocm_checksum (u8 (len data + 1) :: u8 cmd :: map u8 data)).
  unfold anx7688_send_ocm_message.
  assert (Hl : (len data >? 32 - 3) = false).
  { unfold len. rewrite Z.gtb_ltb. apply Z.ltb_ge. lia. }
  rewrite Hl. unfold io_bind, anx7688_tcpc_reg_read. cbn [extern].
  fold queue_read. rewrite Hq. cbn [Z.eqb negb].
  match goal with |- context [send_wait_flush env 300 ?w2] =>
    destruct (send_wait_flush_calls env 300 w2) as (added & Hadd & _) end.
  exists added. split; [|split].
  - unfold ocm_checksum. rewrite sub_loop_sum by (unfold is_byte; lia).
    apply Z.mod_pos_bound. lia.
  - unfold frame, ocm_frame. cbv zeta.
    rewrite map_u8_bytes by assumption.
    rewrite (u8_small cmd) by assumption.
    rewrite u8_small; [reflexivity|]. unfold is_byte, len. lia.
  - unfold extends in *. rewrite Hadd. cbn [trace tick].
    rewrite <- !app_assoc. reflexivity.
Qed.

(** A block that is read without error, has a length byte between 1 and
    30 and a good checksum is handed to [anx7688_handle_pd_message], and
    [anx7688_receive_msg] returns 0 whatever the handler returns and
    whatever the write that clears the receive indicator returns. *)
Lemma receive_msg_valid env a w block :
  0 <= reply env recv_read (tick w) ->
  block_data env (tick w) = block ->
  length block = 32%nat -> Forall is_byte block ->
  1 <= nth 0 block 0 <= 30 ->
  byte_sum (firstn (Z.to_nat (nth 0 block 0 + 2)) block) mod 256 = 0 ->
  let handled := anx7688_handle_pd_message
                   env (nth 1 block 0) (skipn 2 block)
                   (nth 0 block 0 - 1) a (received env w) in
  let x := anx7688_receive_msg env a w in
  m_val x = 0 /\ m_dev x = m_dev handled /\ m_world x = m_world handled.
Proof.
  intros Hr Hblk Hlen Hbytes Hl0 Hsum handled x. subst x handled.
  unfold anx7688_receive_msg, bind, lift, ret, received.
  rewrite (block_read_bytes env _ _ w block Hblk Hlen Hbytes).
  fold recv_read.
  destruct (Z.ltb_spec (reply env recv_read (tick w)) 0) as [Hneg|_]; [lia|].
  unfold anx7688_tcpc_reg_write. change (u8 0) with 0. fold recv_clear.
  destruct (extern env recv_clear _) as [rc w2] eqn:Hclear.
  cbn [io_world snd].
  destruct (Z.eqb_spec (nth 0 block 0) 0) as [H0|_]; [lia|].
  destruct (Z.gtb_spec (nth 0 block 0) (32 - 2)) as [H0|_]; [lia|].
  cbn [orb].
  assert (Hck : recv_checksum block = 0).
  { unfold recv_checksum. rewrite add_loop_sum by (unfold is_byte; lia).
    exact Hsum. }
  rewrite Hck. cbn [Z.eqb negb].
  destruct (anx7688_handle_pd_message env _ _ _ a w2) as [[v a'] w'].
  repeat split.
Qed.

(** C1. For every command byte and payload of at most 29 bytes, the frame
    that [anx7688_send_ocm_message] transmits is
    [payload_len + 1; cmd; payload...; checksum] and the sum of its bytes is
    0 modulo 256.  And every 32-byte block whose length byte is between 1
    and 30 and whose first [length + 2] bytes sum to 0 modulo 256 passes
    the checks of [anx7688_receive_msg]: the function hands command and
    payload to [anx7688_handle_pd_message] and returns 0. *)
Theorem ocm_frame_checksum_accepted :
  (forall env w cmd data,
      is_byte cmd -> Forall is_byte data -> (length data <= 29)%nat ->
      reply env queue_read (tick w) = 0 ->
      let frame := ocm_frame cmd data in
      let transmit := i2c_smbus_write_i2c_block_data
                        TCPC ANX7688_TCPC_REG_INTERFACE_SEND
                        (len data + 3) frame in
      (exists checksum added,
          is_byte checksum
          /\ frame = (len data + 1) :: cmd :: data ++ [checksum]
          /\ extends w (io_world (anx7688_send_ocm_message env cmd data w))
               ((queue_read, 0)
                  :: (transmit, reply env transmit (S (tick w))) :: added))
      /\ byte_sum frame mod 256 = 0)
  /\ (forall env a w block,
      0 <= reply env recv_read (tick w) ->
      block_data env (tick w) = block ->
      length block = 32%nat -> Forall is_byte block ->
      1 <= nth 0 block 0 <= 30 ->
      byte_sum (firstn (Z.to_nat (nth 0 block 0 + 2)) block) mod 256 = 0 ->
      let handled := anx7688_handle_pd_message
                       env (nth 1 block 0) (skipn 2 block)
                       (nth 0 block 0 - 1) a (received env w) in
      let x := anx7688_receive_msg env a w in
      m_val x = 0 /\ m_dev x = m_dev handled /\ m_world x = m_world handled).
Proof.
  split.
  - intros env w cmd data Hcmd Hdata Hlen Hq frame transmit. split.
    + now apply send_frame_layout.
    + apply ocm_frame_sum.
  - intros env a w block. apply receive_msg_valid.
Qed.

Lemma ocm_frame_checksum_accepted_witness :
  byte_sum (ocm_frame 0 [0x5a; 0x90; 0x01; 0x00]) mod 256 = 0
  /\ m_val (anx7688_receive_msg (delivers hard_reset_block) probed boot) = 0.
Proof.
  split.
  - apply (proj1 ocm_frame_checksum_accepted quiet boot 0
                 [0x5a; 0x90; 0x01; 0x00]).
    + unfold is_byte; lia.
    + repeat constructor; unfold is_byte; lia.
    + simpl; lia.
    + reflexivity.
  - apply (proj2 ocm_frame_checksum_accepted (delivers hard_reset_block)
                 probed boot hard_reset_block).
    + simpl; lia.
    + reflexivity.
    + reflexivity.
    + repeat constructor; unfold is_byte; lia.
    + simpl; lia.
    + reflexivity.
Defined.

(** ** C8: a busy queue and a queue that does not drain *)

Lemma polls_do_not_transmit added :
  Forall (fun e : call * Z => fst e = queue_read \/ fst e = udelay 100) added ->
  transmissions (map fst added) = 0%nat.
Proof.
  unfold transmissions. induction 1 as [|e l He _ IH]; [reflexivity|].
  simpl. destruct He as [-> | ->]; exact IH.
Qed.

Lemma transmissions_app l1 l2 :
  transmissions (l1 ++ l2) = (transmissions l1 + transmissions l2)%nat.
Proof. unfold transmissions. now rewrite filter_app, length_app. Qed.

Lemma transmissions_polls n :
  transmissions (concat (repeat [queue_read; udelay 100] n)) = 0%nat.
Proof. induction n as [|n IH]; [reflexivity|exact IH]. Qed.

(** C8. [anx7688_send_ocm_message] with a payload of at most 29 bytes:
    when the first read of the send-queue register finds the queue
    occupied, the function returns [-EBUSY] and that read is its only
    external call, so nothing is transmitted; when the queue is empty at
    first and every later read finds it occupied, the function writes the
    frame once, polls the register 300 times with a delay of 100 us after
    each poll (30 ms in all) and returns [-ETIMEDOUT]; whatever the
    hardware answers, the frame is written at most once. *)
Theorem send_ocm_message_busy_or_timeout :
  forall env w cmd data,
    (length data <= 29)%nat ->
    let x := anx7688_send_ocm_message env cmd data w in
    let transmit := i2c_smbus_write_i2c_block_data
                      TCPC ANX7688_TCPC_REG_INTERFACE_SEND
                      (len data + 3) (ocm_frame cmd data) in
    (0 < reply env queue_read (tick w) ->
       io_val x = - EBUSY
       /\ calls (io_world x) = calls w ++ [queue_read])
    /\ (reply env queue_read (tick w) = 0 ->
        (forall k, (tick w < k)%nat -> 0 < reply env queue_read k) ->
        io_val x = - ETIMEDOUT
        /\ calls (io_world x)
           = calls w ++ queue_read :: transmit
                     :: concat (repeat [queue_read; udelay 100] 300)
        /\ clock (io_world x) = clock w + 30 * NSEC_PER_MSEC)
    /\ (exists added,
          calls (io_world x) = calls w ++ added
          /\ (transmissions added <= 1)%nat).
Proof.
  intros env w cmd data Hlen x transmit. subst x.
  unfold anx7688_send_ocm_message.
  assert (Hl : (len data >? 32 - 3) = false).
  { unfold len. rewrite Z.gtb_ltb. apply Z.ltb_ge. lia. }
  rewrite Hl. unfold io_bind, anx7688_tcpc_reg_read. cbn [extern].
  fold queue_read. fold transmit.
  split; [|split].
  - intros Hbusy.
    destruct (Z.eqb_spec (reply env queue_read (tick w)) 0) as [H0|_]; [lia|].
    cbn [negb]. unfold io_ret. world_simpl. split; [reflexivity|].
    unfold calls. world_simpl. now rewrite map_app.
  - intros Hempty Hocc. rewrite Hempty. cbn [Z.eqb negb].
    match goal with |- context [send_wait_flush env 300 ?w2] =>
      pose proof (send_wait_flush_timeout env 300 w2) as Hto end.
    world_simpl. destruct Hto as (Hv & Hc & Hk).
    { intros k Hk. apply Hocc. lia. }
    split; [exact Hv|]. split.
    + rewrite Hc. unfold calls. world_simpl. rewrite !map_app. cbn [map fst].
      rewrite <- !app_assoc. reflexivity.
    + rewrite Hk. change (duration queue_read) with 0.
      change (duration transmit) with 0.
      unfold NSEC_PER_USEC, NSEC_PER_MSEC. lia.
  - destruct (Z.eqb_spec (reply env queue_read (tick w)) 0) as [H0|H0];
      cbn [negb]; unfold io_ret; world_simpl.
    + match goal with |- context [send_wait_flush env 300 ?w2] =>
        destruct (send_wait_flush_calls env 300 w2) as (added & Hadd & Hf) end.
      exists (queue_read :: transmit :: map fst added). split.
      * unfold calls, extends in *. rewrite Hadd. world_simpl.
        rewrite !map_app. cbn [map fst]. rewrite <- !app_assoc. reflexivity.
      * change (queue_read :: transmit :: map fst added)
          with ([queue_read; transmit] ++ map fst added).
        rewrite transmissions_app, (polls_do_not_transmit _ Hf).
        unfold transmissions. simpl. lia.
    + exists [queue_read]. split.
      * unfold calls. world_simpl. now rewrite map_app.
      * unfold transmissions. simpl. lia.
Qed.

Lemma send_ocm_message_busy_or_timeout_witness :
  io_val (anx7688_send_ocm_message stuck_queue ANX7688_OCM_MSG_SVID svid boot)
  = - ETIMEDOUT.
Proof.
  apply (proj1 (proj2 (send_ocm_message_busy_or_timeout
                         stuck_queue boot ANX7688_OCM_MSG_SVID svid
                         ltac:(simpl; lia)))).
  - reflexivity.
  - intros k Hk. destruct k as [|k]; [simpl in Hk; lia | simpl; lia].
Defined.

(** ** The flag word *)

Lemma test_set_same nr word : 0 <= nr -> test_bit nr (set_bit nr word) = true.
Proof. intros H. unfold test_bit, set_bit. now apply Z.setbit_eq. Qed.

Lemma test_set_other nr m word :
  0 <= nr -> nr <> m -> test_bit m (set_bit nr word) = test_bit m word.
Proof. intros H0 H. unfold test_bit, set_bit. now apply Z.setbit_neq. Qed.

Lemma test_clear_same nr word : test_bit nr (clear_bit nr word) = false.
Proof. unfold test_bit, clear_bit. apply Z.clearbit_eq. Qed.

Lemma test_clear_other nr m word :
  nr <> m -> test_bit m (clear_bit nr word) = test_bit m word.
Proof. intros H. unfold test_bit, clear_bit. now apply Z.clearbit_neq. Qed.

(** Evaluation of a run: the monad operations, the external calls, the
    setters and the projections are unfolded; everything else stays as it
    is written. *)
Ltac run_m :=
  cbv beta iota zeta delta
    [bind lift modify get ret io_bind io_ret extern psy_get block_read
     ktime_get trap tick clock trace div_by_zero fst snd
     io_val io_world m_val m_dev m_world
     set_input_current_limit set_flags set_vbus_on set_vconn_on
     set_pd_capable set_pd_current_limit set_current_update_deadline
     set_partner set_pwr_role set_data_role set_last_status
     set_last_cc_status set_last_dp_state set_last_bc_result
     set_last_extcon_state
     input_current_limit src_caps n_src_caps snk_caps n_snk_caps flags
     vbus_on vconn_on pd_capable pd_current_limit current_update_deadline
     partner pwr_role data_role last_status last_cc_status last_dp_state
     last_bc_result extcon last_extcon_state].

(** Two lists of calls that differ in the bracketing of their
    concatenation only. *)
Ltac calls_eq :=
  unfold calls; cbn [trace]; rewrite ?map_app; cbn [map fst];
  rewrite <- ?app_assoc; reflexivity.

(** ** C2: disconnect *)

(** C2. From every state and with every behaviour of the hardware,
    [anx7688_disconnect] leaves the deadline cleared, [vconn_on] and
    [vbus_on] false, the Powered and Connected flags clear, [pd_capable]
    false, no partner, and the roles Sink and Device; and its external
    calls are, in this order: the disabling of the VCONN rail and of the
    VBUS rail, each only when the rail was on; the power-down of the chip
    (reset asserted, 5 ms, enable released); the release of the partner;
    the port set to Sink, Device, USB power mode and VCONN Sink; the role
    switch set to none; the input current limit set to 500 mA; the input
    path taken offline; BC1.2 detection enabled. *)
Theorem disconnect_resets :
  forall env a w,
    let x := anx7688_disconnect env a w in
    let a' := m_dev x in
    current_update_deadline a' = 0
    /\ vconn_on a' = false /\ vbus_on a' = false
    /\ test_bit ANX7688_F_POWERED (flags a') = false
    /\ pd_capable a' = false
    /\ partner a' = 0
    /\ pwr_role a' = TYPEC_SINK /\ data_role a' = TYPEC_DEVICE
    /\ test_bit ANX7688_F_CONNECTED (flags a') = false
    /\ calls (m_world x)
       = calls w ++ hpd_low_calls a
           ++ (if vconn_on a then [regulator_disable VCONN] else [])
           ++ (if vbus_on a then [regulator_disable VBUS] else [])
           ++ [ gpiod_set_value GPIO_RESET 1; msleep 5;
                gpiod_set_value GPIO_ENABLE 0;
                typec_unregister_partner (partner a);
                typec_set_pwr_role TYPEC_SINK;
                typec_set_data_role TYPEC_DEVICE;
                typec_set_pwr_opmode TYPEC_PWR_MODE_USB;
                typec_set_vconn_role TYPEC_SINK;
                usb_role_switch_set_role USB_ROLE_NONE;
                power_supply_set_property
                  POWER_SUPPLY_PROP_INPUT_CURRENT_LIMIT (500 * 1000);
                power_supply_set_property POWER_SUPPLY_PROP_ONLINE 0;
                power_supply_set_property POWER_SUPPLY_PROP_USB_BC_ENABLED 1 ].
Proof.
  intros env a w x a'. subst a' x. destruct a.
  unfold anx7688_disconnect, anx7688_set_hdmi_hpd, anx7688_power_disable,
    hpd_low_calls.
  run_m.
  destruct (extcon0 =? 0), (last_extcon_state0 =? 0), vconn_on0, vbus_on0;
    cbn [negb]; run_m;
    (repeat split;
     [ rewrite test_clear_other by (unfold ANX7688_F_CONNECTED,
                                    ANX7688_F_POWERED; lia);
       apply test_clear_same
     | apply test_clear_same
     | calls_eq ]).
Qed.

(** ** C3: connect *)

Lemma fw_loaded_test r :
  r < 0 \/ Z.testbit r 0 = false ->
  (r >=? 0) && (Z.land r ANX7688_EEPROM_FW_LOADED =? ANX7688_EEPROM_FW_LOADED)
  = false.
Proof.
  intros [Hneg|Hbit].
  - destruct (Z.geb_spec r 0); [lia | reflexivity].
  - apply andb_false_iff. right. apply Z.eqb_neq.
    change ANX7688_EEPROM_FW_LOADED with (Z.ones 1).
    rewrite Z.land_ones by lia. change (2 ^ 1) with 2.
    rewrite Zmod_odd, <- Z.bit0_odd, Hbit. discriminate.
Qed.

(** Without the firmware-loaded bit the loop makes all its [n] polls, each
    followed by a sleep of 5 ms. *)
Lemma connect_wait_fw_timeout env n : forall w,
  fw_never_loaded env ->
  let x := connect_wait_fw env n w in
  io_val x = false
  /\ calls (io_world x) = calls w ++ concat (repeat [fw_status_read; msleep 5] n)
  /\ clock (io_world x) = clock w + Z.of_nat n * (5 * NSEC_PER_MSEC).
Proof.
  intros w Hnever. revert w.
  induction n as [|n IH]; intros w.
  - simpl. unfold calls. rewrite app_nil_r. repeat split. lia.
  - cbn [connect_wait_fw]. unfold io_bind, anx7688_reg_read.
    cbn [extern]. fold fw_status_read.
    rewrite (fw_loaded_test _ (Hnever (tick w))).
    match goal with |- context [connect_wait_fw env n ?w2] =>
      specialize (IH w2) end.
    world_simpl. destruct IH as (Hv & Hc & Hk).
    repeat split.
    + exact Hv.
    + rewrite Hc. unfold calls. world_simpl. rewrite !map_app. cbn [map fst].
      rewrite <- !app_assoc. reflexivity.
    + rewrite Hk. change (duration fw_status_read) with 0. cbn [duration].
      unfold NSEC_PER_MSEC. lia.
Qed.

Lemma until_error_first steps : forall w,
  first_error steps w (io_val (until_error steps w))
              (io_world (until_error steps w)).
Proof.
  induction steps as [|c rest IH]; intros w.
  - simpl. constructor.
  - cbn [until_error]. unfold io_bind.
    destruct (c w) as [r w1] eqn:Hc.
    destruct (Z.eqb_spec r 0) as [H0|H0]; cbn [negb].
    + apply first_error_later; rewrite Hc; [exact H0 | apply IH].
    + pose proof (first_error_here c rest w) as Hhere.
      rewrite Hc in Hhere. apply Hhere. exact H0.
Qed.

Ltac flag_side :=
  unfold ANX7688_F_POWERED, ANX7688_F_CONNECTED, ANX7688_F_FW_FAILED,
    ANX7688_F_PWRSUPPLY_CHANGE, ANX7688_F_CURRENT_UPDATE; lia.

Ltac flag_solve :=
  repeat first
    [ rewrite test_set_same by flag_side
    | rewrite test_clear_same
    | rewrite test_clear_other by flag_side
    | rewrite test_set_other by flag_side ];
  try reflexivity.

(** With [vconn_unavailable] the run fails at the enabling of VCONN, and
    no call of the run disables VCONN. *)
Lemma connect_skips_vconn_disable :
  let x := anx7688_connect vconn_unavailable probed boot in
  m_val x = - EIO
  /\ ~ In (regulator_disable VCONN) (calls (m_world x)).
Proof.
  vm_compute. split; [reflexivity|].
  intros H. repeat (destruct H as [H|H]; [discriminate H|]). exact H.
Qed.

(** C3, amended. [anx7688_connect] sets the Connected flag when it
    returns 0 and leaves the flag alone when it returns an error.  Every
    error powers the chip down: the last calls are those of
    [anx7688_power_disable] and the Powered flag is clear.  The value
    returned is that of the step of this run that failed first: what
    [regulator_enable] returned for VCONN; [-ETIMEDOUT], with the
    Firmware-failed flag set, when the wait for the firmware ran out;
    what the first configuration step that did not return 0 returned;
    the error of [typec_register_partner].  Every error after VCONN has
    been enabled disables VCONN again, just before the power-down, and
    leaves [vconn_on] false.  When enabling VCONN itself fails, the run
    goes to the power-down at once: no call disables VCONN, the rail
    never came on, and [vconn_on] keeps its value.  In particular, when
    the firmware-loaded bit is never read as set, the function polls it
    100 times with 5 ms after each poll, sets the Firmware-failed flag,
    disables VCONN, powers the chip down and returns [-ETIMEDOUT]. *)
Theorem connect_all_or_nothing :
  forall env a w,
    let x := anx7688_connect env a w in
    let r := m_val x in
    let a' := m_dev x in
    let vconn_ret := connect_vconn_ret env w in
    let fw := connect_fw_wait env w in
    let cfg := connect_configure env a w in
    let p := connect_partner env a w in
    (r = 0 -> test_bit ANX7688_F_CONNECTED (flags a') = true)
    /\ (r <> 0 ->
        test_bit ANX7688_F_CONNECTED (flags a')
        = test_bit ANX7688_F_CONNECTED (flags a)
        /\ test_bit ANX7688_F_POWERED (flags a') = false
        /\ exists before, calls (m_world x) = before ++ power_down_calls)
    /\ (vconn_ret <> 0 ->
        r = vconn_ret
        /\ vconn_on a' = vconn_on a
        /\ calls (m_world x)
           = calls w ++ power_up_calls
               ++ regulator_enable VCONN :: power_down_calls)
    /\ (vconn_ret = 0 ->
        (r <> 0 ->
         vconn_on a' = false
         /\ exists before,
              calls (m_world x)
              = before ++ regulator_disable VCONN :: power_down_calls)
        /\ (io_val fw = false ->
            r = - ETIMEDOUT
            /\ test_bit ANX7688_F_FW_FAILED (flags a') = true)
        /\ (io_val fw = true -> io_val cfg <> 0 ->
            r = io_val cfg
            /\ first_error (connect_config env a) (io_world fw)
                           r (io_world cfg))
        /\ (io_val fw = true -> io_val cfg = 0 ->
            (IS_ERR p = true -> r = PTR_ERR p)
            /\ (IS_ERR p = false -> r = 0)))
    /\ (fw_never_loaded env -> vconn_ret = 0 ->
        r = - ETIMEDOUT
        /\ test_bit ANX7688_F_FW_FAILED (flags a') = true
        /\ test_bit ANX7688_F_POWERED (flags a') = false
        /\ vconn_on a' = false
        /\ calls (m_world x)
           = calls w ++ power_up_calls
               ++ regulator_enable VCONN
               :: concat (repeat [fw_status_read; msleep 5] 100)
               ++ regulator_disable VCONN :: power_down_calls).
Proof.
  intros env a w x r a' vconn_ret fw cfg p.
  subst a' r x vconn_ret p cfg fw.
  unfold connect_partner, connect_configure, connect_fw_wait,
    connect_vconn_ret, after_calls, power_up_calls.
  cbn [fold_left].
  destruct a, w as [tick0 clock0 trace0 dz0].
  unfold anx7688_connect, err_vconoff, err_poweroff, anx7688_power_enable,
    anx7688_power_disable, connect_config.
  run_m.
  destruct (Z.eqb_spec (reply env (regulator_enable VCONN)
                              (S (S (S (S (S (S tick0))))))) 0) as [Hv|Hv];
    cbn [negb]; run_m.
  2:{ (* enabling VCONN failed *)
      split; [intros H0; contradiction|].
      split; [intros _; split; [flag_solve|]; split; [flag_solve|]|].
      { exists (map fst trace0 ++ power_up_calls ++ [regulator_enable VCONN]).
        unfold power_up_calls, power_down_calls. calls_eq. }
      split; [intros _; split; [reflexivity|]; split; [reflexivity|calls_eq]|].
      split; intros; contradiction. }
  match goal with |- context [connect_wait_fw env 100 ?w2] =>
    pose proof (connect_wait_fw_timeout env 100 w2) as Hto;
    destruct (connect_wait_fw env 100 w2)
      as [loaded [tick3 clock3 trace3 dz3]] end.
  unfold calls in Hto. cbn [io_val io_world fst snd trace] in Hto.
  destruct loaded; cbn [negb]; run_m.
  2:{ (* the firmware did not load *)
      split; [intros H0; discriminate H0|].
      split.
      { intros _. split; [flag_solve|]. split; [flag_solve|].
        exists (map fst trace3 ++ [regulator_disable VCONN]).
        unfold power_down_calls. calls_eq. }
      split; [intros H0; contradiction|].
      split.
      { intros _. split.
        { intros _. split; [reflexivity|].
          exists (map fst trace3). unfold power_down_calls. calls_eq. }
        split; [intros _; split; [reflexivity | flag_solve]|].
        split; intros H0; discriminate H0. }
      intros Hnever _. destruct (Hto Hnever) as (_ & Hc & _).
      split; [reflexivity|]. split; [flag_solve|]. split; [flag_solve|].
      split; [reflexivity|].
      unfold calls. cbn [trace]. rewrite !map_app. cbn [map fst].
      rewrite Hc. unfold power_up_calls, power_down_calls. calls_eq. }
  assert (Hloaded : ~ fw_never_loaded env).
  { intros Hnever. destruct (Hto Hnever) as (Habs & _). discriminate Habs. }
  clear Hto.
  match goal with |- context [until_error ?steps ?w3] =>
    pose proof (until_error_first steps w3) as Hfirst;
    destruct (until_error steps w3)
      as [r [tick4 clock4 trace4 dz4]] end.
  cbn [io_val io_world fst snd] in Hfirst.
  destruct (Z.eqb_spec r 0) as [Hr|Hr]; cbn [negb]; run_m.
  2:{ (* a configuration step failed *)
      split; [intros H0; contradiction|].
      split.
      { intros _. split; [flag_solve|]. split; [flag_solve|].
        exists (map fst trace4 ++ [regulator_disable VCONN]).
        unfold power_down_calls. calls_eq. }
      split; [intros H0; contradiction|].
      split.
      { intros _. split.
        { intros _. split; [reflexivity|].
          exists (map fst trace4). unfold power_down_calls. calls_eq. }
        split; [intros H0; discriminate H0|].
        split; [intros _ _; split; [reflexivity | exact Hfirst]|].
        intros _ H0. contradiction. }
      intros Hnever. contradiction. }
  destruct (IS_ERR (reply env typec_register_partner (S tick4))) eqn:Hp;
    run_m.
  - (* the partner could not be registered *)
    assert (Hneg : PTR_ERR (reply env typec_register_partner (S tick4)) <> 0).
    { unfold PTR_ERR, IS_ERR in *. apply andb_true_iff in Hp.
      destruct Hp as [_ Hp]. apply Z.ltb_lt in Hp. lia. }
    split; [intros H0; contradiction|].
    split.
    { intros _. split; [flag_solve|]. split; [flag_solve|].
      exists (map fst trace4
              ++ [typec_unregister_partner partner0; typec_register_partner;
                  regulator_disable VCONN]).
      unfold power_down_calls. calls_eq. }
    split; [intros H0; contradiction|].
    split.
    { intros _. split.
      { intros _. split; [reflexivity|].
        exists (map fst trace4
                ++ [typec_unregister_partner partner0;
                    typec_register_partner]).
        unfold power_down_calls. calls_eq. }
      split; [intros H0; discriminate H0|].
      split; [intros _ H0; contradiction|].
      intros _ _. split; [intros _; reflexivity | intros H0; discriminate H0]. }
    intros Hnever. contradiction.
  - (* success *)
    split; [intros _; flag_solve|].
    split; [intros H0; now elim H0|].
    split; [intros H0; contradiction|].
    split.
    { intros _. split; [intros H0; now elim H0|].
      split; [intros H0; discriminate H0|].
      split; [intros _ H0; contradiction|].
      intros _ _. split; [intros H0; discriminate H0 | intros _; reflexivity]. }
    intros Hnever. contradiction.
Qed.

Lemma connect_all_or_nothing_witness :
  m_val (anx7688_connect quiet probed boot) = - ETIMEDOUT
  /\ test_bit ANX7688_F_FW_FAILED
       (flags (m_dev (anx7688_connect quiet probed boot))) = true
  /\ vconn_on (m_dev (anx7688_connect quiet probed boot)) = false.
Proof.
  destruct (connect_all_or_nothing quiet probed boot)
    as (_ & _ & _ & _ & Htimeout).
  destruct Htimeout as (Hr & Hf & _ & Hv & _).
  - intros k. right. reflexivity.
  - reflexivity.
  - split; [exact Hr | split; [exact Hf | exact Hv]].
Defined.

Example connect_fw_ready :
  let x := anx7688_connect fw_ready probed boot in
  m_val x = 0
  /\ test_bit ANX7688_F_CONNECTED (flags (m_dev x)) = true
  /\ test_bit ANX7688_F_POWERED (flags (m_dev x)) = true
  /\ vconn_on (m_dev x) = true
  /\ current_update_deadline (m_dev x) = clock (m_world x) + 3000 * NSEC_PER_MSEC
  /\ length (trace (m_world x)) = 33%nat.
Proof. vm_compute. repeat split. Qed.

(** ** C4: the current limit from PD or from the CC pins *)

Lemma cc_status_unclassified v : ~ classified v -> anx7688_cc_status v = -1.
Proof.
  unfold classified, anx7688_cc_status. intros H.
  destruct (Z.eqb_spec v 0); [reflexivity|].
  destruct (Z.eqb_spec v 1); [reflexivity|].
  destruct (Z.eqb_spec v 2); [reflexivity|].
  destruct (Z.eqb_spec v 4); [exfalso; auto|].
  destruct (Z.eqb_spec v 8); [exfalso; auto|].
  destruct (Z.eqb_spec v 12); [exfalso; auto|].
  reflexivity.
Qed.

Lemma cc_status_classified v :
  classified v -> 0 <= anx7688_cc_status v
                  /\ anx7688_cc_status v <> TYPEC_PWR_MODE_PD.
Proof. intros [-> | [-> | ->]]; vm_compute; split; congruence. Qed.

(** The two nibbles of a CC status byte. *)
Lemma cc_nibbles lo hi :
  0 <= lo < 16 -> 0 <= hi < 16 ->
  Z.land (u32 (lo + 16 * hi)) 0xf = lo
  /\ Z.land (Z.shiftr (u32 (lo + 16 * hi)) 4) 0xf = hi.
Proof.
  intros Hlo Hhi. unfold u32. rewrite (Z.mod_small (lo + 16 * hi)) by lia.
  change 0xf with (Z.ones 4). rewrite !Z.land_ones by lia.
  rewrite Z.shiftr_div_pow2 by lia. change (2 ^ 4) with 16.
  replace (lo + 16 * hi) with (lo + hi * 16) by lia.
  rewrite Z_mod_plus_full, Z_div_plus_full by lia.
  rewrite (Z.mod_small lo), (Z.div_small lo) by lia.
  split; [reflexivity|]. rewrite Z.add_0_l. apply Z.mod_small. lia.
Qed.

(** The power mode when the partner is not PD capable: the low nibble
    decides when it is classified, else the high nibble, else USB. *)
Lemma pwr_mode_from_cc a lo hi :
  0 <= lo < 16 -> 0 <= hi < 16 ->
  last_cc_status a = lo + 16 * hi -> pd_capable a = false ->
  (classified lo -> current_update_pwr_mode a = anx7688_cc_status lo)
  /\ (~ classified lo -> classified hi ->
      current_update_pwr_mode a = anx7688_cc_status hi)
  /\ (~ classified lo -> ~ classified hi ->
      current_update_pwr_mode a = TYPEC_PWR_MODE_USB).
Proof.
  intros Hlo Hhi Hcc Hpd. unfold current_update_pwr_mode.
  rewrite Hpd, Hcc. destruct (cc_nibbles lo hi Hlo Hhi) as [-> ->].
  assert (Hu : (u32 (lo + 16 * hi) <? 0) = false).
  { apply Z.ltb_ge. unfold u32. apply Z.mod_pos_bound. lia. }
  rewrite Hu. cbv zeta. repeat split.
  - intros Hc. destruct (cc_status_classified lo Hc) as [H0 _].
    destruct (Z.ltb_spec (anx7688_cc_status lo) 0); [lia|].
    destruct (Z.ltb_spec (anx7688_cc_status lo) 0); [lia|reflexivity].
  - intros Hn Hc. rewrite (cc_status_unclassified lo Hn). cbn [Z.ltb Z.compare].
    destruct (cc_status_classified hi Hc) as [H0 _].
    destruct (Z.ltb_spec (anx7688_cc_status hi) 0); [lia|reflexivity].
  - intros Hn Hn'. rewrite (cc_status_unclassified lo Hn). cbn [Z.ltb Z.compare].
    rewrite (cc_status_unclassified hi Hn'). reflexivity.
Qed.

(** C4. [anx7688_handle_current_update] resolves a power mode and a
    current limit, stores the limit in [input_current_limit], programs the
    supply for it, brings the input path online and reports the mode to
    the port.  For a PD capable partner the mode is PD and the limit is
    [pd_current_limit].  Otherwise, with [lo] and [hi] the low and the
    high nibble of the cached CC status: the low nibble decides when it is
    4 (USB, no limit), 8 (1.5 A, 1500 mA) or 12 (3.0 A, 3000 mA); when it
    is none of these the high nibble decides in the same way; when neither
    is 4, 8 or 12 the mode is USB with limit 0.  With limit 0 the limit is
    left to BC1.2 detection, and 500 mA are programmed when the detection
    cannot be queried or is disabled. *)
Theorem current_update_policy :
  forall env a w lo hi,
    0 <= lo < 16 -> 0 <= hi < 16 -> last_cc_status a = lo + 16 * hi ->
    let x := anx7688_handle_current_update env a w in
    exists mode limit,
      (pd_capable a = true ->
       mode = TYPEC_PWR_MODE_PD /\ limit = pd_current_limit a)
      /\ (pd_capable a = false ->
          (lo = 4 -> mode = TYPEC_PWR_MODE_USB /\ limit = 0)
          /\ (lo = 8 -> mode = TYPEC_PWR_MODE_1_5A /\ limit = 1500)
          /\ (lo = 12 -> mode = TYPEC_PWR_MODE_3_0A /\ limit = 3000)
          /\ (~ classified lo ->
              (hi = 4 -> mode = TYPEC_PWR_MODE_USB /\ limit = 0)
              /\ (hi = 8 -> mode = TYPEC_PWR_MODE_1_5A /\ limit = 1500)
              /\ (hi = 12 -> mode = TYPEC_PWR_MODE_3_0A /\ limit = 3000)
              /\ (~ classified hi -> mode = TYPEC_PWR_MODE_USB /\ limit = 0)))
      /\ input_current_limit (m_dev x) = limit
      /\ calls (m_world x)
         = calls w ++ supply_calls env w limit
             ++ [ power_supply_set_property POWER_SUPPLY_PROP_ONLINE 1;
                  typec_set_pwr_opmode mode ].
Proof.
  intros env a w lo hi Hlo Hhi Hcc x. subst x.
  exists (current_update_pwr_mode a),
         (current_update_limit a (current_update_pwr_mode a)).
  split; [|split].
  - intros Hpd. unfold current_update_pwr_mode. rewrite Hpd.
    split; reflexivity.
  - intros Hpd.
    destruct (pwr_mode_from_cc a lo hi Hlo Hhi Hcc Hpd) as (Hl & Hh & Hn).
    assert (H4 : classified 4) by (unfold classified; auto).
    assert (H8 : classified 8) by (unfold classified; auto).
    assert (H12 : classified 12) by (unfold classified; auto).
    split; [|split; [|split]].
    + intros ->. rewrite (Hl H4). split; reflexivity.
    + intros ->. rewrite (Hl H8). split; reflexivity.
    + intros ->. rewrite (Hl H12). split; reflexivity.
    + intros Hnl. split; [|split; [|split]].
      * intros ->. rewrite (Hh Hnl H4). split; reflexivity.
      * intros ->. rewrite (Hh Hnl H8). split; reflexivity.
      * intros ->. rewrite (Hh Hnl H12). split; reflexivity.
      * intros Hnh. rewrite (Hn Hnl Hnh). split; reflexivity.
  - unfold anx7688_handle_current_update, supply_calls.
    clear Hcc. destruct a, w as [tick0 clock0 trace0 dz0]. run_m.
    match goal with |- context [current_update_limit ?A ?m] =>
      generalize (current_update_limit A m); intros limit;
      generalize m; intros mode end.
    destruct (limit =? 0); cbn [negb]; run_m.
    + destruct (negb (reply env (power_supply_get_property
                                   POWER_SUPPLY_PROP_USB_BC_ENABLED) tick0 =? 0)
                || (propval env tick0 =? 0)); run_m;
        (split; [reflexivity | calls_eq]).
    + split; [reflexivity | calls_eq].
Qed.

(** The partner advertises 1.5 A on the second CC pin and the first pin is
    open: [last_cc_status = 0x80]. *)
Lemma current_update_policy_witness :
  exists mode limit,
    (mode = TYPEC_PWR_MODE_1_5A /\ limit = 1500)
    /\ input_current_limit
         (m_dev (anx7688_handle_current_update
                   quiet (set_last_cc_status 0x80 probed) boot)) = limit.
Proof.
  destruct (current_update_policy quiet (set_last_cc_status 0x80 probed) boot
              0 8 ltac:(lia) ltac:(lia) eq_refl)
    as (mode & limit & _ & Hcc & Hl & _).
  exists mode, limit. split; [|exact Hl].
  destruct (Hcc eq_refl) as (_ & _ & _ & Hhi).
  apply Hhi; [|reflexivity].
  unfold classified. lia.
Defined.

(** ** C5 and C10: the source-capability report *)

Lemma s32_small z : - 2 ^ 31 <= z < 2 ^ 31 -> s32 z = z.
Proof. intros H. unfold s32. rewrite Z.mod_small; lia. Qed.

Lemma s64_small z : - 2 ^ 63 <= z < 2 ^ 63 -> s64 z = z.
Proof. intros H. unfold s64. rewrite Z.mod_small; lia. Qed.

Lemma ktime_add_ms_small kt msec :
  0 <= kt < 2 ^ 62 -> 0 <= msec <= 3000 ->
  ktime_add_ms kt msec = kt + msec * NSEC_PER_MSEC.
Proof.
  intros Hkt Hms. unfold ktime_add_ms, NSEC_PER_MSEC.
  apply s64_small. lia.
Qed.

(** The limit computed from two register bytes, with the arithmetic of
    [int]. *)
Lemma pd_limit_bytes p v :
  0 <= p <= 255 -> 0 < v <= 255 ->
  int_div (s32 (p * 5000)) v = Some (p * 5000 / v).
Proof.
  intros Hp Hv. unfold int_div.
  destruct (Z.eqb_spec v 0) as [H0|_]; [lia|].
  rewrite (s32_small (p * 5000)) by lia.
  rewrite Z.quot_div_nonneg by lia.
  rewrite s32_small; [reflexivity|].
  assert (0 <= p * 5000 / v) by (apply Z.div_pos; lia).
  assert (p * 5000 / v <= p * 5000) by (apply Z.div_le_upper_bound; nia).
  lia.
Qed.

(** The source-capability case of [anx7688_handle_pd_message] for a
    payload whose length is a multiple of 4, by the values the two
    registers deliver. *)
Lemma src_cap_run env a w msg len :
  len mod 4 = 0 ->
  let v := reply env max_voltage_read (tick w) in
  let p := reply env max_power_read (S (tick w)) in
  let capable := set_pd_capable true a in
  let w1 := io_world (extern env max_voltage_read w) in
  let w2 := io_world (extern env max_power_read w1) in
  anx7688_handle_pd_message env ANX7688_OCM_MSG_PWR_SRC_CAP msg len a w
  = if v <? 0 then (v, capable, w1)
    else if v =? 0 then (- EINVAL, capable, w1)
    else if p <? 0 then (p, capable, w2)
    else match int_div (s32 (p * 5000)) v with
         | None => (0, capable, io_world (trap w2))
         | Some limit =>
             (0,
              set_current_update_deadline (ktime_add_ms (clock w) 500)
                (set_pd_current_limit limit capable),
              w2)
         end.
Proof.
  intros Hlen v p capable w1 w2. subst v p capable w1 w2.
  unfold anx7688_handle_pd_message, anx7688_reg_read.
  fold max_voltage_read max_power_read.
  cbn [Z.eqb ANX7688_OCM_MSG_PWR_SRC_CAP]. rewrite Hlen. cbn [Z.eqb negb].
  destruct w as [tick0 clock0 trace0 dz0]. run_m.
  destruct (reply env max_voltage_read tick0 <? 0); [reflexivity|].
  destruct (reply env max_voltage_read tick0 =? 0); [reflexivity|].
  run_m.
  destruct (reply env max_power_read (S tick0) <? 0); [reflexivity|].
  destruct (int_div _ _); run_m; [|reflexivity].
  change (duration max_voltage_read) with 0.
  change (duration max_power_read) with 0.
  rewrite !Z.add_0_r. reflexivity.
Qed.

(** C5. For a source-capability report whose length is a multiple of 4,
    [anx7688_handle_pd_message] sets [pd_capable]; and when the two
    negotiated-result registers are read as the bytes [v > 0] (maximum
    voltage) and [p] (maximum power), it sets [pd_current_limit] to
    [p * 5000 / v], which is 3000 for [p = 30] and [v = 50], sets the
    deadline to 500 ms after the current time, and returns 0. *)
Theorem src_cap_current_limit :
  forall env a w msg len v p,
    len mod 4 = 0 ->
    reply env max_voltage_read (tick w) = v ->
    reply env max_power_read (S (tick w)) = p ->
    0 < v <= 255 -> 0 <= p <= 255 ->
    0 <= clock w < 2 ^ 62 ->
    let x := anx7688_handle_pd_message
               env ANX7688_OCM_MSG_PWR_SRC_CAP msg len a w in
    m_val x = 0
    /\ pd_capable (m_dev x) = true
    /\ pd_current_limit (m_dev x) = p * 5000 / v
    /\ (p = 30 -> v = 50 -> pd_current_limit (m_dev x) = 3000)
    /\ current_update_deadline (m_dev x) = clock w + 500 * NSEC_PER_MSEC
    /\ clock w < current_update_deadline (m_dev x).
Proof.
  intros env a w msg len v p Hlen Hv Hp Hvr Hpr Hclk x. subst x.
  rewrite (src_cap_run env a w msg len Hlen). cbv zeta. rewrite Hv, Hp.
  destruct (Z.ltb_spec v 0); [lia|].
  destruct (Z.eqb_spec v 0); [lia|].
  destruct (Z.ltb_spec p 0); [lia|].
  rewrite (pd_limit_bytes p v) by lia.
  rewrite ktime_add_ms_small by lia.
  destruct a. run_m. unfold NSEC_PER_MSEC.
  repeat split; try lia.
  intros -> ->. reflexivity.
Qed.

Lemma src_cap_current_limit_witness :
  pd_current_limit
    (m_dev (anx7688_handle_pd_message
              negotiated_5v_15w ANX7688_OCM_MSG_PWR_SRC_CAP
              [0x2c; 0x91; 0x01; 0x0a] 4 probed boot)) = 3000.
Proof.
  destruct (src_cap_current_limit negotiated_5v_15w probed boot
              [0x2c; 0x91; 0x01; 0x0a] 4 50 30)
    as (_ & _ & _ & H & _).
  - reflexivity.
  - reflexivity.
  - reflexivity.
  - lia.
  - lia.
  - simpl; lia.
  - apply H; reflexivity.
Defined.

(** C10. When the maximum-voltage register of a well-formed
    source-capability report reads 0, [anx7688_handle_pd_message] returns
    [-EINVAL] after that one register read and leaves [pd_current_limit]
    and the deadline as they were; and no message and no behaviour of the
    hardware make the handler divide by zero. *)
Theorem src_cap_zero_voltage :
  (forall env a w msg len,
      len mod 4 = 0 ->
      reply env max_voltage_read (tick w) = 0 ->
      let x := anx7688_handle_pd_message
                 env ANX7688_OCM_MSG_PWR_SRC_CAP msg len a w in
      m_val x = - EINVAL
      /\ pd_current_limit (m_dev x) = pd_current_limit a
      /\ current_update_deadline (m_dev x) = current_update_deadline a
      /\ calls (m_world x) = calls w ++ [max_voltage_read])
  /\ (forall env a w cmd msg len,
      div_by_zero (m_world (anx7688_handle_pd_message env cmd msg len a w))
      = div_by_zero w).
Proof.
  split.
  - intros env a w msg len Hlen Hv x. subst x.
    rewrite (src_cap_run env a w msg len Hlen). cbv zeta. rewrite Hv.
    cbn [Z.ltb Z.eqb Z.compare]. destruct a. run_m.
    repeat split. calls_eq.
  - intros env a w cmd msg len.
    destruct (Z.eqb_spec cmd ANX7688_OCM_MSG_PWR_SRC_CAP) as [->|Hcmd].
    { destruct (Z.eqb_spec (len mod 4) 0) as [Hlen|Hlen].
      - rewrite (src_cap_run env a w msg len Hlen). cbv zeta.
        destruct (Z.ltb_spec (reply env max_voltage_read (tick w)) 0);
          [reflexivity|].
        destruct (Z.eqb_spec (reply env max_voltage_read (tick w)) 0)
          as [H0|H0]; [reflexivity|].
        destruct (reply env max_power_read (S (tick w)) <? 0); [reflexivity|].
        unfold int_div. rewrite (proj2 (Z.eqb_neq _ _) H0). reflexivity.
      - unfold anx7688_handle_pd_message.
        cbn [Z.eqb ANX7688_OCM_MSG_PWR_SRC_CAP].
        rewrite (proj2 (Z.eqb_neq _ _) Hlen). reflexivity. }
    unfold anx7688_handle_pd_message.
    rewrite (proj2 (Z.eqb_neq _ _) Hcmd).
    destruct (cmd =? ANX7688_OCM_MSG_PWR_OBJ_REQ); [reflexivity|].
    destruct (cmd =? ANX7688_OCM_MSG_HARD_RST); [|reflexivity].
    destruct a, w. run_m. destruct pd_capable0; reflexivity.
Qed.

Lemma src_cap_zero_voltage_witness :
  m_val (anx7688_handle_pd_message
           negotiated_nothing ANX7688_OCM_MSG_PWR_SRC_CAP
           [0x2c; 0x91; 0x01; 0x0a] 4 probed boot) = - EINVAL.
Proof.
  apply (proj1 src_cap_zero_voltage negotiated_nothing probed boot
               [0x2c; 0x91; 0x01; 0x0a] 4); reflexivity.
Defined.

(** ** C7: malformed blocks *)

(** C7. When the block read fails, or delivers a 32-byte block whose
    length byte is 0 or greater than 30 or whose first [length + 2] bytes
    do not sum to 0 modulo 256, [anx7688_receive_msg] returns an error
    ([-EINVAL] for the malformed block) and [struct anx7688] is exactly as
    it was before; the only external calls are the block read and the
    write that clears the receive indicator. *)
Theorem receive_msg_malformed :
  forall env a w block,
    block_data env (tick w) = block ->
    length block = 32%nat -> Forall is_byte block ->
    nth 0 block 0 = 0 \/ 30 < nth 0 block 0
    \/ byte_sum (firstn (Z.to_nat (nth 0 block 0 + 2)) block) mod 256 <> 0 ->
    let x := anx7688_receive_msg env a w in
    m_val x < 0
    /\ m_dev x = a
    /\ (0 <= reply env recv_read (tick w) ->
        m_val x = - EINVAL
        /\ calls (m_world x) = calls w ++ [recv_read; recv_clear]).
Proof.
  intros env a w block Hblk Hlen Hbytes Hbad x. subst x.
  unfold anx7688_receive_msg, bind, lift, ret.
  rewrite (block_read_bytes env _ _ w block Hblk Hlen Hbytes).
  fold recv_read.
  destruct (Z.ltb_spec (reply env recv_read (tick w)) 0) as [Hneg|Hok].
  { cbn [m_val m_dev fst snd]. split; [exact Hneg|].
    split; [reflexivity|]. intros H0. lia. }
  unfold anx7688_tcpc_reg_write. change (u8 0) with 0. fold recv_clear.
  assert (Hck : recv_checksum block
                = byte_sum (firstn (Z.to_nat (nth 0 block 0 + 2)) block)
                  mod 256).
  { unfold recv_checksum. now rewrite add_loop_sum by (unfold is_byte; lia). }
  assert (Hret :
    (if (nth 0 block 0 =? 0) || (nth 0 block 0 >? 32 - 2)
     then true else negb (recv_checksum block =? 0)) = true).
  { destruct (Z.eqb_spec (nth 0 block 0) 0) as [|Hn0]; [reflexivity|].
    destruct (Z.gtb_spec (nth 0 block 0) (32 - 2)) as [|Hle]; [reflexivity|].
    cbn [orb]. destruct Hbad as [H|[H|H]]; [lia|lia|].
    rewrite Hck. now rewrite (proj2 (Z.eqb_neq _ _) H). }
  destruct w as [tick0 clock0 trace0 dz0]. cbn [extern io_world snd fst].
  destruct ((nth 0 block 0 =? 0) || (nth 0 block 0 >? 32 - 2)).
  - cbn [m_val m_dev m_world fst snd]. unfold EINVAL.
    split; [lia|]. split; [reflexivity|]. intros _.
    split; [reflexivity | calls_eq].
  - rewrite Hret. cbn [m_val m_dev m_world fst snd]. unfold EINVAL.
    split; [lia|]. split; [reflexivity|]. intros _.
    split; [reflexivity | calls_eq].
Qed.

(** A block with the length byte 0. *)
Lemma receive_msg_malformed_witness :
  m_val (anx7688_receive_msg (delivers (repeat 0 32)) probed boot) = - EINVAL
  /\ m_dev (anx7688_receive_msg (delivers (repeat 0 32)) probed boot) = probed.
Proof.
  destruct (receive_msg_malformed (delivers (repeat 0 32)) probed boot
              (repeat 0 32)) as (_ & Hdev & Hval).
  - reflexivity.
  - reflexivity.
  - repeat constructor; unfold is_byte; lia.
  - left. reflexivity.
  - split; [|exact Hdev]. apply Hval. simpl. lia.
Defined.

(** ** C9: which register I/O failures reach the caller *)

(** A poll of the send queue that fails ends the waiting loop with the
    error of that poll. *)
Lemma send_wait_flush_error env n : forall w j e,
  (j < n)%nat ->
  (forall i, (i < j)%nat -> 0 < reply env queue_read (tick w + 2 * i)) ->
  reply env queue_read (tick w + 2 * j) = e -> e < 0 ->
  io_val (send_wait_flush env n w) = e.
Proof.
  induction n as [|n IH]; intros w j e Hj Hbefore He Hneg; [lia|].
  cbn [send_wait_flush]. unfold io_bind, anx7688_tcpc_reg_read.
  cbn [extern]. fold queue_read.
  destruct j as [|j].
  - rewrite Nat.mul_0_r, Nat.add_0_r in He. rewrite He.
    destruct (Z.leb_spec e 0); [reflexivity | lia].
  - pose proof (Hbefore 0%nat ltac:(lia)) as H0.
    rewrite Nat.mul_0_r, Nat.add_0_r in H0.
    destruct (Z.leb_spec (reply env queue_read (tick w)) 0); [lia|].
    apply (IH _ j e); cbn [tick]; [lia | | | exact Hneg].
    + intros i Hi. specialize (Hbefore (S i) ltac:(lia)).
      replace (S (S (tick w)) + 2 * i)%nat with (tick w + 2 * S i)%nat by lia.
      exact Hbefore.
    + replace (S (S (tick w)) + 2 * j)%nat with (tick w + 2 * S j)%nat by lia.
      exact He.
Qed.

(** With [clear_fails] a register write fails with [-EIO] during
    [anx7688_receive_msg], and the function returns 0. *)
Lemma receive_msg_hides_clear_failure :
  let x := anx7688_receive_msg clear_fails probed boot in
  io_failures (trace (m_world x)) = [- EIO]
  /\ m_val x = 0
  /\ ~ returns_io_failures (trace (m_world x)) (m_val x).
Proof.
  vm_compute. split; [reflexivity|]. split; [reflexivity|].
  intros H. specialize (H (-5) (or_introl eq_refl)). discriminate H.
Qed.

(** When the read of the send queue before the transmission fails, the
    test [if (ret)] takes the failure for an occupied queue. *)
Example send_ocm_message_read_error_is_busy :
  let x := anx7688_send_ocm_message
             queue_unreadable ANX7688_OCM_MSG_SVID svid boot in
  io_failures (trace (io_world x)) = [- EIO] /\ io_val x = - EBUSY.
Proof. vm_compute. split; reflexivity. Qed.

(** When the block write of the frame fails, the failure is logged and the
    function goes on to wait for the queue: with [frame_write_fails] it
    returns 0. *)
Example send_ocm_message_write_error_is_lost :
  let x := anx7688_send_ocm_message
             frame_write_fails ANX7688_OCM_MSG_SVID svid boot in
  io_failures (trace (io_world x)) = [- EIO] /\ io_val x = 0.
Proof. vm_compute. split; reflexivity. Qed.

(** C9, amended. The error of a failed register transfer is returned to
    the caller at these transfers: a failed poll of the send queue after
    the transmission makes [anx7688_send_ocm_message] return that error;
    a failed read of the maximum-voltage or of the maximum-power register
    makes the source-capability case of [anx7688_handle_pd_message]
    return that error; a failed block read makes [anx7688_receive_msg]
    return that error and leave the state alone.  A failed write that
    clears the receive indicator is only logged: a well-formed block is
    still accepted with the result 0.  The statement is silent on the two
    other transfers of [anx7688_send_ocm_message], the read of the send
    queue before the transmission and the block write of the frame (the
    two examples above). *)
Theorem io_error_propagation_sites :
  (forall env w cmd data j e,
      (length data <= 29)%nat ->
      reply env queue_read (tick w) = 0 ->
      (j < 300)%nat ->
      (forall i, (i < j)%nat ->
                 0 < reply env queue_read (tick w + 2 + 2 * i)) ->
      reply env queue_read (tick w + 2 + 2 * j) = e -> e < 0 ->
      io_val (anx7688_send_ocm_message env cmd data w) = e)
  /\ (forall env a w msg len e,
      len mod 4 = 0 -> e < 0 ->
      let x := anx7688_handle_pd_message
                 env ANX7688_OCM_MSG_PWR_SRC_CAP msg len a w in
      (reply env max_voltage_read (tick w) = e -> m_val x = e)
      /\ (0 < reply env max_voltage_read (tick w) ->
          reply env max_power_read (S (tick w)) = e -> m_val x = e))
  /\ (forall env a w e,
      reply env recv_read (tick w) = e -> e < 0 ->
      let x := anx7688_receive_msg env a w in
      m_val x = e /\ m_dev x = a)
  /\ (forall env a w block e,
      0 <= reply env recv_read (tick w) ->
      reply env recv_clear (S (tick w)) = e -> e < 0 ->
      block_data env (tick w) = block ->
      length block = 32%nat -> Forall is_byte block ->
      1 <= nth 0 block 0 <= 30 ->
      byte_sum (firstn (Z.to_nat (nth 0 block 0 + 2)) block) mod 256 = 0 ->
      m_val (anx7688_receive_msg env a w) = 0).
Proof.
  split; [|split; [|split]].
  - intros env w cmd data j e Hlen Hq Hj Hbefore He Hneg.
    unfold anx7688_send_ocm_message.
    assert (Hl : (len data >? 32 - 3) = false).
    { unfold len. rewrite Z.gtb_ltb. apply Z.ltb_ge. lia. }
    rewrite Hl. unfold io_bind, anx7688_tcpc_reg_read. cbn [extern].
    fold queue_read. rewrite Hq. cbn [Z.eqb negb].
    apply (send_wait_flush_error env 300 _ j e); cbn [tick];
      [exact Hj | | | exact Hneg].
    + intros i Hi. specialize (Hbefore i Hi).
      replace (S (S (tick w)) + 2 * i)%nat with (tick w + 2 + 2 * i)%nat
        by lia.
      exact Hbefore.
    + replace (S (S (tick w)) + 2 * j)%nat with (tick w + 2 + 2 * j)%nat
        by lia.
      exact He.
  - intros env a w msg len e Hlen Hneg x. subst x.
    rewrite (src_cap_run env a w msg len Hlen). cbv zeta. split.
    + intros ->. destruct (Z.ltb_spec e 0); [reflexivity | lia].
    + intros Hv ->.
      destruct (Z.ltb_spec (reply env max_voltage_read (tick w)) 0); [lia|].
      destruct (Z.eqb_spec (reply env max_voltage_read (tick w)) 0); [lia|].
      destruct (Z.ltb_spec e 0); [reflexivity | lia].
  - intros env a w e He Hneg x. subst x.
    unfold anx7688_receive_msg, bind, lift, ret, block_read.
    cbn [extern]. fold recv_read. rewrite He.
    destruct (Z.ltb_spec e 0); [split; reflexivity | lia].
  - intros env a w block e Hr _ _ Hblk Hlen Hbytes Hl0 Hsum.
    apply (receive_msg_valid env a w block Hr Hblk Hlen Hbytes Hl0 Hsum).
Qed.

Lemma io_error_propagation_sites_witness :
  io_val (anx7688_send_ocm_message poll_fails ANX7688_OCM_MSG_SVID svid boot)
  = - EIO
  /\ m_val (anx7688_receive_msg clear_fails probed boot) = 0.
Proof.
  destruct io_error_propagation_sites as (Hsend & _ & _ & Hclear).
  split.
  - apply (Hsend poll_fails boot ANX7688_OCM_MSG_SVID svid 0%nat (- EIO)).
    + simpl; lia.
    + reflexivity.
    + lia.
    + intros i Hi. lia.
    + reflexivity.
    + unfold EIO; lia.
  - apply (Hclear clear_fails probed boot hard_reset_block (- EIO)).
    + simpl; lia.
    + reflexivity.
    + unfold EIO; lia.
    + reflexivity.
    + reflexivity.
    + repeat constructor; unfold is_byte; lia.
    + simpl; lia.
    + reflexivity.
Defined.

(** ** C6: Hard-Reset *)

Lemma bind_run {A B} (c : M A) (k : A -> M B) a w :
  bind c k a w = let '(x, a1, w1) := c a w in k x a1 w1.
Proof. reflexivity. Qed.

Lemma steady_ret {A} (x : A) : steady (ret x).
Proof.
  intros a w. cbn. repeat split. exists []. split; [apply extends_refl|].
  constructor.
Qed.

Lemma steady_get : steady get.
Proof.
  intros a w. cbn. repeat split. exists []. split; [apply extends_refl|].
  constructor.
Qed.

Lemma steady_bind {A B} (c : M A) (k : A -> M B) :
  steady c -> (forall x, steady (k x)) -> steady (bind c k).
Proof.
  intros Hc Hk a w. rewrite bind_run.
  specialize (Hc a w). destruct (c a w) as [[x a1] w1].
  specialize (Hk x a1 w1). destruct (k x a1 w1) as [[y a2] w2].
  cbn [m_dev m_world fst snd] in *.
  destruct Hc as (Hd1 & Hf1 & Hc1 & l1 & He1 & Hp1).
  destruct Hk as (Hd2 & Hf2 & Hc2 & l2 & He2 & Hp2).
  repeat split; try congruence.
  exists (l1 ++ l2). split.
  - eapply extends_trans; eassumption.
  - apply Forall_app. now split.
Qed.

Lemma steady_modify (f : anx7688 -> anx7688) :
  (forall a, current_update_deadline (f a) = current_update_deadline a
             /\ test_bit ANX7688_F_CONNECTED (flags (f a))
                = test_bit ANX7688_F_CONNECTED (flags a)) ->
  steady (modify f).
Proof.
  intros Hf a w. destruct (Hf a) as [Hd Hc]. cbn. repeat split; try assumption.
  exists []. split; [apply extends_refl | constructor].
Qed.

Lemma steady_extern env c : passive c = true -> steady (lift (extern env c)).
Proof.
  intros Hp a w. cbn. repeat split.
  - destruct c; try discriminate Hp; cbn; lia.
  - eexists. split; [apply extern_extends|].
    constructor; [exact Hp | constructor].
Qed.

Lemma steady_psy_get env p : steady (lift (psy_get env p)).
Proof.
  intros a w. cbn. repeat split; [lia|].
  eexists. split; [apply extern_extends|].
  constructor; [reflexivity | constructor].
Qed.

Lemma steady_ktime_get : steady (lift ktime_get).
Proof.
  intros a w. cbn. repeat split. exists []. split; [apply extends_refl|].
  constructor.
Qed.

Create HintDb steady discriminated.
#[local] Hint Resolve steady_ret steady_get steady_psy_get steady_ktime_get
  : steady.

(** One step through a piece of the driver. *)
Ltac steady_step :=
  first
    [ solve [auto with steady]
    | apply steady_bind; [|intros ?]
    | apply steady_extern; reflexivity
    | apply steady_extern; match goal with
        |- passive (if ?b then _ else _) = true => destruct b; reflexivity end
    | apply steady_modify; intros []; split; reflexivity
    | match goal with
      | |- steady (if ?b then _ else _) => destruct b
      | |- steady (match ?p with (_, _) => _ end) => destruct p
      end ].

Lemma steady_set_hdmi_hpd env state : steady (anx7688_set_hdmi_hpd env state).
Proof. unfold anx7688_set_hdmi_hpd. repeat steady_step. Qed.

#[local] Hint Resolve steady_set_hdmi_hpd : steady.

Lemma steady_update_status env : steady (anx7688_update_status env).
Proof.
  unfold anx7688_update_status, update_status_vbus, update_status_vconn,
    remember, anx7688_reg_read, anx7688_tcpc_reg_read.
  repeat steady_step.
Qed.

Lemma steady_handle_vbus_in_notify env :
  steady (anx7688_handle_vbus_in_notify env).
Proof. unfold anx7688_handle_vbus_in_notify. repeat steady_step. Qed.

(** With the cable plugged in and the Connected flag set there is nothing
    to connect or disconnect. *)
Lemma steady_handle_cable_change env a w :
  test_bit ANX7688_F_CONNECTED (flags a) = true ->
  reply env cabledet_read (tick w) <> 0 ->
  anx7688_handle_cable_change env a w
  = (tt, a, io_world (extern env cabledet_read w)).
Proof.
  intros Hconn Hcable. unfold anx7688_handle_cable_change.
  rewrite bind_run. cbn [get]. rewrite bind_run. cbn [lift extern].
  fold cabledet_read. rewrite Hconn.
  rewrite (proj2 (Z.eqb_neq _ _) Hcable). reflexivity.
Qed.

Lemma steady_work_notify env a : steady (work_notify env a).
Proof.
  unfold work_notify.
  destruct (test_bit ANX7688_F_PWRSUPPLY_CHANGE (flags a));
    [|apply steady_ret].
  apply steady_bind; [|intros _; apply steady_handle_vbus_in_notify].
  apply steady_modify. intros [].
  cbn [set_flags flags current_update_deadline]. split; [reflexivity|].
  flag_solve.
Qed.

(** [anx7688_work], block by block. *)
Lemma work_run env a w :
  anx7688_work env a w
  = if test_bit ANX7688_F_FW_FAILED (flags a) then (tt, a, w)
    else
      let '(_, a1, w1) := work_notify env a a w in
      let '(_, a2, w2) := anx7688_handle_cable_change env a1 w1 in
      if test_bit ANX7688_F_CONNECTED (flags a2) then
        let '(_, a3, w3) := anx7688_update_status env a2 w2 in
        if negb (current_update_deadline a3 =? 0)
           && ktime_after (clock w3) (current_update_deadline a3)
        then
          anx7688_handle_current_update
            env (set_current_update_deadline 0 a3) w3
        else (tt, a3, w3)
      else (tt, a2, w2).
Proof.
  unfold anx7688_work. rewrite bind_run. cbn [get].
  destruct (test_bit ANX7688_F_FW_FAILED (flags a)); [reflexivity|].
  rewrite bind_run. fold (work_notify env a).
  destruct (work_notify env a a w) as [[u1 a1] w1].
  rewrite bind_run.
  destruct (anx7688_handle_cable_change env a1 w1) as [[u2 a2] w2].
  rewrite bind_run. cbn [get].
  destruct (test_bit ANX7688_F_CONNECTED (flags a2)); [|reflexivity].
  rewrite bind_run.
  destruct (anx7688_update_status env a2 w2) as [[u3 a3] w3].
  rewrite bind_run. cbn [get]. rewrite bind_run. cbn [lift ktime_get].
  destruct (negb (current_update_deadline a3 =? 0)
            && ktime_after (clock w3) (current_update_deadline a3));
    reflexivity.
Qed.

(** The deadline gate of [anx7688_work]: as long as the clock has not
    passed the deadline, a run of the work function in a connected device
    with the cable plugged in does not reach
    [anx7688_handle_current_update]: the deadline stays armed, and
    nothing is programmed into the supply or reported to the port. *)
Lemma work_waits_for_deadline env a w :
  test_bit ANX7688_F_CONNECTED (flags a) = true ->
  (forall k, reply env cabledet_read k <> 0) ->
  clock w <= current_update_deadline a ->
  let x := anx7688_work env a w in
  current_update_deadline (m_dev x) = current_update_deadline a
  /\ exists added,
       extends w (m_world x) added
       /\ Forall (fun e => passive (fst e) = true) added.
Proof.
  intros Hconn Hcable Hclk x. subst x. rewrite work_run.
  destruct (test_bit ANX7688_F_FW_FAILED (flags a)).
  { cbn. split; [reflexivity|]. exists []. split; [apply extends_refl|].
    constructor. }
  pose proof (steady_work_notify env a a w) as Hs.
  destruct (work_notify env a a w) as [[u1 a1] w1].
  cbn [m_dev m_world fst snd] in Hs.
  destruct Hs as (Hd1 & Hf1 & Hc1 & l1 & He1 & Hp1).
  rewrite steady_handle_cable_change by (try apply Hcable; congruence).
  rewrite Hf1, Hconn.
  pose proof (steady_update_status
                env a1 (io_world (extern env cabledet_read w1))) as Hs.
  destruct (anx7688_update_status env a1 _) as [[u3 a3] w3].
  cbn [m_dev m_world fst snd] in Hs.
  destruct Hs as (Hd3 & Hf3 & Hc3 & l3 & He3 & Hp3).
  assert (Hgate : ktime_after (clock w3) (current_update_deadline a3) = false).
  { unfold ktime_after. rewrite Z.gtb_ltb. apply Z.ltb_ge.
    rewrite Hc3, Hd3, Hd1. cbn [extern io_world snd clock].
    change (duration cabledet_read) with 0. lia. }
  rewrite Hgate, andb_false_r. cbn [m_dev m_world fst snd].
  split; [congruence|].
  exists (l1 ++ [(cabledet_read, reply env cabledet_read (tick w1))] ++ l3).
  split.
  - eapply extends_trans; [exact He1|].
    eapply extends_trans; [apply extern_extends | exact He3].
  - apply Forall_app. split; [exact Hp1|].
    apply Forall_app. split; [|exact Hp3].
    constructor; [reflexivity | constructor].
Qed.

(** C6. A Hard-Reset message for a PD capable partner takes the input
    path offline (one call, [ONLINE = 0]), sets the deadline to 3000 ms
    after the current time and changes nothing else; the current limit is
    not re-evaluated at once: as long as the clock has not passed that
    deadline, a run of [anx7688_work] in the connected device leaves the
    deadline armed and programs nothing.  For a partner that is not PD
    capable the message changes neither the state nor the world. *)
Theorem hard_reset_defers_update :
  forall env a w msg len,
    let x := anx7688_handle_pd_message
               env ANX7688_OCM_MSG_HARD_RST msg len a w in
    (pd_capable a = true -> 0 <= clock w < 2 ^ 62 ->
     let deadline := clock w + 3000 * NSEC_PER_MSEC in
     m_val x = 0
     /\ m_dev x = set_current_update_deadline deadline a
     /\ calls (m_world x)
        = calls w ++ [power_supply_set_property POWER_SUPPLY_PROP_ONLINE 0]
     /\ (forall w',
            test_bit ANX7688_F_CONNECTED (flags a) = true ->
            (forall k, reply env cabledet_read k <> 0) ->
            clock w' <= deadline ->
            let y := anx7688_work env (m_dev x) w' in
            current_update_deadline (m_dev y) = deadline
            /\ exists added,
                 extends w' (m_world y) added
                 /\ Forall (fun e => passive (fst e) = true) added))
    /\ (pd_capable a = false -> m_val x = 0 /\ m_dev x = a /\ m_world x = w).
Proof.
  intros env a w msg len x.
  assert (Hx : x = if pd_capable a
                   then (0,
                         set_current_update_deadline
                           (ktime_add_ms (clock w) 3000) a,
                         io_world (extern env (power_supply_set_property
                                                 POWER_SUPPLY_PROP_ONLINE 0) w))
                   else (0, a, w)).
  { subst x. unfold anx7688_handle_pd_message.
    cbn [Z.eqb ANX7688_OCM_MSG_HARD_RST ANX7688_OCM_MSG_PWR_SRC_CAP
         ANX7688_OCM_MSG_PWR_OBJ_REQ Pos.eqb].
    destruct a, w. run_m. destruct pd_capable0; [|reflexivity].
    run_m. rewrite Z.add_0_r. reflexivity. }
  rewrite Hx. clear Hx x. split.
  - intros Hpd Hclk deadline. rewrite Hpd.
    rewrite ktime_add_ms_small by lia. fold deadline.
    cbn [m_val m_dev m_world fst snd].
    split; [reflexivity|]. split; [reflexivity|]. split.
    + unfold calls. cbn [extern io_world snd trace]. now rewrite map_app.
    + intros w' Hconn Hcable Hw'.
      assert (Hdl : current_update_deadline
                      (set_current_update_deadline deadline a) = deadline)
        by (destruct a; reflexivity).
      destruct (work_waits_for_deadline
                  env (set_current_update_deadline deadline a) w')
        as (Hd & Hadd).
      * destruct a; exact Hconn.
      * exact Hcable.
      * rewrite Hdl. exact Hw'.
      * split; [|exact Hadd]. rewrite Hd. exact Hdl.
  - intros Hpd. rewrite Hpd. repeat split.
Qed.

Lemma hard_reset_defers_update_witness :
  current_update_deadline
    (m_dev (anx7688_handle_pd_message
              plugged ANX7688_OCM_MSG_HARD_RST [] 0 in_contract boot))
  = 3000 * NSEC_PER_MSEC
  /\ current_update_deadline
       (m_dev (anx7688_work
                 plugged
                 (m_dev (anx7688_handle_pd_message
                           plugged ANX7688_OCM_MSG_HARD_RST [] 0
                           in_contract boot))
                 boot))
     = 3000 * NSEC_PER_MSEC.
Proof.
  destruct (proj1 (hard_reset_defers_update
                     plugged in_contract boot [] 0) eq_refl)
    as (_ & Hdev & _ & Hwork).
  - simpl; lia.
  - split.
    + rewrite Hdev. reflexivity.
    + destruct (Hwork boot) as (Hd & _).
      * reflexivity.
      * intros k. simpl. lia.
      * simpl. unfold NSEC_PER_MSEC. lia.
      * exact Hd.
Defined.

(** The same device one nanosecond after the deadline: the work function
    clears the deadline and re-evaluates the current limit, here to the PD
    limit, which is 0 mA and therefore left to BC1.2 detection with the
    500 mA default. *)
Example work_after_deadline :
  let armed := m_dev (anx7688_handle_pd_message
                        plugged ANX7688_OCM_MSG_HARD_RST [] 0
                        in_contract boot) in
  let late := {| tick := 0; clock := 3000 * NSEC_PER_MSEC + 1;
                 trace := []; div_by_zero := false |} in
  let x := anx7688_work plugged armed late in
  current_update_deadline (m_dev x) = 0
  /\ skipn 9 (calls (m_world x))
     = [ power_supply_get_property POWER_SUPPLY_PROP_USB_BC_ENABLED;
         power_supply_set_property
           POWER_SUPPLY_PROP_INPUT_CURRENT_LIMIT 500000;
         power_supply_set_property POWER_SUPPLY_PROP_ONLINE 1;
         typec_set_pwr_opmode TYPEC_PWR_MODE_PD ].
Proof. vm_compute. split; reflexivity. Qed.

(** ** A disconnected device has VCONN off *)

(** [anx7688_connect] either sets the Connected flag, or leaves the flag
    alone and [vconn_on] false or untouched. *)
Lemma connect_vconn env a w :
  let a' := m_dev (anx7688_connect env a w) in
  test_bit ANX7688_F_CONNECTED (flags a') = true
  \/ (test_bit ANX7688_F_CONNECTED (flags a')
      = test_bit ANX7688_F_CONNECTED (flags a)
      /\ (vconn_on a' = false \/ vconn_on a' = vconn_on a)).
Proof.
  destruct a, w as [tick0 clock0 trace0 dz0].
  unfold anx7688_connect, err_vconoff, err_poweroff, anx7688_power_enable,
    anx7688_power_disable.
  run_m.
  destruct (reply env (regulator_enable VCONN) _ =? 0); cbn [negb]; run_m.
  2:{ right. split; [flag_solve | right; reflexivity]. }
  destruct (connect_wait_fw env 100 _) as [loaded [tick3 clock3 trace3 dz3]].
  destruct loaded; cbn [negb]; run_m.
  2:{ right. split; [flag_solve | left; reflexivity]. }
  destruct (until_error _ _) as [r [tick4 clock4 trace4 dz4]].
  destruct (r =? 0); cbn [negb]; run_m.
  2:{ right. split; [flag_solve | left; reflexivity]. }
  destruct (IS_ERR _); run_m.
  - right. split; [flag_solve | left; reflexivity].
  - left. flag_solve.
Qed.

Lemma disconnect_vconn env a w :
  vconn_on (m_dev (anx7688_disconnect env a w)) = false.
Proof.
  destruct a, w as [tick0 clock0 trace0 dz0].
  unfold anx7688_disconnect, anx7688_set_hdmi_hpd, anx7688_power_disable.
  run_m.
  destruct (extcon0 =? 0), (last_extcon_state0 =? 0), vconn_on0, vbus_on0;
    reflexivity.
Qed.

Lemma work_notify_rails env a w :
  let a' := m_dev (work_notify env a a w) in
  vconn_on a' = vconn_on a
  /\ test_bit ANX7688_F_CONNECTED (flags a')
     = test_bit ANX7688_F_CONNECTED (flags a).
Proof.
  unfold work_notify, anx7688_handle_vbus_in_notify.
  destruct (test_bit ANX7688_F_PWRSUPPLY_CHANGE (flags a));
    [|split; reflexivity].
  destruct a, w as [tick0 clock0 trace0 dz0]. run_m.
  destruct (reply env _ tick0 =? 0); cbn [negb]; run_m;
    [destruct (last_bc_result0 =? propval env tick0); run_m|];
    (split; [reflexivity | flag_solve]).
Qed.

Lemma handle_current_update_flags env a w :
  flags (m_dev (anx7688_handle_current_update env a w)) = flags a.
Proof.
  unfold anx7688_handle_current_update.
  destruct a, w as [tick0 clock0 trace0 dz0]. run_m.
  destruct (current_update_limit _ _ =? 0); cbn [negb]; run_m;
    [|reflexivity].
  destruct (negb _ || _); reflexivity.
Qed.

(** Whenever the Connected flag is clear, [vconn_on] is false: the
    property holds after [anx7688_i2c_probe] and every run of
    [anx7688_work] keeps it.  It is the state in which the work function
    calls [anx7688_connect]. *)
Lemma disconnected_vconn_off env a w :
  (test_bit ANX7688_F_CONNECTED (flags a) = false -> vconn_on a = false) ->
  let a' := m_dev (anx7688_work env a w) in
  test_bit ANX7688_F_CONNECTED (flags a') = false -> vconn_on a' = false.
Proof.
  intros Hinv. cbv zeta. rewrite work_run.
  destruct (test_bit ANX7688_F_FW_FAILED (flags a)); [exact Hinv|].
  pose proof (work_notify_rails env a w) as Hn.
  destruct (work_notify env a a w) as [[u1 a1] w1].
  cbn [m_dev fst snd] in Hn. destruct Hn as [Hv1 Hf1].
  assert (Hinv1 : test_bit ANX7688_F_CONNECTED (flags a1) = false ->
                  vconn_on a1 = false).
  { rewrite Hv1, Hf1. exact Hinv. }
  assert (Hinv2 : test_bit ANX7688_F_CONNECTED
                    (flags (m_dev (anx7688_handle_cable_change env a1 w1)))
                  = false ->
                  vconn_on (m_dev (anx7688_handle_cable_change env a1 w1))
                  = false).
  { unfold anx7688_handle_cable_change.
    rewrite bind_run. cbn [get]. rewrite bind_run. unfold lift.
    destruct (extern env (gpiod_get_value GPIO_CABLEDET) w1) as [cd w2].
    destruct (test_bit ANX7688_F_CONNECTED (flags a1)) eqn:Hc1.
    - cbn [negb andb]. rewrite andb_false_r, andb_true_r.
      destruct (cd =? 0).
      + intros _. apply disconnect_vconn.
      + cbn [ret m_dev fst snd]. rewrite Hc1. discriminate.
    - cbn [negb andb]. rewrite andb_true_r, andb_false_r.
      destruct (negb (cd =? 0));
        [|intros _; cbn [ret m_dev fst snd]; now apply Hinv1].
      rewrite bind_run.
      pose proof (connect_vconn env a1 w2) as Hcv.
      destruct (anx7688_connect env a1 w2) as [[r a2] w3].
      cbn [ret m_dev fst snd] in *. intros Hc2.
      destruct Hcv as [Hcv|[_ [Hcv|Hcv]]]; [congruence | exact Hcv |].
      rewrite Hcv. apply Hinv1. reflexivity. }
  destruct (anx7688_handle_cable_change env a1 w1) as [[u2 a2] w2].
  cbn [m_dev fst snd] in Hinv2.
  destruct (test_bit ANX7688_F_CONNECTED (flags a2)) eqn:Hc2;
    [|cbn [m_dev fst snd]; intros _; apply Hinv2; reflexivity].
  pose proof (steady_update_status env a2 w2) as Hs.
  destruct (anx7688_update_status env a2 w2) as [[u3 a3] w3].
  cbn [m_dev m_world fst snd] in Hs. destruct Hs as (_ & Hf3 & _).
  destruct (negb (current_update_deadline a3 =? 0)
            && ktime_after (clock w3) (current_update_deadline a3)).
  - rewrite handle_current_update_flags.
    replace (flags (set_current_update_deadline 0 a3)) with (flags a3)
      by (destruct a3; reflexivity).
    rewrite Hf3, Hc2. discriminate.
  - cbn [m_dev fst snd]. rewrite Hf3, Hc2. discriminate.
Qed.

(** Messages of the OCM touch neither the flags nor the rails. *)
Lemma handle_pd_message_rails env cmd msg len a w :
  let a' := m_dev (anx7688_handle_pd_message env cmd msg len a w) in
  flags a' = flags a /\ vconn_on a' = vconn_on a /\ vbus_on a' = vbus_on a.
Proof.
  destruct (Z.eqb_spec cmd ANX7688_OCM_MSG_PWR_SRC_CAP) as [->|Hcmd].
  { destruct (Z.eqb_spec (len mod 4) 0) as [Hlen|Hlen].
    - cbv zeta. rewrite (src_cap_run env a w msg len Hlen). cbv zeta.
      destruct a.
      repeat match goal with
             | |- context [if ?b then _ else _] => destruct b
             | |- context [match int_div ?x ?y with _ => _ end] =>
                 destruct (int_div x y)
             end; repeat split.
    - unfold anx7688_handle_pd_message.
      cbn [Z.eqb ANX7688_OCM_MSG_PWR_SRC_CAP].
      rewrite (proj2 (Z.eqb_neq _ _) Hlen). repeat split. }
  unfold anx7688_handle_pd_message.
  rewrite (proj2 (Z.eqb_neq _ _) Hcmd).
  destruct a, w.
  destruct (cmd =? ANX7688_OCM_MSG_PWR_OBJ_REQ); [repeat split|].
  destruct (cmd =? ANX7688_OCM_MSG_HARD_RST); [|repeat split].
  run_m. destruct pd_capable0; repeat split.
Qed.

Lemma receive_msg_rails env a w :
  let a' := m_dev (anx7688_receive_msg env a w) in
  flags a' = flags a /\ vconn_on a' = vconn_on a /\ vbus_on a' = vbus_on a.
Proof.
  cbv zeta. unfold anx7688_receive_msg.
  rewrite bind_run. unfold lift.
  destruct (block_read env TCPC ANX7688_TCPC_REG_INTERFACE_RECV w)
    as [[r pkt] w1].
  destruct (r <? 0); [repeat split|].
  rewrite bind_run.
  destruct (anx7688_tcpc_reg_write env ANX7688_TCPC_REG_INTERFACE_RECV 0 w1)
    as [rc w2].
  destruct ((nth 0 pkt 0 =? 0) || (nth 0 pkt 0 >? 32 - 2)); [repeat split|].
  destruct (negb (recv_checksum pkt =? 0)); [repeat split|].
  rewrite bind_run.
  pose proof (handle_pd_message_rails
                env (nth 1 pkt 0) (skipn 2 pkt) (nth 0 pkt 0 - 1) a w2) as H.
  destruct (anx7688_handle_pd_message env _ _ _ a w2) as [[v a'] w'].
  exact H.
Qed.

(** * Further properties of the driver *)

(** ** The message transport *)

(** A poll that finds the queue drained, or fails, ends the waiting loop
    with the value of that poll, after one delay for each poll before
    it. *)
Lemma send_wait_flush_stops env n : forall w j e,
  (j < n)%nat ->
  (forall i, (i < j)%nat -> 0 < reply env queue_read (tick w + 2 * i)) ->
  reply env queue_read (tick w + 2 * j) = e -> e <= 0 ->
  let x := send_wait_flush env n w in
  io_val x = e
  /\ calls (io_world x)
     = calls w ++ concat (repeat [queue_read; udelay 100] j) ++ [queue_read].
Proof.
  induction n as [|n IH]; intros w j e Hj Hbefore He Hle; [lia|].
  cbn [send_wait_flush]. unfold io_bind, anx7688_tcpc_reg_read.
  cbn [extern]. fold queue_read.
  destruct j as [|j].
  - rewrite Nat.mul_0_r, Nat.add_0_r in He. rewrite He.
    destruct (Z.leb_spec e 0); [|lia].
    unfold io_ret. cbn [io_val io_world fst snd]. split; [reflexivity|].
    unfold calls. cbn [trace repeat concat app]. now rewrite map_app.
  - pose proof (Hbefore 0%nat ltac:(lia)) as H0.
    rewrite Nat.mul_0_r, Nat.add_0_r in H0.
    destruct (Z.leb_spec (reply env queue_read (tick w)) 0); [lia|].
    match goal with |- context [send_wait_flush env n ?w2] =>
      specialize (IH w2 j e) end.
    world_simpl. destruct IH as (Hv & Hc); [lia | | | exact Hle |].
    + intros i Hi. specialize (Hbefore (S i) ltac:(lia)).
      replace (S (S (tick w)) + 2 * i)%nat with (tick w + 2 * S i)%nat by lia.
      exact Hbefore.
    + replace (S (S (tick w)) + 2 * j)%nat with (tick w + 2 * S j)%nat by lia.
      exact He.
    + split; [exact Hv|]. rewrite Hc. unfold calls.
      cbn [trace repeat concat]. rewrite !map_app. cbn [map fst].
      rewrite <- !app_assoc. reflexivity.
Qed.

(** X1. The bound of the payload: more than 29 bytes are refused with
    [-EINVAL] before the chip is touched, and up to 29 bytes always reach
    the read of the send queue. *)
Theorem send_ocm_message_payload_bound :
  forall env w cmd data,
    ((29 < length data)%nat ->
     anx7688_send_ocm_message env cmd data w = (- EINVAL, w))
    /\ ((length data <= 29)%nat ->
        exists added,
          extends w (io_world (anx7688_send_ocm_message env cmd data w))
                  ((queue_read, reply env queue_read (tick w)) :: added)).
Proof.
  intros env w cmd data. unfold anx7688_send_ocm_message. split; intros Hlen.
  - assert (Hl : (len data >? 32 - 3) = true).
    { unfold len. rewrite Z.gtb_ltb. apply Z.ltb_lt. lia. }
    rewrite Hl. reflexivity.
  - assert (Hl : (len data >? 32 - 3) = false).
    { unfold len. rewrite Z.gtb_ltb. apply Z.ltb_ge. lia. }
    rewrite Hl. unfold io_bind, anx7688_tcpc_reg_read. cbn [extern].
    fold queue_read.
    destruct (negb (reply env queue_read (tick w) =? 0)).
    + exists []. reflexivity.
    + match goal with |- context [send_wait_flush env 300 ?w2] =>
        destruct (send_wait_flush_calls env 300 w2) as (added & Hadd & _) end.
      eexists (_ :: added). unfold extends in *. rewrite Hadd.
      cbn [trace]. rewrite <- !app_assoc. reflexivity.
Qed.

Lemma send_ocm_message_payload_bound_witness :
  anx7688_send_ocm_message quiet 0 (repeat 0 30) boot = (- EINVAL, boot).
Proof.
  apply (proj1 (send_ocm_message_payload_bound quiet boot 0 (repeat 0 30))).
  simpl. lia.
Defined.

(** X2. A message is written once and its delivery is waited for: when
    the queue reads empty before the transmission and the poll number [j]
    (of at most 300) is the first that does not read the queue as occupied,
    because it reads 0 or because it fails with a negative value,
    [anx7688_send_ocm_message] returns the value of that poll (0 for a
    queue that has drained, the error for a poll that failed) after the
    one block write, [j] delays of 100 us and [j + 1] polls. *)
Theorem send_ocm_message_delivered :
  forall env w cmd data j e,
    (length data <= 29)%nat ->
    reply env queue_read (tick w) = 0 ->
    (j < 300)%nat ->
    (forall i, (i < j)%nat -> 0 < reply env queue_read (tick w + 2 + 2 * i)) ->
    reply env queue_read (tick w + 2 + 2 * j) = e -> e <= 0 ->
    let x := anx7688_send_ocm_message env cmd data w in
    io_val x = e
    /\ calls (io_world x)
       = calls w ++ queue_read :: transmit_of cmd data
           :: concat (repeat [queue_read; udelay 100] j) ++ [queue_read].
Proof.
  intros env w cmd data j e Hlen Hq Hj Hbefore Hdrain He x. subst x.
  unfold anx7688_send_ocm_message.
  assert (Hl : (len data >? 32 - 3) = false).
  { unfold len. rewrite Z.gtb_ltb. apply Z.ltb_ge. lia. }
  rewrite Hl. unfold io_bind, anx7688_tcpc_reg_read. cbn [extern].
  fold queue_read. rewrite Hq. cbn [Z.eqb negb]. fold (transmit_of cmd data).
  match goal with |- context [send_wait_flush env 300 ?w2] =>
    pose proof (send_wait_flush_stops env 300 w2 j e Hj) as Hs end.
  world_simpl. destruct Hs as (Hv & Hc); [| | exact He |].
  - intros i Hi. specialize (Hbefore i Hi).
    replace (S (S (tick w)) + 2 * i)%nat with (tick w + 2 + 2 * i)%nat by lia.
    exact Hbefore.
  - replace (S (S (tick w)) + 2 * j)%nat with (tick w + 2 + 2 * j)%nat by lia.
    exact Hdrain.
  - split; [exact Hv|]. rewrite Hc. unfold calls. cbn [trace].
    rewrite !map_app. cbn [map fst]. rewrite <- !app_assoc. reflexivity.
Qed.

Lemma send_ocm_message_delivered_witness :
  io_val (anx7688_send_ocm_message quiet ANX7688_OCM_MSG_SVID svid boot) = 0.
Proof.
  apply (send_ocm_message_delivered
           quiet boot ANX7688_OCM_MSG_SVID svid 0%nat 0).
  - simpl; lia.
  - reflexivity.
  - lia.
  - intros i Hi. lia.
  - reflexivity.
  - lia.
Defined.

(** The bytes of a frame. *)
Lemma ocm_frame_bytes cmd data :
  is_byte cmd -> Forall is_byte data -> (length data <= 29)%nat ->
  exists checksum,
    is_byte checksum
    /\ ocm_frame cmd data = (len data + 1) :: cmd :: data ++ [checksum].
Proof.
  intros Hcmd Hdata Hlen.
  exists (ocm_checksum (u8 (len data + 1) :: u8 cmd :: map u8 data)). split.
  - unfold ocm_checksum. rewrite sub_loop_sum by (unfold is_byte; lia).
    apply Z.mod_pos_bound. lia.
  - unfold ocm_frame. cbv zeta. rewrite map_u8_bytes by assumption.
    rewrite (u8_small cmd) by assumption.
    rewrite u8_small; [reflexivity|]. unfold is_byte, len. lia.
Qed.

Lemma Forall_repeat_zero_bytes n : Forall is_byte (repeat 0 n).
Proof.
  induction n as [|n IH]; simpl; constructor; [unfold is_byte; lia | exact IH].
Qed.

(** X3. What [anx7688_send_ocm_message] writes, [anx7688_receive_msg]
    reads: the frame of a command byte and of a payload of at most 29
    bytes, padded to the 32 bytes of a block read, passes the length and
    checksum tests and is handed to [anx7688_handle_pd_message] with the
    same command byte, the same payload and its length. *)
Theorem sent_frame_is_received :
  forall env a w cmd data,
    is_byte cmd -> Forall is_byte data -> (length data <= 29)%nat ->
    0 <= reply env recv_read (tick w) ->
    block_data env (tick w) = pad32 (ocm_frame cmd data) ->
    let block := pad32 (ocm_frame cmd data) in
    let handled := anx7688_handle_pd_message
                     env cmd (skipn 2 block) (len data) a (received env w) in
    let x := anx7688_receive_msg env a w in
    firstn (length data) (skipn 2 block) = data
    /\ m_val x = 0 /\ m_dev x = m_dev handled /\ m_world x = m_world handled.
Proof.
  intros env a w cmd data Hcmd Hdata Hlen Hr Hblk block handled x.
  destruct (ocm_frame_bytes cmd data Hcmd Hdata Hlen) as (c & Hc & Hframe).
  assert (Hflen : length (ocm_frame cmd data) = (length data + 3)%nat).
  { rewrite Hframe. cbn [length]. rewrite length_app. cbn [length]. lia. }
  assert (Hblock : block = (len data + 1) :: cmd :: data
                             ++ c :: repeat 0 (32 - (length data + 3))).
  { unfold block, pad32. rewrite Hflen, Hframe. cbn [app].
    rewrite <- app_assoc. reflexivity. }
  assert (Hn0 : nth 0 block 0 = len data + 1) by (rewrite Hblock; reflexivity).
  assert (Hn1 : nth 1 block 0 = cmd) by (rewrite Hblock; reflexivity).
  assert (Hpre : firstn (Z.to_nat (nth 0 block 0 + 2)) block
                 = ocm_frame cmd data).
  { rewrite Hn0. replace (Z.to_nat (len data + 1 + 2))
      with (length (ocm_frame cmd data) + 0)%nat by (unfold len; lia).
    unfold block, pad32. rewrite firstn_app_2. cbn [firstn].
    apply app_nil_r. }
  split.
  - rewrite Hblock. cbn [skipn].
    replace (length data) with (length data + 0)%nat at 1 by lia.
    rewrite firstn_app_2. cbn [firstn]. apply app_nil_r.
  - subst x handled.
    rewrite <- Hn1. replace (len data) with (nth 0 block 0 - 1) by lia.
    apply (receive_msg_valid env a w block Hr Hblk).
    + unfold block, pad32. rewrite length_app, repeat_length, Hflen. lia.
    + rewrite Hblock. constructor; [unfold is_byte, len; lia|].
      constructor; [exact Hcmd|]. apply Forall_app. split; [exact Hdata|].
      constructor; [exact Hc | apply Forall_repeat_zero_bytes].
    + rewrite Hn0. unfold len. lia.
    + rewrite Hpre. apply ocm_frame_sum.
Qed.

Lemma sent_frame_is_received_witness :
  m_val (anx7688_receive_msg
           (delivers (pad32 (ocm_frame ANX7688_OCM_MSG_SVID svid)))
           probed boot) = 0.
Proof.
  apply (sent_frame_is_received
           (delivers (pad32 (ocm_frame ANX7688_OCM_MSG_SVID svid)))
           probed boot ANX7688_OCM_MSG_SVID svid).
  - unfold is_byte, ANX7688_OCM_MSG_SVID; lia.
  - repeat constructor; unfold is_byte; lia.
  - simpl; lia.
  - simpl; lia.
  - reflexivity.
Defined.

(** ** Capability tables and [anx7688_connect] *)

Lemma caps_bytes_length arr n :
  length (caps_bytes arr n) = (4 * Z.to_nat n)%nat.
Proof.
  unfold caps_bytes. rewrite <- (length_seq (Z.to_nat n) 0) at 2.
  induction (seq 0 (Z.to_nat n)) as [|i l IH]; [reflexivity|].
  cbn [flat_map length app cpu_to_le32]. rewrite IH. lia.
Qed.

(** A step that fails from every world makes the whole chain fail. *)
Lemma until_error_fails (c : IO Z) steps :
  (forall w, io_val (c w) <> 0) -> In c steps ->
  forall w, io_val (until_error steps w) <> 0.
Proof.
  intros Hc. induction steps as [|s rest IH]; intros Hin w; [destruct Hin|].
  cbn [until_error]. unfold io_bind.
  destruct (s w) as [r w1] eqn:Hs.
  destruct (Z.eqb_spec r 0) as [Hr|Hr]; cbn [negb].
  - destruct Hin as [->|Hin].
    + specialize (Hc w). rewrite Hs in Hc. contradiction.
    + now apply IH.
  - exact Hr.
Qed.

Lemma connect_config_full_table env a :
  n_src_caps a = 8 \/ n_snk_caps a = 8 ->
  forall w, io_val (until_error (connect_config env a) w) <> 0.
Proof.
  intros Hfull.
  assert (Hsend : forall cmd arr w,
             io_val (anx7688_send_ocm_message env cmd (caps_bytes arr 8) w)
             <> 0).
  { intros cmd arr w. unfold anx7688_send_ocm_message, len.
    rewrite caps_bytes_length. discriminate. }
  destruct Hfull as [H8|H8].
  - apply until_error_fails
      with (c := anx7688_send_ocm_message
                   env ANX7688_OCM_MSG_PWR_SRC_CAP
                   (caps_bytes (src_caps a) (n_src_caps a))).
    + rewrite H8. apply Hsend.
    + unfold connect_config. do 11 right. left. reflexivity.
  - apply until_error_fails
      with (c := anx7688_send_ocm_message
                   env ANX7688_OCM_MSG_PWR_SNK_CAP
                   (caps_bytes (snk_caps a) (n_snk_caps a))).
    + rewrite H8. apply Hsend.
    + unfold connect_config. do 12 right. left. reflexivity.
Qed.

(** X4. The arrays [src_caps] and [snk_caps] hold up to eight
    capabilities, but eight capabilities are 32 bytes, more than a frame
    carries: with a full table of either kind [anx7688_connect] fails
    whatever the hardware does, and the Connected flag stays as it was. *)
Theorem connect_full_table_fails :
  forall env a w,
    n_src_caps a = 8 \/ n_snk_caps a = 8 ->
    let x := anx7688_connect env a w in
    m_val x <> 0
    /\ test_bit ANX7688_F_CONNECTED (flags (m_dev x))
       = test_bit ANX7688_F_CONNECTED (flags a).
Proof.
  intros env a w Hfull x. subst x.
  destruct a, w as [tick0 clock0 trace0 dz0].
  cbn [n_src_caps n_snk_caps] in Hfull.
  unfold anx7688_connect, err_vconoff, err_poweroff, anx7688_power_enable,
    anx7688_power_disable.
  run_m.
  destruct (Z.eqb_spec (reply env (regulator_enable VCONN)
                              (S (S (S (S (S (S tick0))))))) 0) as [Hv|Hv];
    cbn [negb]; run_m.
  2:{ split; [exact Hv | flag_solve]. }
  destruct (connect_wait_fw env 100 _) as [loaded [tick3 clock3 trace3 dz3]].
  destruct loaded; cbn [negb]; run_m.
  2:{ split; [discriminate | flag_solve]. }
  match goal with |- context [until_error (connect_config env ?a') ?w3] =>
    pose proof (connect_config_full_table env a' Hfull w3) as Hne;
    destruct (until_error (connect_config env a') w3)
      as [r [tick4 clock4 trace4 dz4]] end.
  cbn [io_val fst] in Hne.
  destruct (Z.eqb_spec r 0) as [Hr|Hr]; [contradiction|].
  cbn [negb]; run_m. split; [exact Hr | flag_solve].
Qed.

Lemma connect_full_table_fails_witness :
  m_val (anx7688_connect fw_ready full_table boot) <> 0.
Proof.
  apply (connect_full_table_fails fw_ready full_table boot).
  left. reflexivity.
Defined.

(** ** The register transport *)

(** X5. [anx7688_reg_update_bits] reads the register and writes it back
    once: in the byte written, the bits of [value] are set, the other bits
    of [mask] are clear and the remaining bits are those read.  When the
    read fails, its error is returned and nothing is written. *)
Theorem reg_update_bits_byte :
  forall env reg mask value w,
    is_byte mask -> is_byte value ->
    let old := reply env (i2c_smbus_read_byte_data MAIN reg) (tick w) in
    let x := anx7688_reg_update_bits env reg mask value w in
    (old < 0 ->
     io_val x = old
     /\ calls (io_world x) = calls w ++ [i2c_smbus_read_byte_data MAIN reg])
    /\ (0 <= old ->
        exists new,
          is_byte new
          /\ (forall i, 0 <= i < 8 ->
                Z.testbit new i
                = if Z.testbit value i then true
                  else if Z.testbit mask i then false
                  else Z.testbit old i)
          /\ calls (io_world x)
             = calls w ++ [ i2c_smbus_read_byte_data MAIN reg;
                            i2c_smbus_write_byte_data MAIN reg new ]
          /\ io_val x
             = reply env (i2c_smbus_write_byte_data MAIN reg new)
                     (S (tick w))).
Proof.
  intros env reg mask value w Hmask Hvalue old x. subst x.
  unfold anx7688_reg_update_bits, anx7688_reg_read, anx7688_reg_write, io_bind.
  cbn [extern]. fold old. split; intros Hold.
  - destruct (Z.ltb_spec old 0) as [_|Hge]; [|lia].
    unfold io_ret. cbn [io_val io_world fst snd]. split; [reflexivity|].
    unfold calls. cbn [trace]. now rewrite map_app.
  - destruct (Z.ltb_spec old 0) as [Hlt|_]; [lia|].
    rewrite (u8_small mask), (u8_small value) by assumption.
    exists (u8 (Z.lor (Z.land old (Z.lnot mask)) value)).
    split; [apply Z.mod_pos_bound; lia|]. split.
    + intros i Hi. unfold u8. change 256 with (2 ^ 8).
      rewrite Z.mod_pow2_bits_low by lia.
      rewrite Z.lor_spec, Z.land_spec, Z.lnot_spec by lia.
      destruct (Z.testbit value i), (Z.testbit mask i), (Z.testbit old i);
        reflexivity.
    + cbn [extern io_val io_world fst snd tick]. split; [|reflexivity].
      unfold calls. cbn [trace]. rewrite !map_app. cbn [map fst].
      now rewrite <- app_assoc.
Qed.

Lemma reg_update_bits_byte_witness :
  calls (io_world (anx7688_reg_update_bits (reads 0xa5) 0x27 0x0f 0x06 boot))
  = [ i2c_smbus_read_byte_data MAIN 0x27;
      i2c_smbus_write_byte_data MAIN 0x27 0xa6 ].
Proof.
  destruct (proj2 (reg_update_bits_byte (reads 0xa5) 0x27 0x0f 0x06 boot
                     ltac:(unfold is_byte; lia) ltac:(unfold is_byte; lia)))
    as (new & _ & _ & Hcalls & _).
  - simpl. lia.
  - reflexivity.
Defined.

(** X6. [anx7688_eeprom_set_address] writes the high byte of the 16-bit
    address to register 0xe0 and then the low byte to register 0xe1; the
    two bytes put together are the address.  When the first write fails,
    its error is returned and the second write is not made. *)
Theorem eeprom_set_address_bytes :
  forall env addr w,
    0 <= addr < 2 ^ 16 ->
    let x := anx7688_eeprom_set_address env addr w in
    exists hi lo,
      is_byte hi /\ is_byte lo /\ addr = hi * 256 + lo
      /\ let first := reply env (i2c_smbus_write_byte_data MAIN 0xe0 hi)
                            (tick w) in
         (first < 0 ->
          io_val x = first
          /\ calls (io_world x)
             = calls w ++ [i2c_smbus_write_byte_data MAIN 0xe0 hi])
         /\ (0 <= first ->
             io_val x = reply env (i2c_smbus_write_byte_data MAIN 0xe1 lo)
                              (S (tick w))
             /\ calls (io_world x)
                = calls w ++ [ i2c_smbus_write_byte_data MAIN 0xe0 hi;
                               i2c_smbus_write_byte_data MAIN 0xe1 lo ]).
Proof.
  intros env addr w Haddr x. subst x.
  exists (addr / 256), (addr mod 256).
  assert (Hhi : is_byte (addr / 256)).
  { unfold is_byte. split; [apply Z.div_pos; lia|].
    apply Z.div_lt_upper_bound; lia. }
  assert (Hlo : is_byte (addr mod 256)) by (apply Z.mod_pos_bound; lia).
  split; [exact Hhi|]. split; [exact Hlo|].
  split; [pose proof (Z.div_mod addr 256); lia|].
  unfold anx7688_eeprom_set_address, anx7688_reg_write, io_bind.
  rewrite (Z.mod_small addr) by lia.
  change 0xff with (Z.ones 8). rewrite !Z.land_ones by lia.
  rewrite Z.shiftr_div_pow2 by lia. change (2 ^ 8) with 256.
  rewrite (Z.mod_small (addr / 256)) by exact Hhi.
  rewrite (u8_small (addr / 256)) by exact Hhi.
  rewrite (u8_small (addr mod 256)) by exact Hlo.
  cbn [extern]. cbv zeta. split; intros Hfirst.
  - destruct (Z.ltb_spec (reply env (i2c_smbus_write_byte_data MAIN 0xe0
                                       (addr / 256)) (tick w)) 0); [|lia].
    unfold io_ret. cbn [io_val io_world fst snd]. split; [reflexivity|].
    unfold calls. cbn [trace]. now rewrite map_app.
  - destruct (Z.ltb_spec (reply env (i2c_smbus_write_byte_data MAIN 0xe0
                                       (addr / 256)) (tick w)) 0); [lia|].
    cbn [extern io_val io_world fst snd tick]. split; [reflexivity|].
    unfold calls. cbn [trace]. rewrite !map_app. cbn [map fst].
    now rewrite <- app_assoc.
Qed.

Lemma eeprom_set_address_bytes_witness :
  exists hi lo,
    0x1234 = hi * 256 + lo
    /\ calls (io_world (anx7688_eeprom_set_address quiet 0x1234 boot))
       = [ i2c_smbus_write_byte_data MAIN 0xe0 hi;
           i2c_smbus_write_byte_data MAIN 0xe1 lo ].
Proof.
  destruct (eeprom_set_address_bytes quiet 0x1234 boot ltac:(lia))
    as (hi & lo & _ & _ & Haddr & _ & Hok).
  exists hi, lo. split; [exact Haddr|].
  apply Hok. simpl. lia.
Defined.

(** The fields of the word written to the attribute [reg_update]. *)
Lemma reg_update_fields top devaddr addr data :
  is_byte top -> is_byte devaddr -> is_byte addr -> is_byte data ->
  let val := top * 2 ^ 24 + devaddr * 2 ^ 16 + addr * 2 ^ 8 + data in
  Z.land (Z.shiftr val 16) 0xff = devaddr
  /\ Z.land (Z.shiftr val 8) 0xff = addr
  /\ u8 val = data.
Proof.
  intros Ht Hd Ha Hb val. subst val. unfold is_byte, u8 in *.
  change 0xff with (Z.ones 8). rewrite !Z.land_ones by lia.
  rewrite !Z.shiftr_div_pow2 by lia.
  change (2 ^ 24) with 16777216. change (2 ^ 16) with 65536.
  change (2 ^ 8) with 256.
  repeat split; Z.div_mod_to_equations; lia.
Qed.

(** X7. A write to the attribute [reg_update] of a word [devaddr], [addr],
    [data] (bits 16 to 23, 8 to 15 and 0 to 7) never changes the driver's
    state.  It touches the chip only when the chip is powered and [devaddr]
    is 0x50 or 0x58, and then with one write of [data] to register [addr]
    of the main or of the TCPC address; it returns the number of bytes
    written to the attribute when that write returns 0 and its error
    otherwise.  Without power it returns [-ENODEV], for another [devaddr]
    [-EINVAL]. *)
Theorem reg_update_store_decodes :
  forall env top devaddr addr data len a w,
    is_byte top -> is_byte devaddr -> is_byte addr -> is_byte data ->
    let val := top * 2 ^ 24 + devaddr * 2 ^ 16 + addr * 2 ^ 8 + data in
    let x := reg_update_store env 0 val len a w in
    let client_write c :=
      let r := reply env (i2c_smbus_write_byte_data c addr data) (tick w) in
      m_val x = (if r =? 0 then len else r)
      /\ calls (m_world x) = calls w ++ [i2c_smbus_write_byte_data c addr data]
    in
    m_dev x = a
    /\ (test_bit ANX7688_F_POWERED (flags a) = false ->
        m_val x = - ENODEV /\ m_world x = w)
    /\ (test_bit ANX7688_F_POWERED (flags a) = true ->
        (devaddr = 0x50 -> client_write MAIN)
        /\ (devaddr = 0x58 -> client_write TCPC)
        /\ (devaddr <> 0x50 -> devaddr <> 0x58 ->
            m_val x = - EINVAL /\ m_world x = w)).
Proof.
  intros env top devaddr addr data len a w Ht Hd Ha Hb val x client_write.
  destruct (reg_update_fields top devaddr addr data Ht Hd Ha Hb)
    as (Hdev & Haddr & Hdata).
  fold val in Hdev, Haddr, Hdata.
  subst x client_write. unfold reg_update_store. cbn [negb Z.eqb].
  rewrite Hdev, Haddr. unfold anx7688_reg_write, anx7688_tcpc_reg_write.
  rewrite Hdata. destruct a, w as [tick0 clock0 trace0 dz0]. run_m.
  destruct (test_bit ANX7688_F_POWERED flags0); cbn [negb].
  - split; [|split; [discriminate|intros _]].
    + destruct (devaddr =? 0x50); [reflexivity|].
      destruct (devaddr =? 0x58); reflexivity.
    + split; [|split].
      * intros ->. cbn [Z.eqb Pos.eqb].
        destruct (_ =? 0); cbn [negb]; (split; [reflexivity|]);
          unfold calls; cbn [trace]; now rewrite map_app.
      * intros ->. cbn [Z.eqb Pos.eqb].
        destruct (_ =? 0); cbn [negb]; (split; [reflexivity|]);
          unfold calls; cbn [trace]; now rewrite map_app.
      * intros H50 H58.
        rewrite (proj2 (Z.eqb_neq _ _) H50), (proj2 (Z.eqb_neq _ _) H58).
        split; reflexivity.
  - split; [reflexivity|]. split; [intros _; split; reflexivity|discriminate].
Qed.

Lemma reg_update_store_decodes_witness :
  calls (m_world (reg_update_store quiet 0 0x502a1e 7 powered boot))
  = [i2c_smbus_write_byte_data MAIN 0x2a 0x1e]
  /\ m_val (reg_update_store quiet 0 0x502a1e 7 powered boot) = 7.
Proof.
  destruct (reg_update_store_decodes quiet 0 0x50 0x2a 0x1e 7 powered boot
              ltac:(unfold is_byte; lia) ltac:(unfold is_byte; lia)
              ltac:(unfold is_byte; lia) ltac:(unfold is_byte; lia))
    as (_ & _ & Hon).
  destruct (Hon eq_refl) as (Hmain & _).
  destruct (Hmain eq_refl) as (Hval & Hcalls).
  split; [exact Hcalls | exact Hval].
Defined.

(** ** [anx7688_update_status] *)

Lemma set_hdmi_hpd_run env state a w :
  anx7688_set_hdmi_hpd env state a w
  = if (extcon a =? 0) || (last_extcon_state a =? state) then (tt, a, w)
    else (tt, set_last_extcon_state state a,
          io_world (extern env (extcon_set_state_sync state) w)).
Proof.
  unfold anx7688_set_hdmi_hpd. rewrite bind_run. cbn [get].
  destruct (extcon a =? 0); [reflexivity|].
  destruct (last_extcon_state a =? state); reflexivity.
Qed.

Lemma remember_status v a w :
  remember last_status set_last_status v a w = (tt, set_last_status v a, w).
Proof.
  unfold remember. rewrite bind_run. cbn [get]. destruct a. cbn [last_status].
  destruct (Z.eqb_spec last_status0 (-1)); [reflexivity|].
  destruct (Z.eqb_spec last_status0 v); [subst|]; reflexivity.
Qed.

Lemma remember_cc_status v a w :
  remember last_cc_status set_last_cc_status v a w
  = (tt, set_last_cc_status v a, w).
Proof.
  unfold remember. rewrite bind_run. cbn [get]. destruct a.
  cbn [last_cc_status].
  destruct (Z.eqb_spec last_cc_status0 (-1)); [reflexivity|].
  destruct (Z.eqb_spec last_cc_status0 v); [subst|]; reflexivity.
Qed.

Lemma remember_dp_state v a w :
  remember last_dp_state set_last_dp_state v a w
  = (tt, set_last_dp_state v a, w).
Proof.
  unfold remember. rewrite bind_run. cbn [get]. destruct a.
  cbn [last_dp_state].
  destruct (Z.eqb_spec last_dp_state0 (-1)); [reflexivity|].
  destruct (Z.eqb_spec last_dp_state0 v); [subst|]; reflexivity.
Qed.

Lemma update_status_vbus_run env vbus a w :
  update_status_vbus env vbus a w
  = if Bool.eqb (vbus_on a) vbus then (0, a, w)
    else
      let c := if vbus then regulator_enable VBUS else regulator_disable VBUS in
      let role := if vbus then TYPEC_SOURCE else TYPEC_SINK in
      let '(r, w1) := extern env c w in
      if negb (r =? 0) then (r, a, w1)
      else (0, set_vbus_on vbus (set_pwr_role role a),
            io_world (extern env (typec_set_pwr_role role) w1)).
Proof.
  unfold update_status_vbus. rewrite bind_run. cbn [get].
  destruct (Bool.eqb (vbus_on a) vbus); [reflexivity|].
  rewrite bind_run. unfold lift. cbv zeta.
  destruct (extern env _ w) as [r w1].
  destruct (negb (r =? 0)); reflexivity.
Qed.

Lemma update_status_vconn_run env vconn a w :
  update_status_vconn env vconn a w
  = if Bool.eqb (vconn_on a) vconn then (0, a, w)
    else
      let c := if vconn then regulator_enable VCONN
               else regulator_disable VCONN in
      let role := if vconn then TYPEC_SOURCE else TYPEC_SINK in
      let '(r, w1) := extern env c w in
      if negb (r =? 0) then (r, a, w1)
      else (0, set_vconn_on vconn a,
            io_world (extern env (typec_set_vconn_role role) w1)).
Proof.
  unfold update_status_vconn. rewrite bind_run. cbn [get].
  destruct (Bool.eqb (vconn_on a) vconn); [reflexivity|].
  rewrite bind_run. unfold lift. cbv zeta.
  destruct (extern env _ w) as [r w1].
  destruct (negb (r =? 0)); reflexivity.
Qed.

(** [anx7688_update_status], block by block. *)
Lemma update_status_run env a w :
  anx7688_update_status env a w
  = let '(status, w1) := anx7688_reg_read env ANX7688_REG_STATUS w in
    if status <? 0 then (status, a, w1) else
    let '(cc_status, w2) := anx7688_reg_read env ANX7688_REG_CC_STATUS w1 in
    if cc_status <? 0 then (cc_status, a, w2) else
    let '(dp_state, w3) := anx7688_tcpc_reg_read env 0x87 w2 in
    if dp_state <? 0 then (dp_state, a, w3) else
    let '(dp_substate, w4) := anx7688_tcpc_reg_read env 0x88 w3 in
    if dp_substate <? 0 then (dp_substate, a, w4) else
    let '(_, a1, w5) :=
      anx7688_set_hdmi_hpd env (if dp_state >=? 3 then 1 else 0) a w4 in
    let a2 :=
      set_last_dp_state (Z.lor (Z.shiftl dp_state 8) dp_substate)
        (set_last_cc_status cc_status (set_last_status status a1)) in
    let dr_dfp := negb (Z.land status ANX7688_DATA_ROLE_STATUS =? 0) in
    let '(r, a3, w6) :=
      update_status_vbus
        env (negb (Z.land status ANX7688_VBUS_STATUS =? 0)) a2 w5 in
    if negb (r =? 0) then (r, a3, w6) else
    let '(r, a4, w7) :=
      update_status_vconn
        env (negb (Z.land status ANX7688_VCONN_STATUS =? 0)) a3 w6 in
    if negb (r =? 0) then (r, a4, w7) else
    let a5 := set_data_role (if dr_dfp then TYPEC_HOST else TYPEC_DEVICE) a4 in
    let '(_, w8) :=
      extern env (typec_set_data_role
                    (if dr_dfp then TYPEC_HOST else TYPEC_DEVICE)) w7 in
    let '(role, w9) := extern env usb_role_switch_get_role w8 in
    if negb (role =? (if dr_dfp then USB_ROLE_HOST else USB_ROLE_DEVICE)) then
      let '(r, w10) :=
        extern env (usb_role_switch_set_role
                      (if dr_dfp then USB_ROLE_HOST else USB_ROLE_DEVICE)) w9 in
      (if negb (r =? 0) then r else 0, a5, w10)
    else (0, a5, w9).
Proof.
  unfold anx7688_update_status.
  rewrite bind_run. unfold lift at 1.
  destruct (anx7688_reg_read env ANX7688_REG_STATUS w) as [status w1].
  destruct (status <? 0); [reflexivity|].
  rewrite bind_run. unfold lift at 1.
  destruct (anx7688_reg_read env ANX7688_REG_CC_STATUS w1) as [cc_status w2].
  destruct (cc_status <? 0); [reflexivity|].
  rewrite bind_run. unfold lift at 1.
  destruct (anx7688_tcpc_reg_read env 0x87 w2) as [dp_state w3].
  destruct (dp_state <? 0); [reflexivity|].
  rewrite bind_run. unfold lift at 1.
  destruct (anx7688_tcpc_reg_read env 0x88 w3) as [dp_substate w4].
  destruct (dp_substate <? 0); [reflexivity|].
  rewrite bind_run.
  destruct (anx7688_set_hdmi_hpd env _ a w4) as [[u1 a1] w5].
  rewrite bind_run, remember_status.
  rewrite bind_run, remember_cc_status.
  rewrite bind_run, remember_dp_state.
  rewrite bind_run. cbv zeta.
  destruct (update_status_vbus env _ _ w5) as [[r3 a3] w6].
  destruct (negb (r3 =? 0)); [reflexivity|].
  rewrite bind_run.
  destruct (update_status_vconn env _ a3 w6) as [[r4 a4] w7].
  destruct (negb (r4 =? 0)); [reflexivity|].
  rewrite bind_run. cbn [modify]. rewrite bind_run. unfold lift at 1.
  destruct (extern env (typec_set_data_role _) w7) as [u8' w8].
  rewrite bind_run. unfold lift at 1.
  destruct (extern env usb_role_switch_get_role w8) as [role w9].
  destruct (negb (role =? _)); [|reflexivity].
  rewrite bind_run. unfold lift at 1.
  destruct (extern env (usb_role_switch_set_role _) w9) as [r w10].
  destruct (negb (r =? 0)); reflexivity.
Qed.

(** One test of [anx7688_update_status] after the other. *)
Ltac status_step :=
  first
    [ rewrite set_hdmi_hpd_run
    | rewrite update_status_vbus_run
    | rewrite update_status_vconn_run
    | match goal with
      | |- context [if ?r <? 0 then _ else _] =>
          destruct (Z.ltb_spec r 0)
      | |- context [if (?x =? 0) || (?y =? ?s) then _ else _] =>
          destruct ((x =? 0) || (y =? s))
      | |- context [if Bool.eqb ?x ?y then _ else _] =>
          destruct (Bool.eqb_spec x y)
      | |- context [if negb (reply ?e ?c ?t =? ?v) then _ else _] =>
          destruct (Z.eqb_spec (reply e c t) v); cbn [negb]
      end
    | progress run_m ].

(** X8. [anx7688_update_status] gives up at the first of its four reads
    that fails: it returns the error of that read, has made no call after
    it, and leaves the driver's state as it was, whatever the reads before
    it returned. *)
Theorem update_status_read_failure :
  forall env a w k e,
    nth_error (status_replies env w) k = Some e ->
    e < 0 ->
    (forall j e', (j < k)%nat ->
                  nth_error (status_replies env w) j = Some e' -> 0 <= e') ->
    let x := anx7688_update_status env a w in
    m_val x = e /\ m_dev x = a
    /\ calls (m_world x) = calls w ++ firstn (S k) status_reads.
Proof.
  intros env a w k e Hk He Hbefore x. subst x. rewrite update_status_run.
  unfold anx7688_reg_read, anx7688_tcpc_reg_read.
  destruct w as [tick0 clock0 trace0 dz0].
  unfold status_replies, status_reads in *.
  cbn [tick seq combine map fst snd Nat.add nth_error firstn] in *.
  run_m.
  destruct k as [|[|[|[|k]]]]; cbn [nth_error] in Hk.
  - injection Hk as <-. rewrite (proj2 (Z.ltb_lt _ _) He).
    repeat split. unfold calls. cbn [trace]. now rewrite map_app.
  - injection Hk as <-.
    pose proof (Hbefore 0%nat _ ltac:(lia) eq_refl) as H0.
    rewrite (proj2 (Z.ltb_ge _ _) H0), (proj2 (Z.ltb_lt _ _) He).
    repeat split. calls_eq.
  - injection Hk as <-.
    pose proof (Hbefore 0%nat _ ltac:(lia) eq_refl) as H0.
    pose proof (Hbefore 1%nat _ ltac:(lia) eq_refl) as H1.
    rewrite (proj2 (Z.ltb_ge _ _) H0), (proj2 (Z.ltb_ge _ _) H1),
      (proj2 (Z.ltb_lt _ _) He).
    repeat split. calls_eq.
  - injection Hk as <-.
    pose proof (Hbefore 0%nat _ ltac:(lia) eq_refl) as H0.
    pose proof (Hbefore 1%nat _ ltac:(lia) eq_refl) as H1.
    pose proof (Hbefore 2%nat _ ltac:(lia) eq_refl) as H2.
    rewrite (proj2 (Z.ltb_ge _ _) H0), (proj2 (Z.ltb_ge _ _) H1),
      (proj2 (Z.ltb_ge _ _) H2), (proj2 (Z.ltb_lt _ _) He).
    repeat split. calls_eq.
  - destruct k; discriminate Hk.
Qed.

Lemma update_status_read_failure_witness :
  let x := anx7688_update_status tcpc_dead in_contract boot in
  m_val x = - EIO /\ m_dev x = in_contract
  /\ calls (m_world x) = firstn 3 status_reads.
Proof.
  apply (update_status_read_failure tcpc_dead in_contract boot 2 (- EIO)).
  - reflexivity.
  - unfold EIO. lia.
  - intros [|[|j]] e' Hj He'; [| |lia]; cbn in He'; injection He' as <-; lia.
Defined.

(** The test of one bit of the status register. *)
Lemma status_bit_test s n :
  0 <= n -> negb (Z.land s (2 ^ n) =? 0) = Z.testbit s n.
Proof.
  intros Hn. destruct (Z.testbit s n) eqn:Hb.
  - apply negb_true_iff, Z.eqb_neq. intros H0.
    assert (Hbit : Z.testbit (Z.land s (2 ^ n)) n = true).
    { rewrite Z.land_spec, Hb, Z.pow2_bits_true by lia. reflexivity. }
    rewrite H0, Z.bits_0 in Hbit. discriminate.
  - apply negb_false_iff, Z.eqb_eq. apply Z.bits_inj'. intros i Hi.
    rewrite Z.land_spec, Z.bits_0, Z.pow2_bits_eqb by lia.
    destruct (Z.eqb_spec n i) as [<-|_];
      [rewrite Hb; reflexivity | apply andb_false_r].
Qed.

(** What [anx7688_update_status] never writes, and what it has written
    when it returns 0. *)
Lemma update_status_effect env a w :
  let status := reply env (i2c_smbus_read_byte_data MAIN ANX7688_REG_STATUS)
                      (tick w) in
  let cc_status :=
    reply env (i2c_smbus_read_byte_data MAIN ANX7688_REG_CC_STATUS)
          (S (tick w)) in
  let x := anx7688_update_status env a w in
  (flags (m_dev x) = flags a
   /\ pd_capable (m_dev x) = pd_capable a
   /\ pd_current_limit (m_dev x) = pd_current_limit a
   /\ current_update_deadline (m_dev x) = current_update_deadline a
   /\ input_current_limit (m_dev x) = input_current_limit a
   /\ partner (m_dev x) = partner a
   /\ last_bc_result (m_dev x) = last_bc_result a
   /\ extcon (m_dev x) = extcon a)
  /\ (m_val x = 0 ->
      vbus_on (m_dev x) = negb (Z.land status ANX7688_VBUS_STATUS =? 0)
      /\ vconn_on (m_dev x) = negb (Z.land status ANX7688_VCONN_STATUS =? 0)
      /\ data_role (m_dev x)
         = (if negb (Z.land status ANX7688_DATA_ROLE_STATUS =? 0)
            then TYPEC_HOST else TYPEC_DEVICE)
      /\ last_status (m_dev x) = status
      /\ last_cc_status (m_dev x) = cc_status).
Proof.
  cbv zeta. set (x := anx7688_update_status env a w).
  assert (Hx : anx7688_update_status env a w = x) by reflexivity.
  clearbody x. revert Hx. rewrite update_status_run.
  unfold anx7688_reg_read, anx7688_tcpc_reg_read.
  destruct a, w as [tick0 clock0 trace0 dz0].
  run_m. repeat status_step;
    intros <-; run_m; (split; [repeat split|]); intros Hret;
    first
      [ contradiction
      | match goal with H : ?r < 0 |- _ => exfalso; clear - H Hret; lia end
      | repeat split; first [reflexivity | assumption] ].
Qed.

(** X9. When [anx7688_update_status] returns 0, the state of the driver
    mirrors what it has read: [vbus_on], [vconn_on] and the data role are
    bits 3, 2 and 5 of the status register, and the status and CC status
    it remembers are the values read.  Whatever it returns, it leaves the
    flags, the PD capability and limit, the deadline of the current update
    and the input current limit alone. *)
Theorem update_status_mirrors :
  forall env a w,
    let status := reply env (i2c_smbus_read_byte_data MAIN ANX7688_REG_STATUS)
                        (tick w) in
    let cc_status :=
      reply env (i2c_smbus_read_byte_data MAIN ANX7688_REG_CC_STATUS)
            (S (tick w)) in
    let x := anx7688_update_status env a w in
    (m_val x = 0 ->
     vbus_on (m_dev x) = Z.testbit status 3
     /\ vconn_on (m_dev x) = Z.testbit status 2
     /\ data_role (m_dev x)
        = (if Z.testbit status 5 then TYPEC_HOST else TYPEC_DEVICE)
     /\ last_status (m_dev x) = status
     /\ last_cc_status (m_dev x) = cc_status)
    /\ flags (m_dev x) = flags a
    /\ pd_capable (m_dev x) = pd_capable a
    /\ pd_current_limit (m_dev x) = pd_current_limit a
    /\ current_update_deadline (m_dev x) = current_update_deadline a
    /\ input_current_limit (m_dev x) = input_current_limit a.
Proof.
  intros env a w status cc_status x.
  destruct (update_status_effect env a w)
    as ((Hf & Hpd & Hlim & Hdl & Hicl & _) & Hok).
  fold status cc_status x in Hok, Hf, Hpd, Hlim, Hdl, Hicl.
  split; [|now repeat split].
  intros Hret. specialize (Hok Hret).
  rewrite <- !status_bit_test by lia. exact Hok.
Qed.

Lemma update_status_mirrors_witness :
  let x := anx7688_update_status (status_is 0x2c) in_contract boot in
  vbus_on (m_dev x) = true /\ vconn_on (m_dev x) = true
  /\ data_role (m_dev x) = TYPEC_HOST.
Proof.
  destruct (proj1 (update_status_mirrors (status_is 0x2c) in_contract boot)
              eq_refl)
    as (Hvbus & Hvconn & Hrole & _).
  split; [exact Hvbus | split; [exact Hvconn | exact Hrole]].
Defined.

(** ** The rails and the regulators *)

Lemma rail_delta_app r l1 l2 :
  rail_delta r (l1 ++ l2) = rail_delta r l1 + rail_delta r l2.
Proof.
  induction l1 as [|e l1 IH]; [reflexivity|].
  cbn [app rail_delta]. rewrite IH. lia.
Qed.

Lemma rail_delta_no_regulator r l :
  Forall (fun e => is_regulator (fst e) = false) l -> rail_delta r l = 0.
Proof.
  induction 1 as [|e l He _ IH]; [reflexivity|].
  cbn [rail_delta]. rewrite IH. unfold rail_step.
  destruct (fst e); try discriminate He; reflexivity.
Qed.

Lemma balanced_ret {A} (x : A) : balanced (ret x).
Proof.
  intros a w. exists []. split; [apply extends_refl|].
  intros r. cbn. lia.
Qed.

Lemma balanced_get : balanced get.
Proof.
  intros a w. exists []. split; [apply extends_refl|].
  intros r. cbn. lia.
Qed.

Lemma balanced_bind {A B} (c : M A) (k : A -> M B) :
  balanced c -> (forall x, balanced (k x)) -> balanced (bind c k).
Proof.
  intros Hc Hk a w. rewrite bind_run.
  specialize (Hc a w). destruct (c a w) as [[x a1] w1].
  specialize (Hk x a1 w1). destruct (k x a1 w1) as [[y a2] w2].
  cbn [m_dev m_world fst snd] in *.
  destruct Hc as (l1 & He1 & Hd1). destruct Hk as (l2 & He2 & Hd2).
  exists (l1 ++ l2). split; [eapply extends_trans; eassumption|].
  intros r. rewrite rail_delta_app, Hd1, Hd2. lia.
Qed.

Lemma balanced_modify (f : anx7688 -> anx7688) :
  (forall a, vconn_on (f a) = vconn_on a /\ vbus_on (f a) = vbus_on a) ->
  balanced (modify f).
Proof.
  intros Hf a w. exists []. split; [apply extends_refl|].
  intros r. destruct (Hf a) as [Hvc Hvb].
  cbn [modify m_dev fst snd rail_delta].
  destruct r; cbn [rail_on]; rewrite ?Hvc, ?Hvb; lia.
Qed.

Lemma balanced_lift {A} (c : IO A) : no_regulator c -> balanced (lift c).
Proof.
  intros Hc a w. destruct (Hc w) as (added & He & Hf).
  exists added. unfold lift. destruct (c w) as [x w1].
  cbn [m_dev m_world io_world fst snd] in *. split; [exact He|].
  intros r. rewrite (rail_delta_no_regulator r added Hf). lia.
Qed.

Lemma no_regulator_extern env c :
  is_regulator c = false -> no_regulator (extern env c).
Proof.
  intros Hc w. eexists. split; [apply extern_extends|].
  constructor; [exact Hc | constructor].
Qed.

Lemma no_regulator_ktime_get : no_regulator ktime_get.
Proof. intros w. exists []. split; [apply extends_refl | constructor]. Qed.

Lemma no_regulator_trap : no_regulator trap.
Proof.
  intros w. exists []. split; [|constructor].
  unfold extends. cbn. now rewrite app_nil_r.
Qed.

Lemma no_regulator_psy_get env p : no_regulator (psy_get env p).
Proof.
  intros w. eexists. split; [apply extern_extends|].
  constructor; [reflexivity | constructor].
Qed.

Lemma no_regulator_block_read env c reg : no_regulator (block_read env c reg).
Proof.
  intros w. eexists. split; [apply extern_extends|].
  constructor; [reflexivity | constructor].
Qed.

Lemma no_regulator_send_ocm_message env cmd data :
  no_regulator (anx7688_send_ocm_message env cmd data).
Proof.
  intros w. unfold anx7688_send_ocm_message.
  destruct (len data >? 32 - 3).
  { exists []. split; [apply extends_refl | constructor]. }
  unfold io_bind, anx7688_tcpc_reg_read. cbn [extern].
  destruct (negb (_ =? 0)).
  { eexists. split; [apply (extern_extends env _ w)|].
    constructor; [reflexivity | constructor]. }
  match goal with |- context [send_wait_flush env 300 ?w2] =>
    destruct (send_wait_flush_calls env 300 w2) as (l & Hl & Hf) end.
  eexists (_ :: _ :: l). split.
  - unfold extends in *. rewrite Hl. cbn [trace].
    rewrite <- !app_assoc. reflexivity.
  - constructor; [reflexivity|]. constructor; [reflexivity|].
    eapply Forall_impl; [|exact Hf].
    intros e [-> | ->]; reflexivity.
Qed.

Create HintDb rails discriminated.
#[local] Hint Resolve balanced_ret balanced_get no_regulator_ktime_get
  no_regulator_trap no_regulator_psy_get no_regulator_block_read
  no_regulator_send_ocm_message : rails.

(** One step through a piece of the driver. *)
Ltac rails_step :=
  first
    [ solve [auto with rails]
    | apply balanced_bind; [|intros ?]
    | apply balanced_lift
    | apply no_regulator_extern; reflexivity
    | apply no_regulator_extern; match goal with
        |- is_regulator (_ (if ?b then _ else _)) = false =>
          destruct b; reflexivity end
    | apply balanced_modify; intros []; split; reflexivity
    | match goal with
      | |- balanced (if ?b then _ else _) => destruct b
      | |- balanced (match ?p with (_, _) => _ end) => destruct p
      | |- balanced (match ?o with Some _ => _ | None => _ end) => destruct o
      end ].

Lemma balanced_set_hdmi_hpd env state :
  balanced (anx7688_set_hdmi_hpd env state).
Proof. unfold anx7688_set_hdmi_hpd. repeat rails_step. Qed.

Lemma balanced_remember last set v :
  (forall a, vconn_on (set v a) = vconn_on a /\ vbus_on (set v a) = vbus_on a) ->
  balanced (remember last set v).
Proof.
  intros Hset. unfold remember. apply balanced_bind; [apply balanced_get|].
  intros a. destruct (_ || _); [|apply balanced_ret].
  apply balanced_modify. exact Hset.
Qed.

Lemma balanced_update_status_vbus env vbus :
  balanced (update_status_vbus env vbus).
Proof.
  intros a w. rewrite update_status_vbus_run.
  destruct (Bool.eqb_spec (vbus_on a) vbus) as [Heq|Hne].
  { exists []. split; [apply extends_refl|]. intros r. cbn. lia. }
  cbv zeta. cbn [extern].
  destruct (Z.eqb_spec (reply env (if vbus then regulator_enable VBUS
                                   else regulator_disable VBUS) (tick w)) 0)
    as [Hr|Hr]; cbn [negb].
  - eexists [_; _]. split.
    + unfold extends. cbn [m_world extern io_world snd trace].
      rewrite <- app_assoc. reflexivity.
    + intros r.
      destruct a, r, vbus, vbus_on0;
        cbn [rail_delta rail_step fst snd same_supply andb] in *;
        rewrite ?Hr; cbn;
        first [lia | exfalso; apply Hne; reflexivity].
  - eexists [_]. split; [reflexivity|].
    intros r.
    destruct r, vbus;
      cbn [rail_delta rail_step fst snd m_dev same_supply andb] in *;
      rewrite ?(proj2 (Z.eqb_neq _ _) Hr); cbn; lia.
Qed.

Lemma balanced_update_status_vconn env vconn :
  balanced (update_status_vconn env vconn).
Proof.
  intros a w. rewrite update_status_vconn_run.
  destruct (Bool.eqb_spec (vconn_on a) vconn) as [Heq|Hne].
  { exists []. split; [apply extends_refl|]. intros r. cbn. lia. }
  cbv zeta. cbn [extern].
  destruct (Z.eqb_spec (reply env (if vconn then regulator_enable VCONN
                                   else regulator_disable VCONN) (tick w)) 0)
    as [Hr|Hr]; cbn [negb].
  - eexists [_; _]. split.
    + unfold extends. cbn [m_world extern io_world snd trace].
      rewrite <- app_assoc. reflexivity.
    + intros r.
      destruct a, r, vconn, vconn_on0;
        cbn [rail_delta rail_step fst snd same_supply andb] in *;
        rewrite ?Hr; cbn;
        first [lia | exfalso; apply Hne; reflexivity].
  - eexists [_]. split; [reflexivity|].
    intros r.
    destruct r, vconn;
      cbn [rail_delta rail_step fst snd m_dev same_supply andb] in *;
      rewrite ?(proj2 (Z.eqb_neq _ _) Hr); cbn; lia.
Qed.

#[local] Hint Resolve balanced_set_hdmi_hpd balanced_update_status_vbus
  balanced_update_status_vconn : rails.

Lemma balanced_update_status env : balanced (anx7688_update_status env).
Proof.
  unfold anx7688_update_status, anx7688_reg_read, anx7688_tcpc_reg_read.
  repeat first
    [ apply balanced_remember; intros []; split; reflexivity
    | rails_step ].
Qed.

(** X10. [anx7688_update_status] keeps [vbus_on] and [vconn_on] in step
    with the regulators: whatever the hardware answers, over the calls of
    a run the enables that returned 0 less the disables that returned 0 of
    a rail are the change of the driver's record of that rail; a regulator
    call that fails leaves the record as it was. *)
Theorem update_status_rails_in_step :
  forall env a w,
    let x := anx7688_update_status env a w in
    exists added,
      extends w (m_world x) added
      /\ rail_delta VBUS added
         = Z.b2z (vbus_on (m_dev x)) - Z.b2z (vbus_on a)
      /\ rail_delta VCONN added
         = Z.b2z (vconn_on (m_dev x)) - Z.b2z (vconn_on a).
Proof.
  intros env a w x. destruct (balanced_update_status env a w) as (l & He & Hd).
  exists l. split; [exact He|].
  split; [exact (Hd VBUS) | exact (Hd VCONN)].
Qed.

Lemma balanced_handle_pd_message env cmd msg len :
  balanced (anx7688_handle_pd_message env cmd msg len).
Proof.
  unfold anx7688_handle_pd_message, anx7688_reg_read. repeat rails_step.
Qed.

Lemma balanced_receive_msg env : balanced (anx7688_receive_msg env).
Proof.
  unfold anx7688_receive_msg, anx7688_tcpc_reg_write.
  repeat first [apply balanced_handle_pd_message | rails_step].
Qed.

(** ** The status interrupt *)

(** The status interrupt: the flags, a spurious interrupt and the
    acknowledgement of a soft interrupt. *)
Lemma irq_status_handler_run :
  forall env a w,
    let alert := reply env (i2c_smbus_read_byte_data
                              TCPC ANX7688_TCPC_REG_ALERT0) (tick w) in
    let ext2 := reply env (i2c_smbus_read_byte_data
                             MAIN ANX7688_REG_IRQ_EXT_SOURCE2)
                      (if alert >? 0 then 2 + tick w else 1 + tick w)%nat in
    let x := anx7688_irq_status_handler env a w in
    flags (m_dev x) = flags a
    /\ (test_bit ANX7688_F_CONNECTED (flags a) = false ->
        m_dev x = a /\ m_world x = w)
    /\ (test_bit ANX7688_F_CONNECTED (flags a) = true ->
        Z.land ext2 ANX7688_IRQ2_SOFT_INT <> 0 ->
        exists before, calls (m_world x) = before ++ [soft_int_ack]).
Proof.
  intros env a w alert ext2 x.
  assert (Hx : anx7688_irq_status_handler env a w = x) by reflexivity.
  clearbody x. revert Hx.
  unfold anx7688_irq_status_handler. rewrite bind_run. cbn [get].
  destruct (test_bit ANX7688_F_CONNECTED (flags a)); cbn [negb].
  2:{ intros <-. split; [reflexivity|].
      split; [split; reflexivity | discriminate]. }
  rewrite bind_run. unfold lift at 1. unfold anx7688_tcpc_reg_read at 1.
  cbn [extern]. fold alert. rewrite bind_run.
  assert (Hclear :
            exists w1,
              (if alert >? 0
               then bind (lift (anx7688_tcpc_reg_write
                                  env ANX7688_TCPC_REG_ALERT0 alert))
                         (fun _ => ret tt)
               else ret tt) a
                (io_world (extern env (i2c_smbus_read_byte_data
                                         TCPC ANX7688_TCPC_REG_ALERT0) w))
              = (tt, a, w1)
              /\ tick w1 = (if alert >? 0 then 2 + tick w else 1 + tick w)%nat).
  { destruct (alert >? 0); eexists; split; reflexivity. }
  destruct Hclear as (w1 & Hclear & Htick).
  cbn [extern io_world snd] in Hclear. fold alert in Hclear.
  rewrite Hclear. clear Hclear.
  rewrite bind_run. unfold lift at 1. unfold anx7688_reg_read at 1.
  cbn [extern]. rewrite Htick. fold ext2.
  destruct (Z.eqb_spec (Z.land ext2 ANX7688_IRQ2_SOFT_INT) 0) as [H0|H0];
    cbn [negb].
  { intros <-. split; [reflexivity|].
    split; [discriminate | intros _ Habs; contradiction]. }
  rewrite bind_run. unfold lift at 1.
  destruct (anx7688_reg_read env ANX7688_REG_STATUS_INT _) as [soft w2].
  rewrite bind_run. unfold lift at 1.
  destruct (anx7688_reg_write env ANX7688_REG_STATUS_INT 0 w2) as [u3 w3].
  rewrite bind_run.
  match goal with |- context [(if soft >? 0 then ?c else _) a w3] =>
    assert (Hmid : flags (m_dev ((if soft >? 0 then c else ret tt) a w3))
                   = flags a);
    [|destruct ((if soft >? 0 then c else ret tt) a w3) as [[u4 a4] w4]]
  end.
  { destruct (soft >? 0); [|reflexivity]. cbv zeta.
    rewrite bind_run.
    match goal with |- context [(if ?b then ?c else _) a w3] =>
      assert (Hmsg : flags (m_dev ((if b then c else ret tt) a w3)) = flags a);
      [|destruct ((if b then c else ret tt) a w3) as [[u5 a5] w5]]
    end.
    { destruct (negb _); [|reflexivity].
      rewrite bind_run.
      pose proof (receive_msg_rails env a w3) as (Hf & _).
      destruct (anx7688_receive_msg env a w3) as [[r6 a6] w6].
      cbn [ret m_dev fst snd] in *. exact Hf. }
    cbn [m_dev fst snd] in Hmsg.
    destruct (negb _); [|exact Hmsg].
    rewrite bind_run.
    pose proof (update_status_effect env a5 w5) as ((Hf & _) & _).
    destruct (anx7688_update_status env a5 w5) as [[r7 a7] w7].
    cbn [ret m_dev fst snd] in *. congruence. }
  cbn [m_dev fst snd] in Hmid.
  rewrite bind_run. unfold lift at 1. unfold anx7688_reg_write at 1.
  cbn [extern ret]. intros <-. cbn [m_dev m_world fst snd].
  split; [exact Hmid|]. split; [discriminate|]. intros _ _.
  exists (calls w4). unfold calls, ret. cbn [m_world snd trace].
  rewrite map_app. reflexivity.
Qed.

(** X11. [anx7688_irq_status_handler] does nothing in a device that is
    not connected.  In a connected device, when the interrupt source
    register shows a soft interrupt, the last call of the handler is the
    write that acknowledges it, whatever the reads and the handling of the
    causes in between returned. *)
Theorem irq_status_handler_acks :
  forall env a w,
    let alert := reply env (i2c_smbus_read_byte_data
                              TCPC ANX7688_TCPC_REG_ALERT0) (tick w) in
    let ext2 := reply env (i2c_smbus_read_byte_data
                             MAIN ANX7688_REG_IRQ_EXT_SOURCE2)
                      (if alert >? 0 then 2 + tick w else 1 + tick w)%nat in
    let x := anx7688_irq_status_handler env a w in
    (test_bit ANX7688_F_CONNECTED (flags a) = false ->
     m_dev x = a /\ m_world x = w)
    /\ (test_bit ANX7688_F_CONNECTED (flags a) = true ->
        Z.land ext2 ANX7688_IRQ2_SOFT_INT <> 0 ->
        exists before, calls (m_world x) = before ++ [soft_int_ack]).
Proof.
  intros env a w. exact (proj2 (irq_status_handler_run env a w)).
Qed.

Lemma irq_status_handler_acks_witness :
  exists before,
    calls (m_world (anx7688_irq_status_handler
                      soft_int_unreadable in_contract boot))
    = before ++ [soft_int_ack].
Proof.
  apply (irq_status_handler_acks soft_int_unreadable in_contract boot).
  - reflexivity.
  - discriminate.
Defined.

Lemma balanced_irq_status_handler env :
  balanced (anx7688_irq_status_handler env).
Proof.
  unfold anx7688_irq_status_handler, anx7688_reg_read, anx7688_reg_write,
    anx7688_tcpc_reg_read, anx7688_tcpc_reg_write.
  repeat first
    [ apply balanced_receive_msg
    | apply balanced_update_status
    | rails_step ].
Qed.

(** X12. The status interrupt keeps the driver's record of the rails in
    step with the regulators: over the calls of a run, the enables that
    returned 0 less the disables that returned 0 of a rail are the change
    of [vbus_on] or [vconn_on]; a message of the OCM never switches a
    rail. *)
Theorem irq_status_handler_rails_in_step :
  forall env a w,
    let x := anx7688_irq_status_handler env a w in
    exists added,
      extends w (m_world x) added
      /\ rail_delta VBUS added
         = Z.b2z (vbus_on (m_dev x)) - Z.b2z (vbus_on a)
      /\ rail_delta VCONN added
         = Z.b2z (vconn_on (m_dev x)) - Z.b2z (vconn_on a).
Proof.
  intros env a w x.
  destruct (balanced_irq_status_handler env a w) as (l & He & Hd).
  exists l. split; [exact He|].
  split; [exact (Hd VBUS) | exact (Hd VCONN)].
Qed.

(** ** The Connected flag and the power of the chip *)

Lemma work_notify_consistent env a w :
  consistent a -> consistent (m_dev (work_notify env a a w)).
Proof.
  unfold work_notify, anx7688_handle_vbus_in_notify.
  destruct (test_bit ANX7688_F_PWRSUPPLY_CHANGE (flags a)); [|exact (fun H => H)].
  destruct a, w as [tick0 clock0 trace0 dz0]. unfold consistent, at_rest.
  run_m.
  destruct (reply env _ tick0 =? 0); cbn [negb]; run_m;
    [destruct (last_bc_result0 =? propval env tick0); run_m|];
    rewrite !test_clear_other by flag_side; exact (fun H => H).
Qed.

Lemma disconnect_consistent env a w :
  consistent (m_dev (anx7688_disconnect env a w)).
Proof.
  destruct a, w as [tick0 clock0 trace0 dz0].
  unfold anx7688_disconnect, anx7688_set_hdmi_hpd, anx7688_power_disable,
    consistent, at_rest.
  run_m.
  destruct (extcon0 =? 0), (last_extcon_state0 =? 0), vconn_on0, vbus_on0;
    cbn [negb]; run_m; rewrite test_clear_same;
    rewrite test_clear_other, test_clear_same by flag_side;
    repeat split.
Qed.

Lemma connect_consistent env a w :
  test_bit ANX7688_F_CONNECTED (flags a) = false -> at_rest a ->
  consistent (m_dev (anx7688_connect env a w)).
Proof.
  destruct a, w as [tick0 clock0 trace0 dz0]. unfold consistent, at_rest.
  cbn [flags vconn_on vbus_on pd_capable current_update_deadline].
  intros Hconn (_ & Hvc & Hvb & Hpd & Hdl). subst.
  unfold anx7688_connect, err_vconoff, err_poweroff, anx7688_power_enable,
    anx7688_power_disable.
  run_m.
  destruct (reply env (regulator_enable VCONN) _ =? 0); cbn [negb]; run_m.
  2:{ rewrite !test_clear_other, !test_set_other, Hconn by flag_side.
      rewrite test_clear_same. repeat split. }
  destruct (connect_wait_fw env 100 _) as [loaded [tick3 clock3 trace3 dz3]].
  destruct loaded; cbn [negb]; run_m.
  2:{ rewrite !test_clear_other, !test_set_other, Hconn by flag_side.
      rewrite test_clear_same. repeat split. }
  destruct (until_error _ _) as [r [tick4 clock4 trace4 dz4]].
  destruct (r =? 0); cbn [negb]; run_m.
  2:{ rewrite !test_clear_other, !test_set_other, Hconn by flag_side.
      rewrite test_clear_same. repeat split. }
  destruct (IS_ERR _); run_m.
  - rewrite !test_clear_other, !test_set_other, Hconn by flag_side.
    rewrite test_clear_same. repeat split.
  - rewrite test_set_same by flag_side.
    rewrite test_set_other by flag_side. apply test_set_same. flag_side.
Qed.

Lemma handle_cable_change_consistent env a w :
  consistent a -> consistent (m_dev (anx7688_handle_cable_change env a w)).
Proof.
  intros Hinv. unfold anx7688_handle_cable_change.
  rewrite bind_run. cbn [get]. rewrite bind_run. unfold lift.
  destruct (extern env (gpiod_get_value GPIO_CABLEDET) w) as [cd w1].
  unfold consistent in Hinv.
  destruct (test_bit ANX7688_F_CONNECTED (flags a)) eqn:Hc.
  - cbn [negb andb]. rewrite andb_false_r, andb_true_r.
    destruct (cd =? 0); [apply disconnect_consistent|].
    cbn [ret m_dev fst snd]. unfold consistent. now rewrite Hc.
  - cbn [negb andb]. rewrite andb_true_r, andb_false_r.
    destruct (negb (cd =? 0)).
    + rewrite bind_run.
      pose proof (connect_consistent env a w1 Hc Hinv) as Hcon.
      destruct (anx7688_connect env a w1) as [[r a2] w2]. exact Hcon.
    + cbn [ret m_dev fst snd]. unfold consistent. now rewrite Hc.
Qed.

Lemma consistent_same_flags a a' :
  flags a' = flags a ->
  test_bit ANX7688_F_CONNECTED (flags a) = true ->
  consistent a -> consistent a'.
Proof. unfold consistent. intros -> ->. exact (fun H => H). Qed.

(** X13. The Connected flag tells whether the chip is in use: in a
    connected device the chip is powered, and in a device that is not
    connected the chip is without power, both rails are off, there is no
    PD contract and no current update is pending.  Every run of
    [anx7688_work] and of [anx7688_irq_status_handler] keeps this
    condition, whatever the hardware does. *)
Theorem connected_flag_means_in_use :
  forall env a w,
    consistent a ->
    consistent (m_dev (anx7688_work env a w))
    /\ consistent (m_dev (anx7688_irq_status_handler env a w)).
Proof.
  intros env a w Hinv. split.
  - rewrite work_run.
    destruct (test_bit ANX7688_F_FW_FAILED (flags a)); [exact Hinv|].
    pose proof (work_notify_consistent env a w Hinv) as H1.
    destruct (work_notify env a a w) as [[u1 a1] w1].
    cbn [m_dev fst snd] in H1.
    pose proof (handle_cable_change_consistent env a1 w1 H1) as H2.
    destruct (anx7688_handle_cable_change env a1 w1) as [[u2 a2] w2].
    cbn [m_dev fst snd] in H2.
    destruct (test_bit ANX7688_F_CONNECTED (flags a2)) eqn:Hc2; [|exact H2].
    pose proof (update_status_effect env a2 w2) as ((Hf3 & _) & _).
    destruct (anx7688_update_status env a2 w2) as [[u3 a3] w3].
    cbn [m_dev fst snd] in Hf3.
    destruct (negb (current_update_deadline a3 =? 0)
              && ktime_after (clock w3) (current_update_deadline a3)).
    + apply (consistent_same_flags a2); [|exact Hc2 | exact H2].
      rewrite handle_current_update_flags. rewrite <- Hf3.
      destruct a3; reflexivity.
    + apply (consistent_same_flags a2); [exact Hf3 | exact Hc2 | exact H2].
  - pose proof (irq_status_handler_run env a w) as Hrun. cbv zeta in Hrun.
    destruct Hrun as (Hflags & Hsame & _).
    unfold consistent in *.
    destruct (test_bit ANX7688_F_CONNECTED (flags a)) eqn:Hc.
    + rewrite Hflags, Hc. exact Hinv.
    + rewrite (proj1 (Hsame eq_refl)), Hc. exact Hinv.
Qed.

Lemma connected_flag_means_in_use_witness :
  consistent (m_dev (anx7688_work fw_ready probed boot)).
Proof.
  apply (connected_flag_means_in_use fw_ready probed boot).
  unfold consistent, at_rest. cbn. repeat split.
Defined.

(** ** A firmware that does not load *)

Lemma work_notify_flags env a w :
  let a' := m_dev (work_notify env a a w) in
  flags a' = flags a
  \/ flags a' = clear_bit ANX7688_F_PWRSUPPLY_CHANGE (flags a).
Proof.
  unfold work_notify, anx7688_handle_vbus_in_notify.
  destruct (test_bit ANX7688_F_PWRSUPPLY_CHANGE (flags a));
    [|left; reflexivity].
  destruct a, w as [tick0 clock0 trace0 dz0]. run_m.
  destruct (reply env _ tick0 =? 0); cbn [negb]; run_m;
    [destruct (last_bc_result0 =? propval env tick0); run_m|];
    right; reflexivity.
Qed.

Lemma connect_fw_timeout env a w :
  fw_never_loaded env ->
  (forall k, reply env (regulator_enable VCONN) k = 0) ->
  let x := anx7688_connect env a w in
  m_val x = - ETIMEDOUT
  /\ test_bit ANX7688_F_FW_FAILED (flags (m_dev x)) = true
  /\ test_bit ANX7688_F_CONNECTED (flags (m_dev x))
     = test_bit ANX7688_F_CONNECTED (flags a).
Proof.
  intros Hnever Hvconn. cbv zeta.
  destruct a, w as [tick0 clock0 trace0 dz0].
  unfold anx7688_connect, err_vconoff, err_poweroff, anx7688_power_enable,
    anx7688_power_disable.
  run_m. rewrite Hvconn. cbn [Z.eqb negb]. run_m.
  match goal with |- context [connect_wait_fw env 100 ?w2] =>
    destruct (connect_wait_fw_timeout env 100 w2 Hnever) as (Hl & _);
    destruct (connect_wait_fw env 100 w2)
      as [loaded [tick3 clock3 trace3 dz3]] end.
  cbn [io_val fst] in Hl. subst loaded. cbn [negb]. run_m.
  split; [reflexivity|]. split; flag_solve.
Qed.

(** X14. A firmware that does not load ends the driver's work: when the
    cable is plugged into a device that is not connected and the
    firmware-loaded bit is never read as set, the run of [anx7688_work]
    leaves the Firmware-failed flag set and the device not connected, and
    in that state every run of [anx7688_work] returns at once, without a
    call and without a change, whatever the hardware does. *)
Theorem fw_failure_is_final :
  forall env a w,
    test_bit ANX7688_F_FW_FAILED (flags a) = false ->
    test_bit ANX7688_F_CONNECTED (flags a) = false ->
    (forall k, reply env cabledet_read k <> 0) ->
    (forall k, reply env (regulator_enable VCONN) k = 0) ->
    fw_never_loaded env ->
    let a' := m_dev (anx7688_work env a w) in
    test_bit ANX7688_F_FW_FAILED (flags a') = true
    /\ test_bit ANX7688_F_CONNECTED (flags a') = false
    /\ forall env' w', anx7688_work env' a' w' = (tt, a', w').
Proof.
  intros env a w Hfw Hconn Hcable Hvconn Hnever a'.
  assert (Hbits : test_bit ANX7688_F_FW_FAILED (flags a') = true
                  /\ test_bit ANX7688_F_CONNECTED (flags a') = false).
  { subst a'. rewrite work_run, Hfw.
    pose proof (work_notify_flags env a w) as Hn.
    destruct (work_notify env a a w) as [[u1 a1] w1].
    cbn [m_dev fst snd] in Hn.
    assert (Hconn1 : test_bit ANX7688_F_CONNECTED (flags a1) = false).
    { destruct Hn as [-> | ->]; [exact Hconn|].
      rewrite test_clear_other by flag_side. exact Hconn. }
    unfold anx7688_handle_cable_change.
    rewrite bind_run. cbn [get]. rewrite bind_run. cbn [lift extern].
    fold cabledet_read. rewrite Hconn1.
    rewrite (proj2 (Z.eqb_neq _ _) (Hcable (tick w1))). cbn [negb andb].
    rewrite bind_run.
    match goal with |- context [anx7688_connect env a1 ?w2] =>
      destruct (connect_fw_timeout env a1 w2 Hnever Hvconn) as (_ & Hf & Hc);
      destruct (anx7688_connect env a1 w2) as [[r a2] w3] end.
    cbn [m_dev fst snd ret] in *. rewrite Hconn1 in Hc. rewrite Hc.
    cbn [m_dev fst snd]. split; [exact Hf | exact Hc]. }
  destruct Hbits as [Hf Hc]. split; [exact Hf|]. split; [exact Hc|].
  intros env' w'. rewrite work_run, Hf. reflexivity.
Qed.

Lemma fw_failure_is_final_witness :
  anx7688_work fw_ready (m_dev (anx7688_work plugged probed boot)) boot
  = (tt, m_dev (anx7688_work plugged probed boot), boot).
Proof.
  destruct (fw_failure_is_final plugged probed boot) as (_ & _ & Hfinal).
  - reflexivity.
  - reflexivity.
  - intros k. cbn. discriminate.
  - intros k. reflexivity.
  - intros k. right. reflexivity.
  - apply Hfinal.
Defined.

(** ** The current update that is due *)

Lemma calls_tail2 p (e1 e2 : call * Z) :
  exists before, map fst ((p ++ [e1]) ++ [e2]) = before ++ [fst e1; fst e2].
Proof.
  exists (map fst p). rewrite !map_app, <- app_assoc. reflexivity.
Qed.

Lemma cc_status_range v :
  anx7688_cc_status v = -1 \/ anx7688_cc_status v = TYPEC_PWR_MODE_USB
  \/ anx7688_cc_status v = TYPEC_PWR_MODE_1_5A
  \/ anx7688_cc_status v = TYPEC_PWR_MODE_3_0A.
Proof.
  unfold anx7688_cc_status.
  destruct (v =? 0); [left; reflexivity|].
  destruct (v =? 1); [left; reflexivity|].
  destruct (v =? 2); [left; reflexivity|].
  destruct (v =? 4); [right; left; reflexivity|].
  destruct (v =? 8); [right; right; left; reflexivity|].
  destruct (v =? 12); [right; right; right; reflexivity|].
  left; reflexivity.
Qed.

Lemma current_update_pwr_mode_range a :
  In (current_update_pwr_mode a)
     [TYPEC_PWR_MODE_USB; TYPEC_PWR_MODE_1_5A; TYPEC_PWR_MODE_3_0A;
      TYPEC_PWR_MODE_PD].
Proof.
  unfold current_update_pwr_mode. cbv zeta.
  destruct (pd_capable a); [do 3 right; left; reflexivity|].
  destruct (u32 (last_cc_status a) <? 0); [left; reflexivity|].
  destruct (cc_status_range (Z.land (u32 (last_cc_status a)) 0xf))
    as [H1|[H1|[H1|H1]]]; rewrite H1; cbn [Z.ltb Z.compare];
    [| left; reflexivity | right; left; reflexivity
     | right; right; left; reflexivity ].
  destruct (cc_status_range
              (Z.land (Z.shiftr (u32 (last_cc_status a)) 4) 0xf))
    as [H2|[H2|[H2|H2]]]; rewrite H2; cbn [Z.ltb Z.compare];
    [ left; reflexivity | left; reflexivity | right; left; reflexivity
    | right; right; left; reflexivity ].
Qed.

Lemma handle_current_update_tail env a w :
  let x := anx7688_handle_current_update env a w in
  current_update_deadline (m_dev x) = current_update_deadline a
  /\ exists before,
       calls (m_world x)
       = before ++ [ power_supply_set_property POWER_SUPPLY_PROP_ONLINE 1;
                     typec_set_pwr_opmode (current_update_pwr_mode a) ].
Proof.
  cbv zeta. unfold anx7688_handle_current_update.
  destruct a, w as [tick0 clock0 trace0 dz0]. run_m.
  destruct (current_update_limit _ _ =? 0); cbn [negb]; run_m;
    [destruct (negb _ || _); run_m|];
    (split; [reflexivity|]); unfold calls; cbn [trace]; apply calls_tail2.
Qed.

(** X15. In a connected device with the cable plugged in, a run of
    [anx7688_work] that starts after a pending deadline clears the deadline
    and re-evaluates the current limit: its last two calls put the input
    path online and report one of the four power modes to the port. *)
Theorem work_runs_due_update :
  forall env a w,
    test_bit ANX7688_F_FW_FAILED (flags a) = false ->
    test_bit ANX7688_F_CONNECTED (flags a) = true ->
    (forall k, reply env cabledet_read k <> 0) ->
    current_update_deadline a <> 0 ->
    current_update_deadline a < clock w ->
    let x := anx7688_work env a w in
    current_update_deadline (m_dev x) = 0
    /\ exists before mode,
         In mode [TYPEC_PWR_MODE_USB; TYPEC_PWR_MODE_1_5A;
                  TYPEC_PWR_MODE_3_0A; TYPEC_PWR_MODE_PD]
         /\ calls (m_world x)
            = before ++ [ power_supply_set_property POWER_SUPPLY_PROP_ONLINE 1;
                          typec_set_pwr_opmode mode ].
Proof.
  intros env a w Hfw Hconn Hcable Hset Hdue x. subst x.
  rewrite work_run, Hfw.
  pose proof (steady_work_notify env a a w) as Hs.
  destruct (work_notify env a a w) as [[u1 a1] w1].
  cbn [m_dev m_world fst snd] in Hs.
  destruct Hs as (Hd1 & Hf1 & Hc1 & _).
  rewrite steady_handle_cable_change by (try apply Hcable; congruence).
  rewrite Hf1, Hconn.
  pose proof (steady_update_status
                env a1 (io_world (extern env cabledet_read w1))) as Hs.
  destruct (anx7688_update_status env a1 _) as [[u3 a3] w3].
  cbn [m_dev m_world fst snd] in Hs.
  destruct Hs as (Hd3 & _ & Hc3 & _).
  cbn [extern io_world snd clock] in Hc3.
  change (duration cabledet_read) with 0 in Hc3.
  assert (Hgate : negb (current_update_deadline a3 =? 0)
                  && ktime_after (clock w3) (current_update_deadline a3)
                  = true).
  { apply andb_true_iff. split.
    - apply negb_true_iff, Z.eqb_neq. congruence.
    - unfold ktime_after. rewrite Z.gtb_ltb. apply Z.ltb_lt. lia. }
  rewrite Hgate.
  destruct (handle_current_update_tail
              env (set_current_update_deadline 0 a3) w3) as (Hdl & before & Hb).
  split.
  - rewrite Hdl. destruct a3; reflexivity.
  - exists before, (current_update_pwr_mode (set_current_update_deadline 0 a3)).
    split; [apply current_update_pwr_mode_range | exact Hb].
Qed.

Lemma work_runs_due_update_witness :
  current_update_deadline
    (m_dev (anx7688_work
              plugged (set_current_update_deadline 1 in_contract)
              {| tick := 0; clock := 2; trace := []; div_by_zero := false |}))
  = 0.
Proof.
  apply (work_runs_due_update
           plugged (set_current_update_deadline 1 in_contract)
           {| tick := 0; clock := 2; trace := []; div_by_zero := false |}).
  - reflexivity.
  - reflexivity.
  - intros k. cbn. discriminate.
  - cbn. discriminate.
  - cbn. lia.
Defined.

(** ** Doing it twice *)

(** X16. The HDMI hot-plug signal is reported on its edges only: after
    [anx7688_set_hdmi_hpd] has run for a state, running it again for the
    same state makes no call and changes nothing, and a run makes at most
    the one call that reports the state. *)
Theorem set_hdmi_hpd_edge_triggered :
  forall env env' state a w w',
    let x := anx7688_set_hdmi_hpd env state a w in
    anx7688_set_hdmi_hpd env' state (m_dev x) w' = (tt, m_dev x, w')
    /\ (calls (m_world x) = calls w
        \/ calls (m_world x) = calls w ++ [extcon_set_state_sync state]).
Proof.
  intros env env' state a w w' x. subst x.
  rewrite (set_hdmi_hpd_run env), (set_hdmi_hpd_run env').
  destruct ((extcon a =? 0) || (last_extcon_state a =? state)) eqn:Hc;
    cbn [m_dev m_world fst snd].
  - rewrite Hc. split; [reflexivity | left; reflexivity].
  - apply orb_false_iff in Hc. destruct Hc as [Hext _].
    destruct a. cbn [extcon last_extcon_state set_last_extcon_state] in *.
    rewrite Hext, Z.eqb_refl. cbn [orb]. split; [reflexivity|].
    right. unfold calls. cbn [extern io_world snd trace].
    now rewrite map_app.
Qed.

Lemma clear_bit_again n m word :
  clear_bit n (clear_bit m (clear_bit n (clear_bit m word)))
  = clear_bit n (clear_bit m word).
Proof.
  unfold clear_bit. apply Z.bits_inj'. intros i Hi.
  rewrite !Z.clearbit_eqb.
  destruct (Z.testbit word i), (n =? i), (m =? i); reflexivity.
Qed.

(** X17. [anx7688_disconnect] twice is [anx7688_disconnect] once: the
    second run leaves the device as the first has left it, and it disables
    no regulator and reports no hot-plug change; its calls are the
    power-down of the chip and the resets of the port and of the upstream
    supply. *)
Theorem disconnect_twice :
  forall env env' a w w',
    let a1 := m_dev (anx7688_disconnect env a w) in
    let y := anx7688_disconnect env' a1 w' in
    m_dev y = a1 /\ calls (m_world y) = calls w' ++ disconnect_calls 0.
Proof.
  intros env env' a w w' a1 y. subst y a1.
  destruct a, w as [tick0 clock0 trace0 dz0], w' as [tick1 clock1 trace1 dz1].
  unfold anx7688_disconnect, anx7688_set_hdmi_hpd, anx7688_power_disable,
    disconnect_calls, power_down_calls.
  run_m.
  destruct (Z.eqb_spec extcon0 0) as [He|He]; run_m.
  - destruct vconn_on0, vbus_on0; run_m; rewrite ?He; cbn [Z.eqb]; run_m;
      rewrite clear_bit_again; (split; [reflexivity | calls_eq]).
  - destruct (last_extcon_state0 =? 0) eqn:Hl; cbn [negb]; run_m;
      destruct vconn_on0, vbus_on0; run_m;
      rewrite ?(proj2 (Z.eqb_neq _ _) He), ?Hl; cbn [Z.eqb negb]; run_m;
      rewrite clear_bit_again; (split; [reflexivity | calls_eq]).
Qed.

(** ** A connect that succeeds and a cable that has changed *)

Lemma trace_tail2 {A} (p : list A) e1 e2 :
  (p ++ [e1]) ++ [e2] = p ++ [e1; e2].
Proof. now rewrite <- app_assoc. Qed.

(** X18. When [anx7688_connect] returns 0 the chip is powered and
    connected, VCONN is on, the remembered status values are invalid
    again, and the current update is due 3000 ms after the return.  The
    last two calls of the run release the old partner and register the
    new one, and the partner of the device is the one that has just been
    registered.  The run has not touched VBUS, the PD state or the
    Firmware-failed flag. *)
Theorem connect_success :
  forall env a w,
    let x := anx7688_connect env a w in
    let a' := m_dev x in
    m_val x = 0 ->
    test_bit ANX7688_F_POWERED (flags a') = true
    /\ test_bit ANX7688_F_CONNECTED (flags a') = true
    /\ test_bit ANX7688_F_FW_FAILED (flags a')
       = test_bit ANX7688_F_FW_FAILED (flags a)
    /\ vconn_on a' = true
    /\ vbus_on a' = vbus_on a
    /\ pd_capable a' = pd_capable a
    /\ IS_ERR (partner a') = false
    /\ last_status a' = -1 /\ last_cc_status a' = -1 /\ last_dp_state a' = -1
    /\ current_update_deadline a' = ktime_add_ms (clock (m_world x)) 3000
    /\ exists before r,
         trace (m_world x)
         = before ++ [(typec_unregister_partner (partner a), r);
                      (typec_register_partner, partner a')].
Proof.
  intros env a w x a'. subst a' x.
  destruct a, w as [tick0 clock0 trace0 dz0].
  unfold anx7688_connect, err_vconoff, err_poweroff, anx7688_power_enable,
    anx7688_power_disable.
  run_m.
  destruct (Z.eqb_spec (reply env (regulator_enable VCONN)
                              (S (S (S (S (S (S tick0))))))) 0) as [Hv|Hv];
    cbn [negb]; run_m; [|intros H0; contradiction].
  destruct (connect_wait_fw env 100 _) as [loaded [tick3 clock3 trace3 dz3]].
  destruct loaded; cbn [negb]; run_m; [|intros H0; discriminate H0].
  destruct (until_error _ _) as [r [tick4 clock4 trace4 dz4]].
  destruct (Z.eqb_spec r 0) as [Hr|Hr]; cbn [negb]; run_m;
    [|intros H0; contradiction].
  destruct (IS_ERR (reply env typec_register_partner (S tick4))) eqn:Hp;
    run_m.
  { intros H0. unfold PTR_ERR, IS_ERR in *. apply andb_true_iff in Hp.
    destruct Hp as [_ Hp]. apply Z.ltb_lt in Hp. lia. }
  intros _. cbn [duration]. rewrite !Z.add_0_r.
  split; [flag_solve|]. split; [flag_solve|]. split; [flag_solve|].
  do 4 (split; [first [reflexivity | exact Hp]|]).
  do 4 (split; [reflexivity|]).
  eexists _, _. apply trace_tail2.
Qed.

Lemma connect_success_witness :
  vconn_on (m_dev (anx7688_connect fw_ready probed boot)) = true.
Proof.
  destruct (connect_success fw_ready probed boot eq_refl)
    as (_ & _ & _ & Hvconn & _).
  exact Hvconn.
Defined.

Lemma disconnect_not_connected env a w :
  test_bit ANX7688_F_CONNECTED (flags (m_dev (anx7688_disconnect env a w)))
  = false.
Proof.
  destruct a, w as [tick0 clock0 trace0 dz0].
  unfold anx7688_disconnect, anx7688_set_hdmi_hpd, anx7688_power_disable.
  run_m.
  destruct (extcon0 =? 0), (last_extcon_state0 =? 0), vconn_on0, vbus_on0;
    cbn [negb]; run_m; apply test_clear_same.
Qed.

(** X19. When the cable-detect line agrees with the Connected flag,
    [anx7688_handle_cable_change] has nothing to do: the read of the line
    is its only call and the state is left alone.  And whatever the state
    was, a line that reads 0 leaves the device not connected. *)
Theorem cable_change_settles :
  forall env a w,
    let cabledet := reply env cabledet_read (tick w) in
    let connected := test_bit ANX7688_F_CONNECTED (flags a) in
    let x := anx7688_handle_cable_change env a w in
    (negb (cabledet =? 0) = connected ->
     m_dev x = a /\ calls (m_world x) = calls w ++ [cabledet_read])
    /\ (cabledet = 0 ->
        test_bit ANX7688_F_CONNECTED (flags (m_dev x)) = false).
Proof.
  intros env a w cabledet connected x.
  assert (Hx : anx7688_handle_cable_change env a w = x) by reflexivity.
  clearbody x. revert Hx. unfold anx7688_handle_cable_change.
  rewrite bind_run. cbn [get]. rewrite bind_run. cbn [lift extern].
  fold cabledet_read. fold cabledet. fold connected.
  destruct (Z.eqb_spec cabledet 0) as [Hcd|Hcd], connected eqn:Hconn;
    cbn [negb andb].
  - intros <-. split; [discriminate|].
    intros _. apply disconnect_not_connected.
  - intros <-. cbn [ret m_dev m_world fst snd]. split.
    + intros _. split; [reflexivity|]. unfold calls. cbn [trace].
      now rewrite map_app.
    + intros _. exact Hconn.
  - intros <-. cbn [ret m_dev m_world fst snd]. split.
    + intros _. split; [reflexivity|]. unfold calls. cbn [trace].
      now rewrite map_app.
    + intros Habs. contradiction.
  - intros <-. split; [discriminate | intros Habs; contradiction].
Qed.

Lemma cable_change_settles_witness :
  test_bit ANX7688_F_CONNECTED
    (flags (m_dev (anx7688_handle_cable_change quiet in_contract boot)))
  = false.
Proof.
  apply (cable_change_settles quiet in_contract boot). reflexivity.
Defined.

(** ** Role swaps *)

(** X20. The role requests of the Type-C class never change the state of
    the driver: the role it holds changes only when the chip reports it.
    A request for the role the port has returns 0 without a call.  A
    request for the other role sends a swap request without payload: when
    the send queue is empty and drained again at the first poll, the calls
    are the read of the queue, the write of the three bytes of the frame
    and the poll, and the result is that of the poll. *)
Theorem role_requests_send_swaps :
  forall env role a w,
    let swap (cmd checksum : Z) :=
      calls w ++ [ queue_read;
                   i2c_smbus_write_i2c_block_data
                     TCPC ANX7688_TCPC_REG_INTERFACE_SEND 3
                     [1; cmd; checksum];
                   queue_read ] in
    let poll := reply env queue_read (2 + tick w) in
    let d := anx7688_dr_set env role a w in
    let p := anx7688_pr_set env role a w in
    m_dev d = a /\ m_dev p = a
    /\ (data_role a = role -> m_val d = 0 /\ m_world d = w)
    /\ (pwr_role a = role -> m_val p = 0 /\ m_world p = w)
    /\ (reply env queue_read (tick w) = 0 -> poll <= 0 ->
        (data_role a <> role ->
         m_val d = poll
         /\ calls (m_world d) = swap ANX7688_OCM_MSG_DSWAP_REQ 0xee)
        /\ (pwr_role a <> role ->
            m_val p = poll
            /\ calls (m_world p) = swap ANX7688_OCM_MSG_PSWAP_REQ 0xef)).
Proof.
  intros env role a w swap poll d p. subst d p swap poll.
  unfold anx7688_dr_set, anx7688_pr_set. rewrite !bind_run. cbn [get].
  split.
  { destruct (negb _); [|reflexivity]. unfold lift.
    destruct (anx7688_send_ocm_message env _ [] w). reflexivity. }
  split.
  { destruct (negb _); [|reflexivity]. unfold lift.
    destruct (anx7688_send_ocm_message env _ [] w). reflexivity. }
  split.
  { intros ->. rewrite Z.eqb_refl. split; reflexivity. }
  split.
  { intros ->. rewrite Z.eqb_refl. split; reflexivity. }
  intros Hempty Hpoll.
  assert (Hsend : forall cmd checksum,
             ocm_frame cmd [] = [1; cmd; checksum] ->
             let x := anx7688_send_ocm_message env cmd [] w in
             io_val x = reply env queue_read (2 + tick w)
             /\ calls (io_world x)
                = calls w ++ [ queue_read;
                               i2c_smbus_write_i2c_block_data
                                 TCPC ANX7688_TCPC_REG_INTERFACE_SEND 3
                                 [1; cmd; checksum];
                               queue_read ]).
  { intros cmd checksum Hframe. cbv zeta.
    unfold anx7688_send_ocm_message. cbv zeta.
    change (len (@nil Z) >? 32 - 3) with false. cbv iota.
    change (len (@nil Z) + 3) with 3. rewrite Hframe. unfold io_bind, anx7688_tcpc_reg_read. cbn [extern].
    fold queue_read. rewrite Hempty. cbn [Z.eqb negb].
    cbn [send_wait_flush]. unfold io_bind, anx7688_tcpc_reg_read.
    cbn [extern tick]. fold queue_read.
    change (S (S (tick w))) with (2 + tick w)%nat.
    destruct (Z.leb_spec (reply env queue_read (2 + tick w)) 0); [|lia].
    unfold io_ret. cbn [io_val io_world fst snd]. split; [reflexivity|].
    unfold calls. cbn [trace]. rewrite !map_app. cbn [map fst].
    rewrite <- !app_assoc. reflexivity. }
  split; intros Hne; rewrite (proj2 (Z.eqb_neq _ _) Hne); cbn [negb];
    unfold lift.
  - destruct (Hsend ANX7688_OCM_MSG_DSWAP_REQ 0xee eq_refl) as [Hv Hc].
    destruct (anx7688_send_ocm_message env ANX7688_OCM_MSG_DSWAP_REQ [] w).
    split; [exact Hv | exact Hc].
  - destruct (Hsend ANX7688_OCM_MSG_PSWAP_REQ 0xef eq_refl) as [Hv Hc].
    destruct (anx7688_send_ocm_message env ANX7688_OCM_MSG_PSWAP_REQ [] w).
    split; [exact Hv | exact Hc].
Qed.

Lemma role_requests_send_swaps_witness :
  calls (m_world (anx7688_dr_set quiet TYPEC_HOST probed boot))
  = [ queue_read;
      i2c_smbus_write_i2c_block_data
        TCPC ANX7688_TCPC_REG_INTERFACE_SEND 3 [1; 0x11; 0xee];
      queue_read ].
Proof.
  destruct (role_requests_send_swaps quiet TYPEC_HOST probed boot)
    as (_ & _ & _ & _ & Hswap).
  destruct (Hswap eq_refl ltac:(cbn; lia)) as (Hdr & _).
  apply Hdr. discriminate.
Defined.

(** ** How long a message takes *)

Lemma send_wait_flush_bounded env n : forall w,
  let x := send_wait_flush env n w in
  clock w <= clock (io_world x)
  <= clock w + Z.of_nat n * (100 * NSEC_PER_USEC)
  /\ exists added,
       extends w (io_world x) added
       /\ (length added <= 2 * n)%nat
       /\ Forall (fun e => is_transmit (fst e) = false) added.
Proof.
  induction n as [|n IH]; intros w; cbv zeta.
  - cbn [send_wait_flush io_ret io_world snd]. split; [lia|].
    exists []. split; [apply extends_refl|]. split; [cbn; lia | constructor].
  - cbn [send_wait_flush]. unfold io_bind, anx7688_tcpc_reg_read.
    cbn [extern]. fold queue_read.
    destruct (reply env queue_read (tick w) <=? 0).
    + unfold io_ret. cbn [io_world snd clock].
      change (duration queue_read) with 0. unfold NSEC_PER_USEC.
      split; [lia|].
      eexists [_]. split; [reflexivity|]. split; [cbn; lia|].
      constructor; [reflexivity | constructor].
    + match goal with |- context [send_wait_flush env n ?w2] =>
        specialize (IH w2) end.
      cbv zeta in IH. world_simpl.
      destruct IH as (Hclk & added & He & Hlen & Hf).
      change (duration queue_read) with 0 in *. cbn [duration] in *.
      unfold NSEC_PER_USEC in *. split; [lia|].
      exists ((queue_read, reply env queue_read (tick w))
              :: (udelay 100, reply env (udelay 100) (S (tick w))) :: added).
      split; [|split].
      * unfold extends in *. rewrite He. cbn [trace].
        rewrite <- !app_assoc. reflexivity.
      * cbn [length]. lia.
      * constructor; [reflexivity|]. constructor; [reflexivity | exact Hf].
Qed.

(** X21. [anx7688_send_ocm_message] always comes back: whatever the
    hardware answers, it makes at most 602 calls, writes at most one frame
    and spends at most 30 ms in its delays. *)
Theorem send_ocm_message_bounded :
  forall env cmd data w,
    let x := anx7688_send_ocm_message env cmd data w in
    clock w <= clock (io_world x) <= clock w + 30 * NSEC_PER_MSEC
    /\ exists added,
         extends w (io_world x) added
         /\ (length added <= 602)%nat
         /\ (transmissions (map fst added) <= 1)%nat.
Proof.
  intros env cmd data w x. subst x. unfold anx7688_send_ocm_message.
  destruct (len data >? 32 - 3).
  { unfold io_ret, NSEC_PER_MSEC. cbn [io_world snd]. split; [lia|].
    exists []. split; [apply extends_refl|]. split; cbn; lia. }
  unfold io_bind, anx7688_tcpc_reg_read. cbn [extern]. fold queue_read.
  destruct (negb (_ =? 0)).
  { unfold io_ret, NSEC_PER_MSEC. cbn [io_world snd clock].
    change (duration queue_read) with 0. split; [lia|].
    eexists [_]. split; [reflexivity|]. split; cbn; lia. }
  match goal with |- context [send_wait_flush env 300 ?w2] =>
    destruct (send_wait_flush_bounded env 300 w2)
      as (Hclk & added & He & Hlen & Hf) end.
  world_simpl. change (duration queue_read) with 0 in *.
  cbn [duration] in *. unfold NSEC_PER_USEC, NSEC_PER_MSEC in *.
  split; [lia|].
  eexists (_ :: _ :: added). split; [|split].
  - unfold extends in *. rewrite He. cbn [trace].
    rewrite <- !app_assoc. reflexivity.
  - cbn [length]. lia.
  - unfold transmissions. cbn [map fst filter is_transmit length].
    assert (Hnone : filter is_transmit (map fst added) = []).
    { clear - Hf. induction Hf as [|e l He _ IH]; [reflexivity|].
      cbn [map filter]. rewrite He. exact IH. }
    rewrite Hnone. cbn. lia.
Qed.

(** ** The pending power-supply event *)

Lemma connect_pwrsupply_flag env a w :
  test_bit ANX7688_F_PWRSUPPLY_CHANGE (flags (m_dev (anx7688_connect env a w)))
  = test_bit ANX7688_F_PWRSUPPLY_CHANGE (flags a).
Proof.
  destruct a, w as [tick0 clock0 trace0 dz0].
  unfold anx7688_connect, err_vconoff, err_poweroff, anx7688_power_enable,
    anx7688_power_disable.
  run_m.
  destruct (reply env (regulator_enable VCONN) _ =? 0); cbn [negb]; run_m;
    [|flag_solve].
  destruct (connect_wait_fw env 100 _) as [loaded [tick3 clock3 trace3 dz3]].
  destruct loaded; cbn [negb]; run_m; [|flag_solve].
  destruct (until_error _ _) as [r [tick4 clock4 trace4 dz4]].
  destruct (r =? 0); cbn [negb]; run_m; [|flag_solve].
  destruct (IS_ERR _); run_m; flag_solve.
Qed.

Lemma disconnect_pwrsupply_flag env a w :
  test_bit ANX7688_F_PWRSUPPLY_CHANGE
    (flags (m_dev (anx7688_disconnect env a w)))
  = test_bit ANX7688_F_PWRSUPPLY_CHANGE (flags a).
Proof.
  destruct a, w as [tick0 clock0 trace0 dz0].
  unfold anx7688_disconnect, anx7688_set_hdmi_hpd, anx7688_power_disable.
  run_m.
  destruct (extcon0 =? 0), (last_extcon_state0 =? 0), vconn_on0, vbus_on0;
    cbn [negb]; run_m; flag_solve.
Qed.

Lemma work_notify_pwrsupply_flag env a w :
  test_bit ANX7688_F_PWRSUPPLY_CHANGE (flags (m_dev (work_notify env a a w)))
  = false.
Proof.
  unfold work_notify, anx7688_handle_vbus_in_notify.
  destruct (test_bit ANX7688_F_PWRSUPPLY_CHANGE (flags a)) eqn:Hp;
    [|exact Hp].
  destruct a, w as [tick0 clock0 trace0 dz0]. run_m.
  destruct (reply env _ tick0 =? 0); cbn [negb]; run_m;
    [destruct (last_bc_result0 =? propval env tick0); run_m|];
    apply test_clear_same.
Qed.

(** X22. What a run of [anx7688_work] itself does to the
    Power-supply-change flag: unless the firmware has failed, the run
    clears the flag before it handles the event and never sets it, so that
    the flag is clear after a run during which the notifier has not fired,
    whether the flag was set before or not and whatever the run did about
    the cable.  The notifier [anx7688_vbus_in_notify] sets the flag from
    atomic context, without the lock; it is not part of the run, and a
    call of it during the run can leave the flag set. *)
Theorem work_acknowledges_supply_change :
  forall env a w,
    test_bit ANX7688_F_FW_FAILED (flags a) = false ->
    test_bit ANX7688_F_PWRSUPPLY_CHANGE (flags (m_dev (anx7688_work env a w)))
    = false.
Proof.
  intros env a w Hfw. rewrite work_run, Hfw.
  pose proof (work_notify_pwrsupply_flag env a w) as H1.
  destruct (work_notify env a a w) as [[u1 a1] w1].
  cbn [m_dev fst snd] in H1.
  assert (H2 : test_bit ANX7688_F_PWRSUPPLY_CHANGE
                 (flags (m_dev (anx7688_handle_cable_change env a1 w1)))
               = false).
  { unfold anx7688_handle_cable_change.
    rewrite bind_run. cbn [get]. rewrite bind_run. unfold lift.
    destruct (extern env (gpiod_get_value GPIO_CABLEDET) w1) as [cd w2].
    destruct (negb (cd =? 0) && negb (test_bit ANX7688_F_CONNECTED (flags a1))).
    - rewrite bind_run.
      pose proof (connect_pwrsupply_flag env a1 w2) as Hc.
      destruct (anx7688_connect env a1 w2) as [[r a2] w3].
      cbn [ret m_dev fst snd] in *. congruence.
    - destruct ((cd =? 0) && test_bit ANX7688_F_CONNECTED (flags a1)).
      + rewrite disconnect_pwrsupply_flag. exact H1.
      + exact H1. }
  destruct (anx7688_handle_cable_change env a1 w1) as [[u2 a2] w2].
  cbn [m_dev fst snd] in H2.
  destruct (test_bit ANX7688_F_CONNECTED (flags a2)); [|exact H2].
  pose proof (update_status_effect env a2 w2) as ((Hf3 & _) & _).
  destruct (anx7688_update_status env a2 w2) as [[u3 a3] w3].
  cbn [m_dev fst snd] in Hf3.
  destruct (negb (current_update_deadline a3 =? 0)
            && ktime_after (clock w3) (current_update_deadline a3)).
  - rewrite handle_current_update_flags.
    replace (flags (set_current_update_deadline 0 a3)) with (flags a3)
      by (destruct a3; reflexivity).
    rewrite Hf3. exact H2.
  - cbn [m_dev fst snd]. rewrite Hf3. exact H2.
Qed.

Lemma work_acknowledges_supply_change_witness :
  test_bit ANX7688_F_PWRSUPPLY_CHANGE
    (flags (m_dev (anx7688_work
                     plugged
                     (set_flags (set_bit ANX7688_F_PWRSUPPLY_CHANGE 0) probed)
                     boot)))
  = false.
Proof.
  apply (work_acknowledges_supply_change
           plugged (set_flags (set_bit ANX7688_F_PWRSUPPLY_CHANGE 0) probed)
           boot).
  reflexivity.
Defined.

(** ** Waiting for the EEPROM *)

(** Every iteration that does not end the loop sleeps for 5 ms, so the
    loop ends once the clock has passed the timeout. *)
Lemma eeprom_wait_ready_loop_returns env timeout n : forall w,
  (0 < n)%nat ->
  timeout < clock w + (Z.of_nat n - 1) * (5 * NSEC_PER_MSEC) ->
  exists r,
    io_val (eeprom_wait_ready_loop env n timeout w) = Some r
    /\ (r = 0 \/ r = - ETIMEDOUT \/ r < 0)
    /\ (clock (io_world (eeprom_wait_ready_loop env n timeout w)) = clock w
        \/ clock (io_world (eeprom_wait_ready_loop env n timeout w))
           <= timeout + 5 * NSEC_PER_MSEC).
Proof.
  unfold NSEC_PER_MSEC.
  induction n as [|n IH]; intros w Hpos Hn; [lia|].
  cbn [eeprom_wait_ready_loop]. unfold io_bind, anx7688_reg_read.
  cbn [extern].
  destruct (Z.ltb_spec (reply env (i2c_smbus_read_byte_data MAIN 0x7f)
                              (tick w)) 0) as [Hneg|_].
  { eexists. split; [reflexivity|]. split; [right; right; exact Hneg|].
    unfold io_ret. cbn [io_world snd clock duration]. left. lia. }
  destruct (Z.land _ 0x0f =? 7).
  { eexists. split; [reflexivity|]. split; [left; reflexivity|].
    unfold io_ret. cbn [io_world snd clock duration]. left. lia. }
  unfold ktime_get. cbn [clock].
  change (duration (i2c_smbus_read_byte_data MAIN 0x7f)) with 0.
  rewrite Z.add_0_r. unfold ktime_after.
  destruct (Z.gtb_spec (clock w) timeout) as [Hafter|Hnot].
  { eexists. split; [reflexivity|]. split; [right; left; reflexivity|].
    unfold io_ret. cbn [io_world snd clock duration]. left. lia. }
  match goal with |- context [eeprom_wait_ready_loop env n timeout ?w2] =>
    destruct (IH w2) as (r & Hr & Hcase & Hclk) end.
  { lia. }
  { cbn [clock duration]. unfold NSEC_PER_MSEC. lia. }
  exists r. split; [exact Hr|]. split; [exact Hcase|].
  world_simpl. cbn [duration] in *. unfold NSEC_PER_MSEC in *. right. lia.
Qed.

(** When the state machine never gets ready, the loop reads its state
    once more than it sleeps, and it sleeps as long as the clock has not
    passed the timeout. *)
Lemma eeprom_wait_ready_loop_timeout env timeout :
  eeprom_never_ready env ->
  forall k n w,
    (k < n)%nat ->
    clock w + (Z.of_nat k - 1) * (5 * NSEC_PER_MSEC) <= timeout
    < clock w + Z.of_nat k * (5 * NSEC_PER_MSEC) ->
    let x := eeprom_wait_ready_loop env n timeout w in
    io_val x = Some (- ETIMEDOUT)
    /\ calls (io_world x)
       = calls w ++ concat (repeat [eeprom_state_read; msleep 5] k)
           ++ [eeprom_state_read]
    /\ clock (io_world x) = clock w + Z.of_nat k * (5 * NSEC_PER_MSEC).
Proof.
  intros Hnever. unfold NSEC_PER_MSEC.
  induction k as [|k IH]; intros n w Hk Hclk;
    (destruct n as [|n]; [lia|]); cbv zeta;
    cbn [eeprom_wait_ready_loop]; unfold io_bind, anx7688_reg_read;
    cbn [extern]; fold eeprom_state_read;
    destruct (Hnever (tick w)) as [Hge Hstate];
    (destruct (Z.ltb_spec (reply env eeprom_state_read (tick w)) 0);
     [lia|]);
    rewrite (proj2 (Z.eqb_neq _ _) Hstate);
    unfold ktime_get, ktime_after; cbn [clock];
    change (duration eeprom_state_read) with 0; rewrite Z.add_0_r.
  - destruct (Z.gtb_spec (clock w) timeout); [|lia].
    unfold io_ret. cbn [io_val io_world fst snd clock].
    split; [reflexivity|]. split; [|lia].
    unfold calls. cbn [trace repeat concat app]. now rewrite map_app.
  - destruct (Z.gtb_spec (clock w) timeout); [lia|].
    match goal with |- context [eeprom_wait_ready_loop env n timeout ?w2] =>
      specialize (IH n w2) end.
    cbv zeta in IH. world_simpl. cbn [duration] in *.
    unfold NSEC_PER_MSEC in *.
    destruct IH as (Hv & Hc & Ht); [lia | lia |].
    split; [exact Hv|]. split.
    + rewrite Hc. unfold calls. cbn [trace repeat concat].
      rewrite !map_app. cbn [map fst]. rewrite <- !app_assoc. reflexivity.
    + rewrite Ht. lia.
Qed.

Lemma ktime_add_us_small kt usec :
  0 <= kt < 2 ^ 62 -> 0 <= usec <= 1000000 ->
  ktime_add_us kt usec = kt + usec * NSEC_PER_USEC.
Proof.
  intros Hkt Hus. unfold ktime_add_us, NSEC_PER_USEC.
  apply s64_small. lia.
Qed.

(** X23. [anx7688_eeprom_wait_ready] comes to an end: its loop returns
    within 202 iterations and, on the clock that the sleeps advance,
    within 1005 ms, with 0, with the error of a read that failed or with
    [-ETIMEDOUT].  When the state machine of the EEPROM never gets ready,
    it polls the state 202 times, 5 ms apart, and returns [-ETIMEDOUT]
    1005 ms after it has started. *)
Theorem eeprom_wait_ready_gives_up :
  forall env n w,
    0 <= clock w < 2 ^ 62 -> (202 <= n)%nat ->
    let x := anx7688_eeprom_wait_ready env n w in
    (exists r, io_val x = Some r /\ (r = 0 \/ r = - ETIMEDOUT \/ r < 0))
    /\ clock (io_world x) <= clock w + 1005 * NSEC_PER_MSEC
    /\ (eeprom_never_ready env ->
        io_val x = Some (- ETIMEDOUT)
        /\ calls (io_world x)
           = calls w ++ concat (repeat [eeprom_state_read; msleep 5] 201)
               ++ [eeprom_state_read]
        /\ clock (io_world x) = clock w + 1005 * NSEC_PER_MSEC).
Proof.
  intros env n w Hclk Hn x. subst x.
  unfold anx7688_eeprom_wait_ready, io_bind, ktime_get.
  rewrite ktime_add_us_small by lia. unfold NSEC_PER_USEC.
  split; [|split].
  - destruct (eeprom_wait_ready_loop_returns
                env (clock w + 1000000 * 1000) n w) as (r & Hr & Hcase & _).
    + lia.
    + unfold NSEC_PER_MSEC. lia.
    + exists r. split; [exact Hr | exact Hcase].
  - destruct (eeprom_wait_ready_loop_returns
                env (clock w + 1000000 * 1000) n w) as (_ & _ & _ & Hbound).
    + lia.
    + unfold NSEC_PER_MSEC. lia.
    + unfold NSEC_PER_MSEC in *. lia.
  - intros Hnever.
    destruct (eeprom_wait_ready_loop_timeout
                env (clock w + 1000000 * 1000) Hnever 201 n w)
      as (Hv & Hc & Ht).
    + lia.
    + unfold NSEC_PER_MSEC. lia.
    + split; [exact Hv|]. split; [exact Hc|].
      rewrite Ht. unfold NSEC_PER_MSEC. lia.
Qed.

Lemma eeprom_wait_ready_gives_up_witness :
  io_val (anx7688_eeprom_wait_ready quiet 202 boot) = Some (- ETIMEDOUT).
Proof.
  destruct (eeprom_wait_ready_gives_up quiet 202 boot)
    as (_ & _ & Hnever).
  - cbn. lia.
  - lia.
  - apply Hnever. intros k. cbn. split; [lia | discriminate].
Defined.
